(** * WatchTogether: playback synchronisation, authority gate and room session

    A shallow embedding of [src/App.jsx] (Vite + React, Firebase Realtime
    Database).

    - Every handler of the [App] component is a closure over the state of
      the render that created it.  A handler is modelled as a function of an
      explicit [Session] record (the state its closure reads), of the store,
      of the mounted player, and of the values it obtains from the platform:
      [Date.now()], [makeId(..)], the result of [new URL(..)], the outcome
      of [video.play()].
    - The two player components are modelled with their refs and state
      hooks; what the media element and the YouTube widget do on their own
      (playback progress, the events they dispatch and when) is input.
    - [Client] puts the pieces on the event loop: one handler runs per
      event; when it has changed a state hook React renders again, which
      rebuilds the YouTube widget (its effect depends on handlers that every
      render creates anew) and re-runs the effects whose dependencies
      changed.  Listeners registered by the room effect keep the state of
      the render that registered them.
    - JavaScript numbers are exact rationals ([Q]); strings are ASCII
      [string]s; a store node whose children may be missing is a record of
      [option]s.  Of the presence node only the write is modelled; the chat
      functions are modelled apart from the client. *)

From Stdlib Require Import QArith Qabs Qround ZArith String Ascii List Bool Lia.
From Stdlib Require Import DecimalString Sorted Permutation.
From Stdlib.Strings Require Import Byte.
From stdpp Require Import base gmap strings.
Import ListNotations.
Open Scope string_scope.

(* ================================================================== *)
(** ** Utilities: URL classification and YouTube id extraction         *)
(* ================================================================== *)

Module Url.

(** [s.includes(needle)], also what [RegExp.test] computes for a pattern
    that is a plain literal. *)
Fixpoint includes (needle hay : string) : bool :=
  String.prefix needle hay
  || match hay with
     | EmptyString => false
     | String _ rest => includes needle rest
     end.

(** [/youtu\.be\//.test(u) || /youtube\.com\/.*/.test(u)]: neither pattern
    is anchored, and the trailing [.*] matches the empty string. *)
Definition isYouTubeUrl (u : string) : bool :=
  includes "youtu.be/" u || includes "youtube.com/" u.

(** The parts of a WHATWG [URL] object that [extractYouTubeId] reads.
    [searchParams] keeps the order of the query string. *)
Record URL : Type := mkURL {
  hostname : string;
  pathname : string;
  searchParams : list (string * string);
}.

(** [u.searchParams.get(name)]: the first value stored under [name]. *)
Fixpoint searchParams_get (name : string) (ps : list (string * string))
  : option string :=
  match ps with
  | [] => None
  | (k, v) :: rest =>
      if String.eqb k name then Some v else searchParams_get name rest
  end.

(** [s.slice(1)]. *)
Definition slice1 (s : string) : string :=
  match s with
  | EmptyString => EmptyString
  | String _ rest => rest
  end.

Fixpoint skip (n : nat) (s : string) : string :=
  match n, s with
  | O, _ => s
  | S n', String _ rest => skip n' rest
  | S _, EmptyString => EmptyString
  end.

(** The character class [[\w-]]: letters, digits, underscore, hyphen. *)
Definition isWordChar (c : ascii) : bool :=
  let n := nat_of_ascii c in
  ((48 <=? n) && (n <=? 57))%nat
  || ((65 <=? n) && (n <=? 90))%nat
  || ((97 <=? n) && (n <=? 122))%nat
  || (n =? 95)%nat
  || (n =? 45)%nat.

(** The greedy run [[\w-]*] at the head of [s]. *)
Fixpoint takeWord (s : string) : string :=
  match s with
  | EmptyString => EmptyString
  | String c rest =>
      if isWordChar c then String c (takeWord rest) else EmptyString
  end.

(** JavaScript truthiness of a string. *)
Definition truthy (s : string) : bool :=
  match s with
  | EmptyString => false
  | String _ _ => true
  end.

(** [path.match(/\/embed\/([\w-]+)/)], returning capture group 1: the
    leftmost position where the literal is followed by at least one class
    character, and the longest run from there. *)
Fixpoint matchEmbed (path : string) : option string :=
  match path with
  | EmptyString => None
  | String _ rest =>
      if String.prefix "/embed/" path then
        let w := takeWord (skip 7 path) in
        if truthy w then Some w else matchEmbed rest
      else matchEmbed rest
  end.

(** [extractYouTubeId(url)].  The argument is the outcome of
    [new URL(url)]: [None] when the constructor throws, which the
    [try]/[catch] turns into [null]. *)
Definition extractYouTubeId (parsed : option URL) : option string :=
  match parsed with
  | None => None
  | Some u =>
      if String.eqb (hostname u) "youtu.be" then Some (slice1 (pathname u))
      else if includes "youtube.com" (hostname u) then
        match searchParams_get "v" (searchParams u) with
        | Some v =>
            if truthy v then Some v
            else matchEmbed (pathname u)
        | None => matchEmbed (pathname u)
        end
      else None
  end.

(** Which player component the render mounts:
    [usingYT && ytId ? <YouTubePlayer videoId={ytId}/> : <Html5Player url={videoUrl}/>]. *)
Inductive PlayerChoice : Type :=
| MountYouTube (videoId : string)
| MountHtml5 (url : string).

Definition selectPlayer (videoUrl : string) (parsed : option URL)
  : PlayerChoice :=
  let usingYT := isYouTubeUrl videoUrl in
  let ytId := if usingYT then extractYouTubeId parsed else None in
  match ytId with
  | Some id => if usingYT && truthy id then MountYouTube id
               else MountHtml5 videoUrl
  | None => MountHtml5 videoUrl
  end.

End Url.

(* ================================================================== *)
(** ** Numbers                                                          *)
(* ================================================================== *)

(** [x > y] on numbers. *)
Definition Qgtb (x y : Q) : bool := negb (Qle_bool x y).

(** [Math.max(0, x)]. *)
Definition max0 (x : Q) : Q := if Qle_bool 0 x then x else 0%Q.

Definition DRIFT_THRESHOLD : Q := 6 # 10.

(* ================================================================== *)
(** ** Playback controllers                                             *)
(* ================================================================== *)

(** The callbacks a player component receives from [App]. *)
Inductive Notification : Type :=
| LocalPlay
| LocalPause
| LocalSeek (t : Q)
| UserReady.

(** The imperative handle both player components expose through
    [useImperativeHandle]. *)
Class Controller (P : Type) : Type := {
  play : P -> P;
  pause : P -> P;
  seek : Q -> P -> P;
  getCurrentTime : P -> Q;
  isPlaying : P -> bool;
}.

(** *** The HTML5 [<video>] player *)

Module Html5Player.

(** The media element behind [videoRef.current].  [playError] is what the
    promise of [video.play()] does: [None] when it resolves, [Some msg]
    when the browser rejects it with that message. *)
Record Video : Type := mkVideo {
  currentTime : Q;
  paused : bool;
  ended : bool;
  muted : bool;
  playError : option string;
}.

(** Component state: the element, [suppressRef.current], the two state
    hooks, and the [setTimeout] callbacks not yet run (every one of them
    is [() => (suppressRef.current = false)]). *)
Record t : Type := mk {
  video : Video;
  suppressRef : bool;
  needUserStart : bool;
  lastError : option string;
  timeouts : nat;
}.

Definition setVideo (v : Video) (st : t) : t :=
  mk v (suppressRef st) (needUserStart st) (lastError st) (timeouts st).

(** The part [play] and [userStart] share after setting [muted]:
    [await videoRef.current.play()] and the two branches of the [try]. *)
Definition awaitPlay (m : bool) (st : t) : t * bool :=
  let v := video st in
  match playError v with
  | None =>
      (mk (mkVideo (currentTime v) false (ended v) m None)
          (suppressRef st) false None (timeouts st), true)
  | Some msg =>
      (mk (mkVideo (currentTime v) (paused v) (ended v) m (Some msg))
          (suppressRef st) true (Some msg) (timeouts st), false)
  end.

Definition play (st : t) : t := fst (awaitPlay true st).

Definition pause (st : t) : t :=
  let v := video st in
  setVideo (mkVideo (currentTime v) true (ended v) (muted v) (playError v)) st.

(** [seek(sec)]: raise the flag, move the head, queue the reset. *)
Definition seek (sec : Q) (st : t) : t :=
  let v := video st in
  mk (mkVideo sec (paused v) (ended v) (muted v) (playError v))
     true (needUserStart st) (lastError st) (S (timeouts st)).

Definition getCurrentTime (st : t) : Q := currentTime (video st).

Definition isPlaying (st : t) : bool :=
  negb (paused (video st)) && negb (ended (video st)).

(** The overlay button's handler; the notification list is non-empty
    when [onUserReady] is called. *)
Definition userStart (st : t) : t * list Notification :=
  let (st', ok) := awaitPlay false st in
  (st', if ok then [UserReady] else []).

(** The three listeners attached to the element. *)
Inductive DomEvent : Type := EvPlay | EvPause | EvSeeked.

Definition handleEvent (e : DomEvent) (st : t) : list Notification :=
  if suppressRef st then []
  else match e with
       | EvPlay => [LocalPlay]
       | EvPause => [LocalPause]
       | EvSeeked => [LocalSeek (currentTime (video st))]
       end.

(** One pending [setTimeout] callback runs. *)
Definition runTimeout (st : t) : t :=
  match timeouts st with
  | O => st
  | S n => mk (video st) false (needUserStart st) (lastError st) n
  end.

(** The element's [onError] handler. *)
Definition onError (code : option string) (st : t) : t :=
  mk (video st) (suppressRef st) false
     (Some ("HTMLMediaError code " ++ default "?" code)) (timeouts st).

(** A freshly mounted component. *)
Definition mount (v : Video) : t := mk v false false None 0.

End Html5Player.

#[export] Instance Html5Controller : Controller Html5Player.t := {
  play := Html5Player.play;
  pause := Html5Player.pause;
  seek := Html5Player.seek;
  getCurrentTime := Html5Player.getCurrentTime;
  isPlaying := Html5Player.isPlaying;
}.

(** *** The YouTube IFrame player *)

Module YouTubePlayer.

(** Commands sent to the widget; it executes them asynchronously. *)
Inductive Command : Type :=
| playVideo
| pauseVideo
| seekTo (s : Q) (allowSeekAhead : bool).

(** The [YT.Player] object behind [player.current]: what its getters
    report, and the commands it has been sent. *)
Record Widget : Type := mkWidget {
  widgetTime : Q;
  playerState : Z;
  sent : list Command;
}.

Record t : Type := mk {
  player : Widget;
  ready : bool;
  suppress : bool;
  timeouts : nat;
}.

Definition send (c : Command) (st : t) : t :=
  let w := player st in
  mk (mkWidget (widgetTime w) (playerState w) (sent w ++ [c]))
     (ready st) (suppress st) (timeouts st).

Definition play (st : t) : t := if ready st then send playVideo st else st.

Definition pause (st : t) : t := if ready st then send pauseVideo st else st.

Definition seek (s : Q) (st : t) : t :=
  if ready st then
    let st1 := mk (player st) (ready st) true (timeouts st) in
    let st2 := send (seekTo s true) st1 in
    mk (player st2) (ready st2) (suppress st2) (S (timeouts st2))
  else st.

Definition getCurrentTime (st : t) : Q :=
  if ready st then widgetTime (player st) else 0%Q.

Definition isPlaying (st : t) : bool :=
  if ready st then Z.eqb (playerState (player st)) 1 else false.

Definition onReady (st : t) : t :=
  mk (player st) true (suppress st) (timeouts st).

(** [onStateChange(e)] with [data = e.data]. *)
Definition onStateChange (data : Z) (st : t) : list Notification :=
  if negb (ready st) || suppress st then []
  else if Z.eqb data 1 then [LocalPlay]
  else if Z.eqb data 2 then [LocalPause]
  else [].

Definition runTimeout (st : t) : t :=
  match timeouts st with
  | O => st
  | S n => mk (player st) (ready st) false n
  end.

Definition mount (w : Widget) : t := mk w false false 0.

(** What a [YT.Player] reports when it has just been constructed:
    unstarted ([-1]) at position 0, no command received. *)
Definition fresh : Widget := mkWidget 0 (-1) [].

(** The effect whose dependencies are [[videoId, onLocalPlay, onLocalPause]]
    runs again: its cleanup destroys the widget, its body constructs a new
    one.  The refs [ready] and [suppress] belong to the component and are
    not reset, nor are the timer callbacks already queued.  The new widget
    is taken to answer its getters, from its construction on, as an
    unstarted player does. *)
Definition rebuild (st : t) : t :=
  mk fresh (ready st) (suppress st) (timeouts st).

End YouTubePlayer.

#[export] Instance YouTubeController : Controller YouTubePlayer.t := {
  play := YouTubePlayer.play;
  pause := YouTubePlayer.pause;
  seek := YouTubePlayer.seek;
  getCurrentTime := YouTubePlayer.getCurrentTime;
  isPlaying := YouTubePlayer.isPlaying;
}.

(** What [playerRef.current] points to once a player is mounted. *)
Inductive Player : Type :=
| Html5 (h : Html5Player.t)
| YouTube (y : YouTubePlayer.t).

#[export] Instance PlayerController : Controller Player := {
  play p := match p with
            | Html5 h => Html5 (play h)
            | YouTube y => YouTube (play y)
            end;
  pause p := match p with
             | Html5 h => Html5 (pause h)
             | YouTube y => YouTube (pause y)
             end;
  seek s p := match p with
              | Html5 h => Html5 (seek s h)
              | YouTube y => YouTube (seek s y)
              end;
  getCurrentTime p := match p with
                      | Html5 h => getCurrentTime h
                      | YouTube y => getCurrentTime y
                      end;
  isPlaying p := match p with
                 | Html5 h => isPlaying h
                 | YouTube y => isPlaying y
                 end;
}.

(** The suppression flag of whichever player is mounted. *)
Definition suppressed (p : Player) : bool :=
  match p with
  | Html5 h => Html5Player.suppressRef h
  | YouTube y => YouTubePlayer.suppress y
  end.

(* ================================================================== *)
(** ** The store (Firebase Realtime Database)                           *)
(* ================================================================== *)

Module Store.

(** The node [rooms/{id}/playback].  A field is [None] when the node has
    no such child. *)
Record Playback : Type := mkPlayback {
  isPlaying : option bool;
  currentTime : option Q;
  updatedAt : option Q;
  by_ : option string;
}.

(** The node [rooms/{id}] with the children the session reads. *)
Record Room : Type := mkRoom {
  videoUrl : option string;
  hostId : option string;
  allowEveryoneControl : option bool;
  createdAt : option Q;
  playback : option Playback;
}.

Definition emptyRoom : Room := mkRoom None None None None None.

(** The write operations the session performs. *)
Inductive Write : Type :=
| SetRoom (id : string) (r : Room)
| SetPlayback (id : string) (p : Playback)
| UpdatePlayback (id : string) (p : Playback)
| UpdateRoom (id : string) (allow : bool)
| SetPresence (id uid name : string).

(** The tree under [rooms/], and the log of writes performed on it. *)
Record Db : Type := mkDb {
  rooms : gmap string Room;
  writes : list Write;
}.

Definition empty : Db := mkDb ∅ [].

(** [snapshot.val()] of [rooms/{id}]. *)
Definition val (id : string) (db : Db) : option Room := rooms db !! id.

(** [set(ref(db, `rooms/${id}`), r)]: the whole node is replaced. *)
Definition setRoom (id : string) (r : Room) (db : Db) : Db :=
  mkDb (<[id := r]> (rooms db)) (writes db ++ [SetRoom id r]).

Definition withPlayback (p : Playback) (r : Room) : Room :=
  mkRoom (videoUrl r) (hostId r) (allowEveryoneControl r) (createdAt r) (Some p).

(** [set(ref(db, `rooms/${id}/playback`), p)]: only that child changes. *)
Definition setPlayback (id : string) (p : Playback) (db : Db) : Db :=
  mkDb (<[id := withPlayback p (default emptyRoom (rooms db !! id))]> (rooms db))
       (writes db ++ [SetPlayback id p]).

(** [update(ref(db, `rooms/${id}/playback`), p)] with all four fields
    given, as [broadcastPlayback] does. *)
Definition updatePlayback (id : string) (p : Playback) (db : Db) : Db :=
  mkDb (<[id := withPlayback p (default emptyRoom (rooms db !! id))]> (rooms db))
       (writes db ++ [UpdatePlayback id p]).

Definition withAllow (b : bool) (r : Room) : Room :=
  mkRoom (videoUrl r) (hostId r) (Some b) (createdAt r) (playback r).

(** [update(ref(db, `rooms/${id}`), { allowEveryoneControl: b })]. *)
Definition updateRoom (id : string) (b : bool) (db : Db) : Db :=
  mkDb (<[id := withAllow b (default emptyRoom (rooms db !! id))]> (rooms db))
       (writes db ++ [UpdateRoom id b]).

(** [set(ref(db, `rooms/${id}/presence/${uid}`), { name, lastSeen })]: the
    node [rooms/{id}] exists afterwards; none of the children the session
    reads changes.  The stamp [lastSeen], which nothing reads, is not
    recorded. *)
Definition setPresence (id uid name : string) (db : Db) : Db :=
  mkDb (<[id := default emptyRoom (rooms db !! id)]> (rooms db))
       (writes db ++ [SetPresence id uid name]).

(** A write that publishes a playback state. *)
Definition isPlaybackWrite (w : Write) : bool :=
  match w with
  | SetPlayback _ _ | UpdatePlayback _ _ => true
  | SetRoom _ _ | UpdateRoom _ _ | SetPresence _ _ _ => false
  end.

Definition publishes (db : Db) : list Write := filter isPlaybackWrite (writes db).

End Store.

(* ================================================================== *)
(** ** The [App] component                                              *)
(* ================================================================== *)

(** The state hooks of [App] (and the memoised [myId]). *)
Module Session.

Record t : Type := mk {
  myId : string;
  nickname : string;
  roomId : string;
  isHost : bool;
  videoUrl : string;
  allowEveryone : bool;
  canControl : bool;
  viewerReady : bool;
  isPlaying : bool;
  remoteTime : Q;
  lastUpdateMs : Q;
}.

(** A participant who has not entered a room. *)
Definition initial (me name room : string) : t :=
  mk me name room false "" false false false false 0%Q 0%Q.

(** No state hook holds another value in [b] than in [a] ([Object.is] on
    each): React then skips the render. *)
Definition sameState (a b : t) : bool :=
  String.eqb (myId a) (myId b)
  && String.eqb (nickname a) (nickname b)
  && String.eqb (roomId a) (roomId b)
  && Bool.eqb (isHost a) (isHost b)
  && String.eqb (videoUrl a) (videoUrl b)
  && Bool.eqb (allowEveryone a) (allowEveryone b)
  && Bool.eqb (canControl a) (canControl b)
  && Bool.eqb (viewerReady a) (viewerReady b)
  && Bool.eqb (isPlaying a) (isPlaying b)
  && Qeq_bool (remoteTime a) (remoteTime b)
  && Qeq_bool (lastUpdateMs a) (lastUpdateMs b).

End Session.

(** JavaScript truthiness of an optional boolean field ([!!x]). *)
Definition truthyB (o : option bool) : bool := default false o.

(** [x || 0] for an optional number field. *)
Definition orZero (o : option Q) : Q := default 0%Q o.

(** *** Authority gate: the two Room handlers *)

(** [d.hostId === myId]. *)
Definition hostIs (me : string) (d : Store.Room) : bool :=
  match Store.hostId d with
  | Some h => String.eqb h me
  | None => false
  end.

(** The listener of [onValue(roomRef, ..)]. *)
Definition onRoomValue (d : option Store.Room) (s : Session.t) : Session.t :=
  match d with
  | None => s
  | Some d =>
      let me := Session.myId s in
      Session.mk me (Session.nickname s) (Session.roomId s)
        (hostIs me d)
        (Session.videoUrl s)
        (truthyB (Store.allowEveryoneControl d))
        (hostIs me d || truthyB (Store.allowEveryoneControl d))
        (Session.viewerReady s) (Session.isPlaying s)
        (Session.remoteTime s) (Session.lastUpdateMs s)
  end.

(** The continuation of [get(roomRef)]; it also fixes the video URL. *)
Definition onRoomGet (d : option Store.Room) (s : Session.t) : Session.t :=
  match d with
  | None => s
  | Some d =>
      let me := Session.myId s in
      Session.mk me (Session.nickname s) (Session.roomId s)
        (hostIs me d)
        (default "" (Store.videoUrl d))
        (truthyB (Store.allowEveryoneControl d))
        (hostIs me d || truthyB (Store.allowEveryoneControl d))
        (Session.viewerReady s) (Session.isPlaying s)
        (Session.remoteTime s) (Session.lastUpdateMs s)
  end.

(** *** Drift reconciliation *)

(** The calls [syncToPlayer] makes on [playerRef.current], in order. *)
Inductive Call : Type :=
| CallSeek (t : Q)
| CallPlay
| CallPause.

(** [should] of [syncToPlayer]. *)
Definition expectedPosition (now : Q) (p : Store.Playback) : Q :=
  let elapsed := ((now - orZero (Store.updatedAt p)) / 1000)%Q in
  (orZero (Store.currentTime p)
   + (if truthyB (Store.isPlaying p) then elapsed else 0))%Q.

(** The part of [syncToPlayer] below its two guards: the calls made on the
    controller [c], in order, and the controller after them.  [playing] is
    read after the seek, as in the source. *)
Definition reconcile (now : Q) (p : Store.Playback) (c : Player)
  : Player * list Call :=
  let should := expectedPosition now p in
  let cur := getCurrentTime c in
  let drift := Qabs (should - cur)%Q in
  let '(c1, l1) :=
    if Qgtb drift DRIFT_THRESHOLD
    then (seek should c, [CallSeek should]) else (c, []) in
  let playing := isPlaying c1 in
  let '(c2, l2) :=
    if truthyB (Store.isPlaying p) && negb playing
    then (play c1, [CallPlay]) else (c1, []) in
  let '(c3, l3) :=
    if negb (truthyB (Store.isPlaying p)) && playing
    then (pause c2, [CallPause]) else (c2, []) in
  (c3, (l1 ++ l2 ++ l3)%list).

(** [syncToPlayer(p)].  [now] is [Date.now()]; the result is
    [playerRef.current] after the calls, and the calls. *)
Definition syncToPlayer (s : Session.t) (now : Q) (p : option Store.Playback)
    (playerRef : option Player) : option Player * list Call :=
  match playerRef, p with
  | Some c, Some p =>
      let usingYT := Url.isYouTubeUrl (Session.videoUrl s) in
      if negb usingYT && negb (Session.viewerReady s) then (playerRef, [])
      else let (c', calls) := reconcile now p c in (Some c', calls)
  | _, _ => (playerRef, [])
  end.

(** The listener of [onValue(ref(db, `rooms/${roomId}/playback`), ..)].
    The listener is created by the room effect, so the [syncToPlayer] it
    calls is the one of the render for which that effect last ran: it reads
    [videoUrl] and [viewerReady] from that render's state [closure], while
    the setters act on the current state [s]. *)
Definition onPlaybackValue (closure : Session.t) (now : Q)
    (p : option Store.Playback) (s : Session.t) (playerRef : option Player)
  : Session.t * (option Player * list Call) :=
  match p with
  | None => (s, (playerRef, []))
  | Some pb =>
      (Session.mk (Session.myId s) (Session.nickname s) (Session.roomId s)
         (Session.isHost s) (Session.videoUrl s) (Session.allowEveryone s)
         (Session.canControl s) (Session.viewerReady s)
         (truthyB (Store.isPlaying pb))
         (orZero (Store.currentTime pb))
         (orZero (Store.updatedAt pb)),
       syncToPlayer closure now p playerRef)
  end.

(** [handleSyncNow]: [fetched] is the value of the one-off [get]. *)
Definition handleSyncNow (s : Session.t) (now : Q)
    (fetched : option Store.Playback) (playerRef : option Player)
  : option Player * list Call :=
  if negb (Url.truthy (Session.roomId s)) then (playerRef, [])
  else syncToPlayer s now fetched playerRef.

(** *** Publishing *)

(** [broadcastPlayback()]. *)
Definition broadcastPlayback (s : Session.t) (now : Q)
    (playerRef : option Player) (db : Store.Db) : Store.Db :=
  if negb (Session.canControl s) || negb (Url.truthy (Session.roomId s))
  then db
  else match playerRef with
       | None => db
       | Some c =>
           let ct := getCurrentTime c in
           Store.updatePlayback (Session.roomId s)
             (Store.mkPlayback (Some (isPlaying c)) (Some ct) (Some now)
                (Some (Session.myId s)))
             db
       end.

Definition handlePlay (s : Session.t) (now : Q)
    (playerRef : option Player) (db : Store.Db) : Store.Db :=
  if negb (Session.canControl s) then db
  else broadcastPlayback s now playerRef db.

Definition handlePause (s : Session.t) (now : Q)
    (playerRef : option Player) (db : Store.Db) : Store.Db :=
  if negb (Session.canControl s) then db
  else broadcastPlayback s now playerRef db.

Definition handleSeekDelta (s : Session.t) (d now : Q)
    (playerRef : option Player) (db : Store.Db) : option Player * Store.Db :=
  if negb (Session.canControl s) then (playerRef, db)
  else match playerRef with
       | None => (playerRef, db)
       | Some c =>
           let t := max0 (getCurrentTime c + d)%Q in
           let c' := seek t c in
           (Some c', broadcastPlayback s now (Some c') db)
       end.

(** How [App] wires a player's notifications: [onLocalPlay={handlePlay}],
    [onLocalPause={handlePause}], [onLocalSeek={() => broadcastPlayback()}],
    [onUserReady={() => setViewerReady(true)}]. *)
Definition setViewerReady (b : bool) (s : Session.t) : Session.t :=
  Session.mk (Session.myId s) (Session.nickname s) (Session.roomId s)
    (Session.isHost s) (Session.videoUrl s) (Session.allowEveryone s)
    (Session.canControl s) b (Session.isPlaying s)
    (Session.remoteTime s) (Session.lastUpdateMs s).

Definition notify (n : Notification) (now : Q) (playerRef : option Player)
    (sd : Session.t * Store.Db) : Session.t * Store.Db :=
  let (s, db) := sd in
  match n with
  | LocalPlay => (s, handlePlay s now playerRef db)
  | LocalPause => (s, handlePause s now playerRef db)
  | LocalSeek _ => (s, broadcastPlayback s now playerRef db)
  | UserReady => (setViewerReady true s, db)
  end.

Definition notifyAll (ns : list Notification) (now : Q)
    (playerRef : option Player) (sd : Session.t * Store.Db)
  : Session.t * Store.Db :=
  fold_left (fun acc n => notify n now playerRef acc) ns sd.

(** *** Permissions *)

Definition toggleEveryoneControl (s : Session.t) (db : Store.Db) : Store.Db :=
  if negb (Session.isHost s) || negb (Url.truthy (Session.roomId s)) then db
  else Store.updateRoom (Session.roomId s) (negb (Session.allowEveryone s)) db.

(** *** Room creation *)

(** ASCII white space, the part of what [String.prototype.trim] strips that
    an ASCII string can hold. *)
Definition isSpace (c : ascii) : bool :=
  let n := nat_of_ascii c in
  ((n =? 32) || ((9 <=? n) && (n <=? 13)))%nat.

Fixpoint trimStart (s : string) : string :=
  match s with
  | EmptyString => EmptyString
  | String c rest => if isSpace c then trimStart rest else s
  end.

Fixpoint trimEnd (s : string) : string :=
  match s with
  | EmptyString => EmptyString
  | String c rest =>
      let rest' := trimEnd rest in
      if isSpace c && negb (Url.truthy rest') then EmptyString
      else String c rest'
  end.

Definition trim (s : string) : string := trimEnd (trimStart s).

(** The session after the six [set..] calls that end [handleCreateRoom]. *)
Definition enterCreatedRoom (id url : string) (s : Session.t) : Session.t :=
  Session.mk (Session.myId s) (Session.nickname s) id true url false true
    false (Session.isPlaying s) (Session.remoteTime s) (Session.lastUpdateMs s).

(** [handleCreateRoom()]: [createUrl] is the text field, [id] the value of
    [makeId(10)], [t1] and [t2] the two readings of [Date.now()].  The
    function suspends at each [await]; the result lists the session and the
    store as they stand when each of its three segments has run (no segment
    runs when the trimmed URL is empty). *)
Definition handleCreateRoom (createUrl id : string) (t1 t2 : Q)
    (s : Session.t) (db : Store.Db) : list (Session.t * Store.Db) :=
  let url := trim createUrl in
  if negb (Url.truthy url) then []
  else
    let db1 :=
      Store.setRoom id
        (Store.mkRoom (Some url) (Some (Session.myId s)) (Some false)
           (Some t1) None) db in
    let db2 :=
      Store.setPlayback id
        (Store.mkPlayback (Some false) (Some 0%Q) (Some t2)
           (Some (Session.myId s))) db1 in
    [(s, db1); (s, db2); (enterCreatedRoom id url s, db2)].

(** *** Events reaching a mounted player *)

(** What the platform delivers to a player component: a media event of the
    [<video>] element, a state change reported by the widget, or a click on
    the "Click to start" overlay. *)
Inductive PlayerEvent : Type :=
| DomEv (e : Html5Player.DomEvent)
| StateChange (data : Z)
| StartClick.

(** The listeners of the mounted player: its state afterwards and the
    callbacks of [App] it invokes.  The overlay button is rendered only
    while [needUserStart] holds. *)
Definition raise (ev : PlayerEvent) (p : Player) : Player * list Notification :=
  match p, ev with
  | Html5 h, DomEv e => (p, Html5Player.handleEvent e h)
  | Html5 h, StartClick =>
      if Html5Player.needUserStart h
      then let (h', ns) := Html5Player.userStart h in (Html5 h', ns)
      else (p, [])
  | YouTube y, StateChange d => (p, YouTubePlayer.onStateChange d y)
  | _, _ => (p, [])
  end.

(** A pending [setTimeout(.., 0)] callback of the mounted player runs. *)
Definition runTimeout (p : Player) : Player :=
  match p with
  | Html5 h => Html5 (Html5Player.runTimeout h)
  | YouTube y => YouTube (YouTubePlayer.runTimeout y)
  end.

Definition pendingTimeouts (p : Player) : nat :=
  match p with
  | Html5 h => Html5Player.timeouts h
  | YouTube y => YouTubePlayer.timeouts y
  end.

(** *** Effects *)

(** The state change made by the room effect (dependencies [db], [roomId],
    [myId], [nickname]) when it runs. *)
Definition roomEffect (s : Session.t) : Session.t :=
  if negb (Url.truthy (Session.roomId s)) then s else setViewerReady false s.

(** The condition under which the heartbeat effect calls [setInterval]. *)
Definition heartbeatDue (s : Session.t) : bool :=
  Url.truthy (Session.roomId s)
  && (Session.canControl s && Session.isPlaying s
      && (Url.isYouTubeUrl (Session.videoUrl s) || Session.viewerReady s)).

(** The condition of the same effect in the earlier variant of the file
    ([part_000], line 54): [roomId && canControl && isPlaying], with no
    mention of the source or of [viewerReady]. *)
Definition heartbeatDue_part000 (s : Session.t) : bool :=
  Url.truthy (Session.roomId s)
  && (Session.canControl s && Session.isPlaying s).

Module Heartbeat.

(** The dependency array [[roomId, canControl, isPlaying, videoUrl, viewerReady]]. *)
Definition Deps : Type := (string * bool * bool * string * bool)%type.

Definition depsOf (s : Session.t) : Deps :=
  (Session.roomId s, Session.canControl s, Session.isPlaying s,
   Session.videoUrl s, Session.viewerReady s).

(** The effect as React keeps it: the browser's live interval timers
    (identifier to period in milliseconds), the next identifier
    [setInterval] returns, the [t] captured by the pending cleanup, and
    the dependencies of the last run ([None] before the first). *)
Record t : Type := mk {
  intervals : gmap nat Z;
  nextId : nat;
  held : option nat;
  lastDeps : option Deps;
}.

Definition initial : t := mk ∅ 0 None None.

(** [() => t && clearInterval(t)]. *)
Definition cleanup (e : t) : t :=
  match held e with
  | Some i => mk (delete i (intervals e)) (nextId e) None (lastDeps e)
  | None => e
  end.

(** The effect body, run for the render whose state is [s]. *)
Definition body (s : Session.t) (e : t) : t :=
  if negb (Url.truthy (Session.roomId s))
  then mk (intervals e) (nextId e) None (Some (depsOf s))
  else if Session.canControl s && Session.isPlaying s
          && (Url.isYouTubeUrl (Session.videoUrl s) || Session.viewerReady s)
  then mk (<[nextId e := 3000%Z]> (intervals e)) (S (nextId e))
          (Some (nextId e)) (Some (depsOf s))
  else mk (intervals e) (nextId e) None (Some (depsOf s)).

(** A render with state [s] is committed: the effect re-runs when a
    dependency differs from the last run. *)
Definition commit (s : Session.t) (e : t) : t :=
  if decide (lastDeps e = Some (depsOf s)) then e
  else body s (cleanup e).

(** [App] unmounts. *)
Definition unmount (e : t) : t := cleanup e.

(** The browser fires interval [i]: its callback [broadcastPlayback()]
    runs if the timer is still live.  [s] is the render that armed it. *)
Definition fire (i : nat) (s : Session.t) (now : Q)
    (playerRef : option Player) (db : Store.Db) (e : t) : Store.Db :=
  match intervals e !! i with
  | Some _ => broadcastPlayback s now playerRef db
  | None => db
  end.

End Heartbeat.

(* ================================================================== *)
(** ** Identifiers, chat and the time display                           *)
(* ================================================================== *)

(** *** [makeId] *)

(** [n.toString(36)] for [n < 36]: one of [0-9a-z]. *)
Definition digit36 (n : nat) : ascii :=
  ascii_of_nat (if (n <? 10)%nat then 48 + n else 87 + n).

(** [makeId(len)].  [bytes] is the [Uint8Array(len)] as
    [crypto.getRandomValues] has filled it; each byte [b] contributes the
    digit [(b % 36).toString(36)], and the digits are joined. *)
Definition makeId (bytes : list byte) : string :=
  fold_right (fun b acc => String (digit36 (Byte.to_nat b mod 36)) acc)
    EmptyString bytes.

(** *** Chat *)

Module Chat.

(** The node [rooms/{id}/chat/{key}]; a field is [None] when missing. *)
Record Message : Type := mkMessage {
  uid : option string;
  name : option string;
  text : option string;
  ts : option Q;
}.

(** An element of the [messages] state: [{ id, ...m }]. *)
Record Entry : Type := mkEntry {
  id : string;
  msg : Message;
}.

(** [a.ts || 0]. *)
Definition tsOf (e : Entry) : Q := default 0%Q (ts (msg e)).

(** The comparator [(a, b) => (a.ts || 0) - (b.ts || 0)] is positive. *)
Definition after (a b : Entry) : bool := Qgtb (tsOf a) (tsOf b).

(** [Array.prototype.sort] is stable: among the elements that follow it,
    [x] moves behind exactly those the comparator puts before it. *)
Fixpoint insert (x : Entry) (l : list Entry) : list Entry :=
  match l with
  | [] => [x]
  | y :: rest => if after x y then y :: insert x rest else x :: l
  end.

Definition sort (l : list Entry) : list Entry := fold_right insert [] l.

(** The listener of the chat query: [val] is [s.val()], the children in
    the order of [Object.entries]; the result is what [setMessages] gets. *)
Definition onChatValue (val : option (list (string * Message))) : list Entry :=
  sort (map (fun km => mkEntry (fst km) (snd km)) (default [] val)).

End Chat.

(** [s.slice(0, n)]. *)
Fixpoint slice0 (n : nat) (s : string) : string :=
  match n, s with
  | S n', String c rest => String c (slice0 n' rest)
  | _, _ => EmptyString
  end.

(** [sendChat(e)] with the text field holding [chatInput]: the message
    pushed under [rooms/{roomId}/chat], if any, and the text field
    afterwards. *)
Definition sendChat (s : Session.t) (chatInput : string) (now : Q)
  : option (string * Chat.Message) * string :=
  let text := trim chatInput in
  if negb (Url.truthy text) || negb (Url.truthy (Session.roomId s))
  then (None, chatInput)
  else
    (Some (Session.roomId s,
           Chat.mkMessage (Some (Session.myId s))
             (Some (if Url.truthy (Session.nickname s)
                    then Session.nickname s
                    else "Guest-" ++ slice0 4 (Session.myId s)))
             (Some text) (Some now)),
     EmptyString).

(** *** The time display *)

(** The integer part of [x], towards zero. *)
Definition Qtrunc (x : Q) : Z := Z.quot (Qnum x) (Zpos (Qden x)).

(** [t % 60]: the remainder takes the sign of the dividend. *)
Definition rem60 (t : Q) : Q := (t - 60 * inject_Z (Qtrunc (t / 60)))%Q.

(** [n.toString()] of an integer: its decimal digits, which is what
    JavaScript prints for integers below 10^21. *)
Definition toString (z : Z) : string := NilZero.string_of_int (Z.to_int z).

(** [s.padStart(2, "0")]. *)
Definition padStart2 (s : string) : string :=
  match s with
  | EmptyString => "00"
  | String c EmptyString => String "0" s
  | _ => s
  end.

(** [playerUiTime()], with [now] for [Date.now()]. *)
Definition playerUiTime (s : Session.t) (now : Q) : string :=
  let elapsed := max0 ((now - Session.lastUpdateMs s) / 1000)%Q in
  let t := (Session.remoteTime s
            + (if Session.isPlaying s then elapsed else 0))%Q in
  let m := Qfloor (t / 60) in
  let sec := Qfloor (rem60 t) in
  toString m ++ ":" ++ padStart2 (toString sec).

(** *** [ChatList] *)

Module ChatList.

(** One rendered message: its React key, whether it is styled as the
    participant's own ([m.uid === myId]), the name shown
    ([m.name || "Guest"]) and the text. *)
Record Row : Type := mkRow {
  key : string;
  own : bool;
  shownName : string;
  shownText : option string;
}.

Definition row (myId : string) (e : Chat.Entry) : Row :=
  let m := Chat.msg e in
  mkRow (Chat.id e)
    (match Chat.uid m with
     | Some u => String.eqb u myId
     | None => false
     end)
    (match Chat.name m with
     | Some n => if Url.truthy n then n else "Guest"
     | None => "Guest"
     end)
    (Chat.text m).

(** [ChatList({ messages, myId })]: whether the "No messages yet"
    placeholder is shown, and the rows. *)
Definition render (messages : list Chat.Entry) (myId : string)
  : bool * list Row :=
  (Nat.eqb (List.length messages) 0, map (row myId) messages).

End ChatList.

(** *** The room link *)

(** [u.searchParams.set(name, value)]: the first pair named [name] takes
    the value and the other pairs of that name are removed; without such a
    pair, one is appended. *)
Fixpoint searchParams_set (name value : string) (ps : list (string * string))
  : list (string * string) :=
  match ps with
  | [] => [(name, value)]
  | (k, v) :: rest =>
      if String.eqb k name
      then (name, value)
             :: List.filter (fun kv => negb (String.eqb (fst kv) name)) rest
      else (k, v) :: searchParams_set name value rest
  end.

(** [roomLink]: [here] is [new URL(window.location.href)]; the link is
    given as the URL object whose serialisation the memo returns, [None]
    standing for the empty string. *)
Definition roomLink (roomId : string) (here : Url.URL) : option Url.URL :=
  if negb (Url.truthy roomId) then None
  else Some (Url.mkURL (Url.hostname here) (Url.pathname here)
               (searchParams_set "room" roomId (Url.searchParams here))).

(** The initial value of the [roomId] state: [initialRoom || ""], with
    [initialRoom = new URL(window.location.href).searchParams.get("room")]. *)
Definition initialRoomId (here : Url.URL) : string :=
  default "" (Url.searchParams_get "room" (Url.searchParams here)).

(** *** Identity kept in [localStorage] *)

Module Identity.

Definition Storage : Type := gmap string string.

(** [localStorage.getItem(key) || fallback]. *)
Definition getOr (key fallback : string) (ls : Storage) : string :=
  match ls !! key with
  | Some v => if Url.truthy v then v else fallback
  | None => fallback
  end.

(** The initialiser of the [nickname] state; [bytes] is the random fill of
    [makeId(4)]. *)
Definition initialNickname (ls : Storage) (bytes : list byte) : string :=
  getOr "wt_name" ("Guest-" ++ makeId bytes) ls.

(** The memo [myId]; [bytes] is the random fill of [makeId(10)].  A fresh
    identifier is stored. *)
Definition initialMyId (ls : Storage) (bytes : list byte) : string * Storage :=
  match ls !! "wt_uid" with
  | Some id =>
      if Url.truthy id then (id, ls)
      else (makeId bytes, <["wt_uid" := makeId bytes]> ls)
  | None => (makeId bytes, <["wt_uid" := makeId bytes]> ls)
  end.

(** The effect with dependency [nickname]. *)
Definition nicknameEffect (nickname : string) (ls : Storage) : Storage :=
  <["wt_name" := nickname]> ls.

(** The first render of [App] and its effects, as far as the identity
    goes: [myId], [nickname], and the storage afterwards. *)
Definition firstRender (ls : Storage) (nameBytes idBytes : list byte)
  : string * string * Storage :=
  let nick := initialNickname ls nameBytes in
  let (id, ls1) := initialMyId ls idBytes in
  (id, nick, nicknameEffect nick ls1).

End Identity.

(* ================================================================== *)
(** ** One client on the event loop                                     *)
(* ================================================================== *)

(** Everything one browser tab holds: the state hooks of [App], the mounted
    player behind [playerRef.current], the store as this client's writes
    leave it, the heartbeat effect, the room effect (the dependencies
    [(roomId, nickname)] of its last run and, when that run subscribed, the
    render state its listeners captured), and whether [App] is still
    mounted.  The state updates of one handler are taken to be applied
    together before the next render (React 18 batching). *)
Record Client : Type := mkClient {
  sess : Session.t;
  playerRef : option Player;
  db : Store.Db;
  hb : Heartbeat.t;
  roomDeps : option (string * string);
  listening : option Session.t;
  alive : bool;
}.

(** What the platform can deliver to a client: store snapshots, timer
    callbacks, player events, the media element's and the widget's own
    changes of state, and the user's clicks.  [Mount] is the (re)mounting
    of the player component by the render just committed, with what the
    platform supplies for it; [Rerender] is a change of a state hook that the
    session record leaves out (the chat text field, the message list, the
    URL field of the landing page). *)
Inductive Event : Type :=
| RoomValue (d : option Store.Room)
| RoomGet (d : option Store.Room)
| PlaybackValue (now : Q) (p : option Store.Playback)
| Timeout
| Interval (i : nat) (now : Q)
| Deliver (ev : PlayerEvent) (now : Q)
| WidgetReady
| WidgetReports (time : Q) (state : Z)
| ElementBecomes (v : Html5Player.Video)
| MediaError (code : option string)
| ClickPlay (now : Q)
| ClickPause (now : Q)
| ClickSeek (d now : Q)
| ClickSync (now : Q) (fetched : option Store.Playback)
| ClickToggle
| SetNickname (name : string)
| Mount (parsed : option Url.URL) (v : Html5Player.Video) (w : YouTubePlayer.Widget)
| Create (createUrl id : string) (t1 t2 : Q)
| Leave
| Rerender.

Definition withSess (s : Session.t) (c : Client) : Client :=
  mkClient s (playerRef c) (db c) (hb c) (roomDeps c) (listening c) (alive c).

Definition withPlayer (p : option Player) (c : Client) : Client :=
  mkClient (sess c) p (db c) (hb c) (roomDeps c) (listening c) (alive c).

Definition withDb (d : Store.Db) (c : Client) : Client :=
  mkClient (sess c) (playerRef c) d (hb c) (roomDeps c) (listening c) (alive c).

Definition setNickname (name : string) (s : Session.t) : Session.t :=
  Session.mk (Session.myId s) name (Session.roomId s)
    (Session.isHost s) (Session.videoUrl s) (Session.allowEveryone s)
    (Session.canControl s) (Session.viewerReady s) (Session.isPlaying s)
    (Session.remoteTime s) (Session.lastUpdateMs s).

(** The player component the render mounts, freshly initialised. *)
Definition freshPlayer (videoUrl : string) (parsed : option Url.URL)
    (v : Html5Player.Video) (w : YouTubePlayer.Widget) : Player :=
  match Url.selectPlayer videoUrl parsed with
  | Url.MountYouTube _ => YouTube (YouTubePlayer.mount w)
  | Url.MountHtml5 _ => Html5 (Html5Player.mount v)
  end.

(** The handler that runs for an event. *)
Definition handle (ev : Event) (c : Client) : Client :=
  match ev with
  | RoomValue d =>
      match listening c with
      | Some _ => withSess (onRoomValue d (sess c)) c
      | None => c
      end
  | RoomGet d =>
      match listening c with
      | Some _ => withSess (onRoomGet d (sess c)) c
      | None => c
      end
  | PlaybackValue now p =>
      match listening c with
      | Some closure =>
          let '(s', (pl, _)) :=
            onPlaybackValue closure now p (sess c) (playerRef c) in
          withPlayer pl (withSess s' c)
      | None => c
      end
  | Timeout => withPlayer (runTimeout <$> playerRef c) c
  | Interval i now =>
      withDb (Heartbeat.fire i (sess c) now (playerRef c) (db c) (hb c)) c
  | Deliver ev now =>
      match playerRef c with
      | None => c
      | Some p =>
          let (p', ns) := raise ev p in
          let (s', db') := notifyAll ns now (Some p') (sess c, db c) in
          withDb db' (withPlayer (Some p') (withSess s' c))
      end
  | WidgetReady =>
      match playerRef c with
      | Some (YouTube y) => withPlayer (Some (YouTube (YouTubePlayer.onReady y))) c
      | _ => c
      end
  | WidgetReports time state =>
      match playerRef c with
      | Some (YouTube y) =>
          withPlayer
            (Some (YouTube
                     (YouTubePlayer.mk
                        (YouTubePlayer.mkWidget time state
                           (YouTubePlayer.sent (YouTubePlayer.player y)))
                        (YouTubePlayer.ready y) (YouTubePlayer.suppress y)
                        (YouTubePlayer.timeouts y)))) c
      | _ => c
      end
  | ElementBecomes v =>
      match playerRef c with
      | Some (Html5 h) => withPlayer (Some (Html5 (Html5Player.setVideo v h))) c
      | _ => c
      end
  | MediaError code =>
      match playerRef c with
      | Some (Html5 h) => withPlayer (Some (Html5 (Html5Player.onError code h))) c
      | _ => c
      end
  | ClickPlay now => withDb (handlePlay (sess c) now (playerRef c) (db c)) c
  | ClickPause now => withDb (handlePause (sess c) now (playerRef c) (db c)) c
  | ClickSeek d now =>
      let (pl, db') := handleSeekDelta (sess c) d now (playerRef c) (db c) in
      withDb db' (withPlayer pl c)
  | ClickSync now fetched =>
      withPlayer (fst (handleSyncNow (sess c) now fetched (playerRef c))) c
  | ClickToggle => withDb (toggleEveryoneControl (sess c) (db c)) c
  | SetNickname name => withSess (setNickname name (sess c)) c
  | Mount parsed v w =>
      if Url.truthy (Session.roomId (sess c))
      then withPlayer (Some (freshPlayer (Session.videoUrl (sess c)) parsed v w)) c
      else c
  | Create createUrl id t1 t2 =>
      if Url.truthy (Session.roomId (sess c)) then c
      else
        let (s', db') :=
          List.last (handleCreateRoom createUrl id t1 t2 (sess c) (db c))
            (sess c, db c) in
        withDb db' (withSess s' c)
  | Leave => c
  | Rerender => c
  end.

(** What a render does to the mounted player.  The [YouTubePlayer] effect
    lists [onLocalPlay] and [onLocalPause] among its dependencies, and [App]
    creates these functions anew in every render: the widget is destroyed
    and rebuilt.  The [<video>] element of [Html5Player] stays. *)
Definition rerenderPlayer (p : Player) : Player :=
  match p with
  | Html5 _ => p
  | YouTube y => YouTube (YouTubePlayer.rebuild y)
  end.

(** The presence write of the room effect. *)
Definition writePresence (s : Session.t) (d : Store.Db) : Store.Db :=
  if Url.truthy (Session.roomId s)
  then Store.setPresence (Session.roomId s) (Session.myId s)
         (Session.nickname s) d
  else d.

(** React renders [App] and runs the effects whose dependencies changed.
    The room effect, when it runs in a room, subscribes listeners that
    capture the state of this render, writes the presence node and resets
    [viewerReady]; outside a room it subscribes nothing.  The heartbeat
    effect is committed on the state the room effect leaves. *)
Definition render (c : Client) : Client :=
  let deps := (Session.roomId (sess c), Session.nickname (sess c)) in
  let player := rerenderPlayer <$> playerRef c in
  if decide (roomDeps c = Some deps)
  then mkClient (sess c) player (db c)
         (Heartbeat.commit (sess c) (hb c)) (roomDeps c) (listening c) (alive c)
  else mkClient (roomEffect (sess c)) player (writePresence (sess c) (db c))
         (Heartbeat.commit (roomEffect (sess c)) (hb c)) (Some deps)
         (if Url.truthy (Session.roomId (sess c)) then Some (sess c) else None)
         (alive c).

(** [App] unmounts: the cleanups run and nothing is delivered any more. *)
Definition teardown (c : Client) : Client :=
  mkClient (sess c) None (db c) (Heartbeat.unmount (hb c)) (roomDeps c) None
    false.

(** Whether React renders after the handler of [ev]: when a state hook has
    changed value. *)
Definition rerenders (ev : Event) (before after : Session.t) : bool :=
  match ev with
  | Rerender => true
  | _ => negb (Session.sameState before after)
  end.

Definition step (ev : Event) (c : Client) : Client :=
  if alive c then
    match ev with
    | Leave => teardown c
    | _ =>
        let c' := handle ev c in
        if rerenders ev (sess c) (sess c') then render c' else c'
    end
  else c.

Definition run (evs : list Event) (c : Client) : Client :=
  fold_left (fun acc ev => step ev acc) evs c.

(** A tab opened on [?room=room] (or on the landing page when [room] is
    empty), after its first render. *)
Definition boot (me name room : string) : Client :=
  render (mkClient (Session.initial me name room) None Store.empty
            Heartbeat.initial None None true).

(* ================================================================== *)
(** ** Vocabulary of the properties                                    *)
(* ================================================================== *)

(** *** Drift reconciliation *)

(** The controller as [reconcile] finds it when it reads [isPlaying()]:
    after the seek, if one is due. *)
Definition afterSeek (now : Q) (p : Store.Playback) (c : Player) : Player :=
  let expected := expectedPosition now p in
  if Qgtb (Qabs (expected - getCurrentTime c)%Q) DRIFT_THRESHOLD
  then seek expected c else c.

(** What the reconciliation step is required to do with a playback state
    [p] at time [now] on controller [c], given the calls it made. *)
Definition Reconciles (now : Q) (p : Store.Playback) (c : Player)
    (calls : list Call) : Prop :=
  let expected := expectedPosition now p in
  let drift := Qabs (expected - getCurrentTime c)%Q in
  let playing := isPlaying (afterSeek now p c) in
  (In (CallSeek expected) calls <-> (DRIFT_THRESHOLD < drift)%Q)
  /\ (forall t, In (CallSeek t) calls -> t = expected)
  /\ (In CallPlay calls <-> truthyB (Store.isPlaying p) = true /\ playing = false)
  /\ (In CallPause calls <-> truthyB (Store.isPlaying p) = false /\ playing = true)
  /\ (forall pre post, calls = (pre ++ CallSeek expected :: post)%list -> pre = []).

(** *** Publishing and suppression *)

(** The callbacks a player raises for local playback events. *)
Definition isLocalEvent (n : Notification) : bool :=
  match n with
  | LocalPlay | LocalPause | LocalSeek _ => true
  | UserReady => false
  end.

(** A player on which [seek] acts: the HTML5 player always, the YouTube
    player once the widget is ready. *)
Definition seekable (p : Player) : bool :=
  match p with
  | Html5 _ => true
  | YouTube y => YouTubePlayer.ready y
  end.

(** *** Source classification *)

(** The three recognised URL shapes, in the words of the specification:
    each either yields an identifier or does not match. *)
Module UrlShapes.





End UrlShapes.

(** Every character of [s] is in the class [[\w-]]. *)
Fixpoint allWord (s : string) : bool :=
  match s with
  | EmptyString => true
  | String c rest => Url.isWordChar c && allWord rest
  end.

(** *** Room creation *)

(** The store between the two writes of [handleCreateRoom]. *)
Definition roomWithoutPlayback (id : string) (db : Store.Db) : Prop :=
  exists r, Store.val id db = Some r
            /\ Store.videoUrl r <> None /\ Store.playback r = None.

(** *** Heartbeat *)

Module HeartbeatInv.

Import Heartbeat.

(** The arming condition, as a function of the dependency array. *)
Definition dueOf (d : Deps) : bool :=
  let '(roomId, canControl, isPlaying, videoUrl, viewerReady) := d in
  Url.truthy roomId
  && (canControl && isPlaying && (Url.isYouTubeUrl videoUrl || viewerReady)).

(** The timer table agrees with the dependencies [d] of the last run:
    exactly one live interval, of period 3000 ms and held by the cleanup,
    when the condition holds; none otherwise. *)
Definition agrees (d : Deps) (e : t) : Prop :=
  lastDeps e = Some d
  /\ if dueOf d
     then exists i, held e = Some i /\ intervals e = {[i := 3000%Z]}
     else held e = None /\ intervals e = ∅.

(** No run yet, or a run whose table agrees with its dependencies. *)
Definition settled (e : t) : Prop :=
  (lastDeps e = None /\ held e = None /\ intervals e = ∅)
  \/ exists d, agrees d e.

(** The invariant of a client: while [App] is mounted the timer table
    agrees with the current session; afterwards it is empty. *)
Definition ok (c : Client) : Prop :=
  if alive c then agrees (depsOf (sess c)) (hb c)
  else intervals (hb c) = ∅.

End HeartbeatInv.

(** *** The interaction gate on the event loop *)

(** In a room whose source is direct media the gate never opens: the start
    overlay is rendered only after a [play()] call has been refused, the
    only caller of [play()] is [syncToPlayer], and [syncToPlayer] stands
    behind the gate. *)
Module NativeRoom.

(** The events of such a room: whenever a video URL reaches the session, it
    is not classified as YouTube. *)
Definition keepsNative (ev : Event) : bool :=
  match ev with
  | RoomGet (Some d) => negb (Url.isYouTubeUrl (default "" (Store.videoUrl d)))
  | Create createUrl _ _ _ => negb (Url.isYouTubeUrl (trim createUrl))
  | _ => true
  end.

Definition gated (s : Session.t) : Prop :=
  Url.isYouTubeUrl (Session.videoUrl s) = false /\ Session.viewerReady s = false.

(** The session and the listeners' closure are behind the gate, and the
    mounted player, if any, is the HTML5 one and shows no start overlay. *)
Definition inv (c : Client) : Prop :=
  gated (sess c)
  /\ (forall closure, listening c = Some closure -> gated closure)
  /\ match playerRef c with
     | None => True
     | Some (Html5 h) => Html5Player.needUserStart h = false
     | Some (YouTube _) => False
     end.

End NativeRoom.

(** *** Identifiers and text *)

(** The digits of base 36: [0-9a-z]. *)
Definition isBase36 (c : ascii) : bool :=
  let n := nat_of_ascii c in
  (((48 <=? n) && (n <=? 57)) || ((97 <=? n) && (n <=? 122)))%nat.

Fixpoint allBase36 (s : string) : bool :=
  match s with
  | EmptyString => true
  | String c rest => isBase36 c && allBase36 rest
  end.

(** [s] does not begin with white space. *)
Definition startsClean (s : string) : bool :=
  match s with
  | EmptyString => true
  | String c _ => negb (isSpace c)
  end.

(** [s] does not end with white space. *)
Fixpoint endsClean (s : string) : bool :=
  match s with
  | EmptyString => true
  | String c rest =>
      match rest with
      | EmptyString => negb (isSpace c)
      | String _ _ => endsClean rest
      end
  end.

(** [s] consists of white space only. *)
Fixpoint allSpace (s : string) : bool :=
  match s with
  | EmptyString => true
  | String c rest => isSpace c && allSpace rest
  end.

(** The position [playerUiTime] shows: the last received position,
    advanced by the time since its receipt while the flag is set. *)
Definition shownPosition (s : Session.t) (now : Q) : Q :=
  (Session.remoteTime s
   + (if Session.isPlaying s
      then max0 ((now - Session.lastUpdateMs s) / 1000) else 0))%Q.

(** *** Chat order *)

(** [a] is not later than [b]. *)
Definition notLater (a b : Chat.Entry) : Prop :=
  (Chat.tsOf a <= Chat.tsOf b)%Q.

(** The entries stamped [k], in the order they have in [l]. *)
Definition stamped (k : Q) (l : list Chat.Entry) : list Chat.Entry :=
  List.filter (fun e => Qeq_bool (Chat.tsOf e) k) l.

(** *** Writes *)

(** A write that carries the participant [me] as its author: the host of
    a Room record, the [by] of a playback state, the key of a presence
    node. *)
Definition writtenBy (me : string) (w : Store.Write) : Prop :=
  match w with
  | Store.SetRoom _ r => Store.hostId r = Some me
  | Store.SetPlayback _ p | Store.UpdatePlayback _ p => Store.by_ p = Some me
  | Store.UpdateRoom _ _ => True
  | Store.SetPresence _ uid _ => uid = me
  end.


(** A write of a presence node. *)
Definition isPresenceWrite (w : Store.Write) : bool :=
  match w with
  | Store.SetPresence _ _ _ => true
  | _ => false
  end.

(** The Room records and playback states of [b] are those of [a] (a room
    without record counting as the empty record). *)
Definition sameRecords (a b : Store.Db) : Prop :=
  forall id,
    default Store.emptyRoom (Store.val id b)
    = default Store.emptyRoom (Store.val id a).

Definition isCreate (ev : Event) : bool :=
  match ev with
  | Create _ _ _ _ => true
  | _ => false
  end.

(** *** Publishing *)

(** What [broadcastPlayback] writes once its guards are passed: the state
    of the controller [c] as its getters report it. *)
Definition published (s : Session.t) (now : Q) (c : Player) : Store.Write :=
  Store.UpdatePlayback (Session.roomId s)
    (Store.mkPlayback (Some (isPlaying c)) (Some (getCurrentTime c))
       (Some now) (Some (Session.myId s))).

(** The session may publish: it has control and is in a room. *)
Definition mayPublish (s : Session.t) : bool :=
  Session.canControl s && Url.truthy (Session.roomId s).

(** The last command the widget was sent. *)
Definition lastSent (p : Player) : option YouTubePlayer.Command :=
  match p with
  | Html5 _ => None
  | YouTube y => List.last (map Some (YouTubePlayer.sent (YouTubePlayer.player y))) None
  end.

(** *** The video URL of the session *)

(** The events whose handlers call [setVideoUrl]: the continuation of the
    initial [get] and room creation. *)
Definition fixesUrl (ev : Event) : bool :=
  match ev with
  | RoomGet _ | Create _ _ _ _ => true
  | _ => false
  end.

(** *** The listeners of a tab opened on a room link *)

Module Subscription.

(** The events that leave the nickname alone; with the room identifier,
    the nickname is what the room effect depends on. *)
Definition keepsName (ev : Event) : bool :=
  match ev with
  | SetNickname _ => false
  | _ => true
  end.

(** The room effect has run once, for the first render of a tab opened on
    [?room=room]: the listeners, while subscribed, hold the state of that
    render, in which [videoUrl] is still empty. *)
Definition atBoot (me name room : string) (c : Client) : Prop :=
  Session.roomId (sess c) = room
  /\ Session.nickname (sess c) = name
  /\ roomDeps c = Some (room, name)
  /\ (listening c = None \/ listening c = Some (Session.initial me name room)).

End Subscription.

(** *** Authority on the event loop *)

Module Authority.

(** What a handler may do to the store on behalf of the participant [me]:
    nothing when [quiet]; otherwise it appends writes that carry [me] as
    their author, and only playback states when [playbackOnly]. *)
Definition adds (me : string) (quiet playbackOnly : bool)
    (before after : Store.Db) : Prop :=
  (quiet = true -> after = before)
  /\ exists added,
       Store.writes after = (Store.writes before ++ added)%list
       /\ Forall (writtenBy me) added
       /\ (playbackOnly = true -> forallb Store.isPlaybackWrite added = true).

(** What a render may do to the store: nothing, or one write of the
    participant's own presence node, which leaves every record as it is. *)
Definition greets (me : string) (before after : Store.Db) : Prop :=
  sameRecords before after
  /\ exists added,
       Store.writes after = (Store.writes before ++ added)%list
       /\ Forall (writtenBy me) added
       /\ forallb isPresenceWrite added = true.

(** The room effect has run for the room and the nickname of the
    session. *)
Definition subscribed (c : Client) : Prop :=
  alive c = true ->
  roomDeps c = Some (Session.roomId (sess c), Session.nickname (sess c)).

(** The part of the session the authority argument reads. *)
Definition same (s s' : Session.t) : Prop :=
  Session.myId s' = Session.myId s
  /\ Session.roomId s' = Session.roomId s
  /\ Session.isHost s' = Session.isHost s
  /\ Session.canControl s' = Session.canControl s.

(** Only a participant with control is host. *)
Definition hostControls (s : Session.t) : Prop :=
  Session.isHost s = true -> Session.canControl s = true.

(** The invariant of the client of participant [me]. *)
Definition inv (me : string) (c : Client) : Prop :=
  Session.myId (sess c) = me
  /\ hostControls (sess c)
  /\ Forall (writtenBy me) (Store.writes (db c))
  /\ subscribed c.

End Authority.

(* ================================================================== *)
(** ** Scenarios                                                       *)
(* ================================================================== *)

Module Scenario.

(** [T], the publication time in epoch milliseconds. *)
Definition T : Q := 1700000000000.

(** The remote state [{isPlaying: true, currentTime: 100, updatedAt: T}]. *)
Definition remote : Store.Playback :=
  Store.mkPlayback (Some true) (Some 100%Q) (Some T) (Some "peer000001").

(** It is observed at [T + 2000]. *)
Definition now : Q := T + 2000.

(** A playing [<video>] element at position [t]. *)
Definition element (t : Q) : Player :=
  Html5 (Html5Player.mount (Html5Player.mkVideo t false false false None)).

(** A ready widget that reports playing at position [t]. *)
Definition widget (t : Q) : Player :=
  YouTube (YouTubePlayer.mk (YouTubePlayer.mkWidget t 1 []) true false 0).

(** A guest in room [room000001] watching [url]. *)
Definition guest (url : string) (ready control : bool) : Session.t :=
  Session.mk "guest00001" "Guest-ab12" "room000001" false url control control
    ready true 100 T.

Definition mp4 : string := "https://example.com/video.mp4".
Definition short : string := "https://youtu.be/dQw4w9WgXcQ".

(** What [new URL(..)] makes of the two. *)
Definition mp4Parsed : Url.URL := Url.mkURL "example.com" "/video.mp4" [].
Definition shortParsed : Url.URL := Url.mkURL "youtu.be" "/dQw4w9WgXcQ" [].

(** A [<video>] element that has not started. *)
Definition idle : Html5Player.Video :=
  Html5Player.mkVideo 0 true false false None.

(** The element playing with the head at [t]. *)
Definition rolling (t : Q) : Html5Player.Video :=
  Html5Player.mkVideo t false false false None.

End Scenario.

(** The host of a YouTube room.  Every trace below lists, after each write
    of the client, the snapshot with which the store answers it. *)
Module Echo.

(** The time at which the room is created. *)
Definition created : Q := Scenario.T - 200000.

(** The two records [handleCreateRoom] writes, as listeners receive them. *)
Definition initial : Store.Playback :=
  Store.mkPlayback (Some false) (Some 0%Q) (Some (created + 1)%Q)
    (Some "host000001").

Definition room (url : string) (open : bool) : Store.Room :=
  Store.mkRoom (Some url) (Some "host000001") (Some open) (Some created)
    (Some initial).

(** What follows the click on "Create Room", whatever the URL: the render
    mounts the player, the [get] of the room effect and its two listeners
    answer (the first playback snapshot changes [lastUpdateMs], so [App]
    renders again). *)
Definition creating (url : string) (parsed : option Url.URL) : list Event :=
  [Create url "room000001" created (created + 1);
   Mount parsed Scenario.idle YouTubePlayer.fresh;
   RoomGet (Some (room url false));
   RoomValue (Some (room url false));
   PlaybackValue (created + 2) (Some initial)].

(** The host creates a YouTube room and the widget becomes ready. *)
Definition joining : list Event :=
  (creating Scenario.short (Some Scenario.shortParsed) ++ [WidgetReady])%list.

(** The host's tab on the landing page. *)
Definition start : Client := boot "host000001" "Guest-ab12" "".

Definition joined : Client := run joining start.

(** The host lets everyone control; the store answers with the Room
    record, [App] renders, the widget is rebuilt and becomes ready. *)
Definition opening : list Event :=
  [ClickToggle; RoomValue (Some (room Scenario.short true)); WidgetReady].

(** A state published by another participant with control arrives. *)
Definition arrival : list Event :=
  (joining ++ opening
   ++ [PlaybackValue Scenario.now (Some Scenario.remote)])%list.

End Echo.

(** A participant who opens the link of the room of [Echo]. *)
Module Joiner.

(** The first render, with [videoUrl] still empty, mounts the HTML5 player
    and subscribes; the [get] answers and the render that follows mounts the
    YouTube player; the listeners receive their first snapshots; the widget
    becomes ready and the participant starts the video in it, which, without
    control, publishes nothing; the widget is at second 99. *)
Definition entering : list Event :=
  [Mount None Scenario.idle YouTubePlayer.fresh;
   RoomGet (Some (Echo.room Scenario.short false));
   Mount (Some Scenario.shortParsed) Scenario.idle YouTubePlayer.fresh;
   RoomValue (Some (Echo.room Scenario.short false));
   PlaybackValue (Echo.created + 5000) (Some Echo.initial);
   WidgetReady;
   WidgetReports 0 1;
   Deliver (StateChange 1) (Scenario.T - 97000);
   WidgetReports 99 1].

Definition start : Client := boot "guest00001" "Guest-ab12" "room000001".

Definition watching : Client := run entering start.

End Joiner.

(** A room on a direct media file whose URL is classified as YouTube: the
    path holds [youtube.com/], the host is not YouTube's, so no identifier
    is extracted and the [<video>] player is mounted. *)
Module Mirror.

Definition url : string := "https://cdn.example.com/youtube.com/clip.mp4".

Definition parsed : Url.URL :=
  Url.mkURL "cdn.example.com" "/youtube.com/clip.mp4" [].

(** The host's own state, published when playback starts. *)
Definition own : Store.Playback :=
  Store.mkPlayback (Some true) (Some 0%Q) (Some (Scenario.T - 500)%Q)
    (Some "host000001").

(** The host creates the room and lets everyone control; half a second
    before [T] the host starts the element with its own controls, which is
    published and answered by the store; at [T + 2000] the head is at
    second 2.5. *)
Definition opening : list Event :=
  (Echo.creating url (Some parsed)
   ++ [ClickToggle;
       RoomValue (Some (Echo.room url true));
       ElementBecomes (Scenario.rolling 0);
       Deliver (DomEv Html5Player.EvPlay) (Scenario.T - 500);
       PlaybackValue (Scenario.T - 500) (Some own);
       ElementBecomes (Scenario.rolling (25 # 10))])%list.

Definition playing : Client := run opening Echo.start.

(** The state of another participant, who is at second 100, arrives; the
    reconciler seeks. *)
Definition corrected : Client :=
  step (PlaybackValue Scenario.now (Some Scenario.remote)) playing.

(** The zero-delay timer runs; then the element, having sought, dispatches
    [seeked]. *)
Definition late : Client :=
  run [Timeout; Deliver (DomEv Html5Player.EvSeeked) (Scenario.now + 50)]
    corrected.

(** The same when [seeked] overtakes the timer. *)
Definition early : Client :=
  run [Deliver (DomEv Html5Player.EvSeeked) (Scenario.now + 50); Timeout]
    corrected.

End Mirror.

Module Stalled.

(** The host of [Echo] has not started the video.  A participant with
    control publishes a playing state; the reconciler sends the widget a seek
    and a play; [App] renders with the new state, which rebuilds the widget;
    the timer callback of the seek runs and the new widget becomes ready.
    Three seconds later the heartbeat interval fires. *)
Definition waiting : list Event :=
  (Echo.arrival ++ [Timeout; WidgetReady])%list.

Definition stalled : Client := run waiting Echo.start.

Definition beat : Client := step (Interval 0 (Scenario.now + 3000)) stalled.

End Stalled.

Module WidgetSeek.



(** The same jump in the widget that replaces the first one: the host has
    started the video, the publish has been answered, [App] has rendered and
    rebuilt the widget, and the heartbeat is armed.  The host starts the new
    widget and jumps while it buffers; the interval fires before the widget
    reports anything but buffering. *)
Definition restarted : list Event :=
  [WidgetReports 0 1;
   Deliver (StateChange 1) Scenario.now;
   PlaybackValue Scenario.now
     (Some (Store.mkPlayback (Some true) (Some 0%Q) (Some Scenario.now)
              (Some "host000001")));
   WidgetReady;
   WidgetReports 0 3;
   Deliver (StateChange 3) (Scenario.now + 1000);
   WidgetReports 150 3].

Definition buffering : Client := run restarted Echo.joined.

Definition beat : Client := step (Interval 0 (Scenario.now + 3000)) buffering.

End WidgetSeek.

(** A room on a YouTube page that names no video: the URL is classified
    as YouTube and no identifier is extracted from it. *)
Module Playlist.

Definition url : string := "https://www.youtube.com/playlist?list=PL123".

Definition parsed : Url.URL :=
  Url.mkURL "www.youtube.com" "/playlist" [("list", "PL123")].

(** The host creates the room and lets everyone control; the state of
    another participant arrives. *)
Definition visit : list Event :=
  (Echo.creating url (Some parsed)
   ++ [ClickToggle; RoomValue (Some (Echo.room url true))])%list.

Definition waiting : Client := run visit Echo.start.


End Playlist.

(** A room on a direct media file, on its creator's tab. *)
Module Native.

Definition visit : list Event :=
  Echo.creating Scenario.mp4 (Some Scenario.mp4Parsed).

Definition watching : Client := run visit Echo.start.

End Native.

(* ================================================================== *)
(** ** Properties                                                      *)
(* ================================================================== *)

(** *** Utilities *)

Example isYouTubeUrl_short : Url.isYouTubeUrl "https://youtu.be/dQw4w9WgXcQ" = true.
Proof. reflexivity. Qed.

Example isYouTubeUrl_mp4 : Url.isYouTubeUrl "https://example.com/video.mp4" = false.
Proof. reflexivity. Qed.

Example matchEmbed_ex : Url.matchEmbed "/embed/abc-DEF_123/x" = Some "abc-DEF_123".
Proof. reflexivity. Qed.

Example matchEmbed_second : Url.matchEmbed "/embed//embed/zz" = Some "zz".
Proof. reflexivity. Qed.

Example trim_ex : trim "  https://youtu.be/x  " = "https://youtu.be/x".
Proof. reflexivity. Qed.

(** *** Numbers *)

Lemma Qgtb_lt (x y : Q) : Qgtb x y = true <-> (y < x)%Q.
Proof.
  unfold Qgtb. rewrite negb_true_iff. split.
  - intros H. apply Qnot_le_lt. intros Hle.
    apply Qle_bool_iff in Hle. congruence.
  - intros H. destruct (Qle_bool x y) eqn:E; [|reflexivity].
    apply Qle_bool_iff in E. exfalso. exact (Qlt_not_le _ _ H E).
Qed.

Lemma Qgtb_le (x y : Q) : Qgtb x y = false <-> (x <= y)%Q.
Proof.
  unfold Qgtb. rewrite negb_false_iff. apply Qle_bool_iff.
Qed.

(** *** Drift reconciliation *)

Lemma reconcile_calls (now : Q) (p : Store.Playback) (c : Player) :
  snd (reconcile now p c)
  = ((if Qgtb (Qabs (expectedPosition now p - getCurrentTime c)%Q) DRIFT_THRESHOLD
      then [CallSeek (expectedPosition now p)] else [])
     ++ (if truthyB (Store.isPlaying p) && negb (isPlaying (afterSeek now p c))
         then [CallPlay] else [])
     ++ (if negb (truthyB (Store.isPlaying p)) && isPlaying (afterSeek now p c)
         then [CallPause] else []))%list.
Proof.
  unfold reconcile, afterSeek.
  destruct (Qgtb _ DRIFT_THRESHOLD); cbn zeta;
    destruct (truthyB (Store.isPlaying p)); cbn [andb negb];
    match goal with |- context [isPlaying ?x] => destruct (isPlaying x) end;
    reflexivity.
Qed.

Ltac in_cases :=
  repeat match goal with
    | H : _ \/ _ |- _ => destruct H
    | H : False |- _ => destruct H
    | H : CallSeek _ = CallSeek _ |- _ => injection H as H; subst
    | H : @eq Call _ _ |- _ => discriminate H
    | H : @eq bool _ _ |- _ => discriminate H
    end.

(** The shape of the call list: an optional seek, then an optional play,
    then an optional pause. *)
Lemma calls_shape (seeks plays pauses : bool) (e : Q) :
  let calls := ((if seeks then [CallSeek e] else [])
                ++ (if plays then [CallPlay] else [])
                ++ (if pauses then [CallPause] else []))%list in
  (In (CallSeek e) calls <-> seeks = true)
  /\ (forall t, In (CallSeek t) calls -> t = e)
  /\ (In CallPlay calls <-> plays = true)
  /\ (In CallPause calls <-> pauses = true)
  /\ (forall pre post, calls = (pre ++ CallSeek e :: post)%list -> pre = []).
Proof.
  intros calls.
  assert (Hlater : forall pre post a,
            ((if seeks then [CallSeek e] else [])
             ++ (if plays then [CallPlay] else [])
             ++ (if pauses then [CallPause] else [])
             = a :: pre ++ CallSeek e :: post)%list -> False).
  { intros pre post a H.
    assert (Hin : In (CallSeek e) (pre ++ CallSeek e :: post)) by apply in_elt.
    destruct seeks, plays, pauses; cbn in H; try discriminate H;
      injection H as _ H; rewrite <- H in Hin; cbn in Hin; in_cases. }
  split; [|split; [|split; [|split]]].
  - subst calls. destruct seeks, plays, pauses; cbn; split; intros H;
      in_cases; auto.
  - subst calls. intros t H. destruct seeks, plays, pauses; cbn in H;
      in_cases; reflexivity.
  - subst calls. destruct seeks, plays, pauses; cbn; split; intros H;
      in_cases; auto.
  - subst calls. destruct seeks, plays, pauses; cbn; split; intros H;
      in_cases; auto.
  - intros [|a pre] post H; [reflexivity|]. exfalso. exact (Hlater _ _ _ H).
Qed.

Lemma reconcile_Reconciles (now : Q) (p : Store.Playback) (c : Player) :
  Reconciles now p c (snd (reconcile now p c)).
Proof.
  unfold Reconciles. rewrite reconcile_calls.
  destruct (calls_shape
              (Qgtb (Qabs (expectedPosition now p - getCurrentTime c))
                 DRIFT_THRESHOLD)
              (truthyB (Store.isPlaying p) && negb (isPlaying (afterSeek now p c)))
              (negb (truthyB (Store.isPlaying p)) && isPlaying (afterSeek now p c))
              (expectedPosition now p))
    as (Hseek & Harg & Hplay & Hpause & Hfirst).
  split; [rewrite Hseek; apply Qgtb_lt|].
  split; [exact Harg|].
  split; [rewrite Hplay, andb_true_iff, negb_true_iff; reflexivity|].
  split; [rewrite Hpause, andb_true_iff, negb_true_iff; reflexivity|].
  exact Hfirst.
Qed.

Lemma syncToPlayer_open (s : Session.t) (now : Q) (p : Store.Playback) (c : Player) :
  Url.isYouTubeUrl (Session.videoUrl s) || Session.viewerReady s = true ->
  syncToPlayer s now (Some p) (Some c)
  = (Some (fst (reconcile now p c)), snd (reconcile now p c)).
Proof.
  intros Hgate. unfold syncToPlayer.
  destruct (Url.isYouTubeUrl (Session.videoUrl s)), (Session.viewerReady s);
    try discriminate; cbn [negb andb];
    destruct (reconcile now p c); reflexivity.
Qed.

Lemma syncToPlayer_closed (s : Session.t) (now : Q) (p : option Store.Playback)
    (playerRef : option Player) :
  Url.isYouTubeUrl (Session.videoUrl s) = false ->
  Session.viewerReady s = false ->
  syncToPlayer s now p playerRef = (playerRef, []).
Proof.
  intros Hyt Hready. unfold syncToPlayer. rewrite Hyt, Hready.
  destruct playerRef, p; reflexivity.
Qed.

Example expected_is_102 :
  (expectedPosition Scenario.now Scenario.remote == 102)%Q.
Proof. reflexivity. Qed.

Example deadband_no_seek :
  snd (syncToPlayer (Scenario.guest Scenario.short false false) Scenario.now
         (Some Scenario.remote) (Some (Scenario.widget (1015 # 10))))
  = [].
Proof. reflexivity. Qed.

Example drift_seeks :
  snd (syncToPlayer (Scenario.guest Scenario.short false false) Scenario.now
         (Some Scenario.remote) (Some (Scenario.widget 99)))
  = [CallSeek (expectedPosition Scenario.now Scenario.remote)].
Proof. reflexivity. Qed.

(** The gate of [syncToPlayer]: a guest of a direct media room who has not
    passed it gets no call on the player, whatever the drift (three seconds
    here). *)
Lemma syncToPlayer_gated_no_seek :
  (DRIFT_THRESHOLD
   < Qabs (expectedPosition Scenario.now Scenario.remote
           - getCurrentTime (Scenario.element 99)))%Q
  /\ snd (syncToPlayer (Scenario.guest Scenario.mp4 false false) Scenario.now
            (Some Scenario.remote) (Some (Scenario.element 99)))
     = [].
Proof. split; reflexivity. Qed.

(** Past its gate, [syncToPlayer] computes
    [expected = currentTime + (isPlaying ? (now - updatedAt)/1000 : 0)] and
    [drift = |expected - getCurrentTime()|]; it calls [seek(expected)] if and
    only if [drift > 0.6] (strictly), and with no other argument, before any
    other call; it then calls [play()] if and only if the state is playing
    and the controller is not, and [pause()] if and only if the state is not
    playing and the controller is.  The gate is that of the render the
    function belongs to. *)
Lemma syncToPlayer_reconciles (s : Session.t) (now : Q) (p : Store.Playback)
    (c : Player) :
  Url.isYouTubeUrl (Session.videoUrl s) || Session.viewerReady s = true ->
  Reconciles now p c (snd (syncToPlayer s now (Some p) (Some c))).
Proof.
  intros Hgate. rewrite (syncToPlayer_open _ _ _ _ Hgate). cbn [snd].
  apply reconcile_Reconciles.
Qed.

(** *** Authority gate *)

Lemma hostIs_spec (me : string) (d : Store.Room) :
  hostIs me d = true <-> Store.hostId d = Some me.
Proof.
  unfold hostIs. destruct (Store.hostId d) as [h|].
  - rewrite String.eqb_eq. split; congruence.
  - split; discriminate.
Qed.

Lemma truthyB_spec (o : option bool) : truthyB o = true <-> o = Some true.
Proof. destruct o as [[|]|]; cbn; split; congruence. Qed.

(** C3: for every Room record [d] delivered to the live subscription (or to
    the initial fetch) of a participant [myId], the [canControl] the handler
    stores is true if and only if [d.hostId] is [myId] or
    [d.allowEveryoneControl] is true; the value depends on the record
    delivered and on [myId] only, so every delivery recomputes it. *)
Theorem canControl_iff_host_or_everyone (d : Store.Room) (s : Session.t) :
  (Session.canControl (onRoomValue (Some d) s) = true
   <-> Store.hostId d = Some (Session.myId s)
       \/ Store.allowEveryoneControl d = Some true)
  /\ (Session.canControl (onRoomGet (Some d) s) = true
      <-> Store.hostId d = Some (Session.myId s)
          \/ Store.allowEveryoneControl d = Some true)
  /\ (forall s' : Session.t,
        Session.myId s' = Session.myId s ->
        Session.canControl (onRoomValue (Some d) s')
        = Session.canControl (onRoomValue (Some d) s))
  /\ Session.isHost (onRoomValue (Some d) s) = hostIs (Session.myId s) d
  /\ Session.canControl (onRoomValue (Some d) s)
     = Session.isHost (onRoomValue (Some d) s)
       || Session.allowEveryone (onRoomValue (Some d) s).
Proof.
  repeat split; cbn; try rewrite orb_true_iff, hostIs_spec, truthyB_spec;
    try tauto.
  intros s' Hme. rewrite Hme. reflexivity.
Qed.

Lemma canControl_iff_host_or_everyone_witness :
  Session.canControl
    (onRoomValue
       (Some (Store.mkRoom (Some Scenario.short) (Some "host000001")
                (Some true) (Some Scenario.T) None))
       (Scenario.guest Scenario.short false false))
  = true.
Proof.
  apply (proj1 (canControl_iff_host_or_everyone
                  (Store.mkRoom (Some Scenario.short) (Some "host000001")
                     (Some true) (Some Scenario.T) None)
                  (Scenario.guest Scenario.short false false))).
  right. reflexivity.
Defined.

(** A guest gains control on the next Room update after the host opens it. *)
Example guest_gains_control :
  Session.canControl (Scenario.guest Scenario.short false false) = false
  /\ Session.canControl
       (onRoomValue
          (Some (Store.mkRoom (Some Scenario.short) (Some "host000001")
                   (Some true) (Some Scenario.T) None))
          (Scenario.guest Scenario.short false false))
     = true.
Proof. split; reflexivity. Qed.

(** *** The gate on publishing *)

Lemma broadcastPlayback_gate (s : Session.t) (now : Q)
    (playerRef : option Player) (db : Store.Db) :
  Session.canControl s = false -> broadcastPlayback s now playerRef db = db.
Proof. intros H. unfold broadcastPlayback. rewrite H. reflexivity. Qed.

Lemma notify_gate (n : Notification) (s : Session.t) (now : Q)
    (playerRef : option Player) (db : Store.Db) :
  Session.canControl s = false -> isLocalEvent n = true ->
  notify n now playerRef (s, db) = (s, db).
Proof.
  intros H Hn. destruct n; try discriminate; cbn;
    unfold handlePlay, handlePause; rewrite ?H; cbn;
    rewrite ?broadcastPlayback_gate by assumption; reflexivity.
Qed.

(** C4: whenever [canControl] is false, [handlePlay], [handlePause] and
    [handleSeekDelta] leave the store and the player as they are (no write,
    no seek), [broadcastPlayback] itself writes nothing, and so does every
    local-event callback of a player, including [onLocalSeek], which is
    wired to [broadcastPlayback] directly. *)
Theorem no_control_no_effect (s : Session.t) (d now : Q)
    (playerRef : option Player) (db : Store.Db) :
  Session.canControl s = false ->
  handlePlay s now playerRef db = db
  /\ handlePause s now playerRef db = db
  /\ handleSeekDelta s d now playerRef db = (playerRef, db)
  /\ broadcastPlayback s now playerRef db = db
  /\ (forall n, isLocalEvent n = true ->
        notify n now playerRef (s, db) = (s, db)).
Proof.
  intros H. unfold handlePlay, handlePause, handleSeekDelta. rewrite H.
  cbn [negb].
  repeat split; try reflexivity.
  - apply broadcastPlayback_gate, H.
  - intros n Hn. apply notify_gate; assumption.
Qed.

Lemma no_control_no_effect_witness :
  handlePlay (Scenario.guest Scenario.short false false) Scenario.now
    (Some (Scenario.widget 99)) Store.empty = Store.empty
  /\ handlePause (Scenario.guest Scenario.short false false) Scenario.now
       (Some (Scenario.widget 99)) Store.empty = Store.empty
  /\ handleSeekDelta (Scenario.guest Scenario.short false false) 10 Scenario.now
       (Some (Scenario.widget 99)) Store.empty
     = (Some (Scenario.widget 99), Store.empty)
  /\ broadcastPlayback (Scenario.guest Scenario.short false false) Scenario.now
       (Some (Scenario.widget 99)) Store.empty = Store.empty
  /\ (forall n, isLocalEvent n = true ->
        notify n Scenario.now (Some (Scenario.widget 99))
          (Scenario.guest Scenario.short false false, Store.empty)
        = (Scenario.guest Scenario.short false false, Store.empty)).
Proof.
  apply (no_control_no_effect (Scenario.guest Scenario.short false false) 10
           Scenario.now (Some (Scenario.widget 99)) Store.empty).
  reflexivity.
Defined.

(** With authority the same gesture does publish: the gate, not the
    handler, is what withholds the write. *)
Example control_publishes :
  Store.publishes
    (handlePlay (Scenario.guest Scenario.short false true) Scenario.now
       (Some (Scenario.widget 99)) Store.empty)
  = [Store.UpdatePlayback "room000001"
       (Store.mkPlayback (Some true) (Some 99%Q) (Some Scenario.now)
          (Some "guest00001"))].
Proof. reflexivity. Qed.

(** *** Source classification *)

Lemma takeWord_allWord (s : string) : allWord (Url.takeWord s) = true.
Proof.
  induction s as [|c rest IH]; cbn; [reflexivity|].
  destruct (Url.isWordChar c) eqn:E; cbn; [|reflexivity].
  rewrite E, IH. reflexivity.
Qed.

Lemma includes_prefix (needle hay : string) :
  String.prefix needle hay = true -> Url.includes needle hay = true.
Proof. intros H. destruct hay; cbn in *; rewrite H; reflexivity. Qed.

Lemma includes_tail (needle : string) (c : ascii) (hay : string) :
  Url.includes needle hay = true -> Url.includes needle (String c hay) = true.
Proof. intros H. cbn [Url.includes]. rewrite H. apply orb_true_r. Qed.

Lemma takeWord_prefix (s : string) : String.prefix (Url.takeWord s) s = true.
Proof.
  induction s as [|c rest IH]; cbn; [reflexivity|].
  destruct (Url.isWordChar c); [|reflexivity].
  cbn. destruct (ascii_dec c c); [exact IH|congruence].
Qed.

Lemma prefix_takeWord (lit s : string) :
  String.prefix lit s = true ->
  String.prefix (lit ++ Url.takeWord (Url.skip (String.length lit) s)) s = true.
Proof.
  revert s. induction lit as [|a lit IH]; intros s H.
  - apply takeWord_prefix.
  - destruct s as [|c rest]; cbn in H; [discriminate|].
    change (String.prefix
              (String a (lit ++ Url.takeWord (Url.skip (String.length lit) rest)))
              (String c rest) = true).
    cbn [String.prefix]. destruct (ascii_dec a c); [|discriminate]. apply IH, H.
Qed.

(** What a successful [/embed/] match returns: a non-empty run of class
    characters that follows the literal somewhere in the path. *)
Lemma matchEmbed_sound (path id : string) :
  Url.matchEmbed path = Some id ->
  Url.truthy id = true /\ allWord id = true
  /\ Url.includes ("/embed/" ++ id) path = true.
Proof.
  induction path as [|c rest IH]; [discriminate|].
  cbn [Url.matchEmbed].
  destruct (String.prefix "/embed/" (String c rest)) eqn:Hp.
  - destruct (Url.truthy (Url.takeWord (Url.skip 7 (String c rest)))) eqn:Ht.
    + intros [= <-]. repeat split; [exact Ht|apply takeWord_allWord|].
      apply includes_prefix. apply (prefix_takeWord "/embed/" _ Hp).
    + intros H. destruct (IH H) as (? & ? & ?).
      repeat split; auto using includes_tail.
  - intros H. destruct (IH H) as (? & ? & ?).
    repeat split; auto using includes_tail.
Qed.



Example extract_short :
  Url.extractYouTubeId (Some (Url.mkURL "youtu.be" "/dQw4w9WgXcQ" [("v", "other")]))
  = Some "dQw4w9WgXcQ".
Proof. reflexivity. Qed.

Example extract_v_before_embed :
  Url.extractYouTubeId
    (Some (Url.mkURL "www.youtube.com" "/embed/fromPath" [("t", "3"); ("v", "fromQuery")]))
  = Some "fromQuery".
Proof. reflexivity. Qed.

Example extract_embed :
  Url.extractYouTubeId (Some (Url.mkURL "www.youtube.com" "/embed/abc_-9" []))
  = Some "abc_-9".
Proof. reflexivity. Qed.

Example extract_unrelated :
  Url.extractYouTubeId (Some (Url.mkURL "example.com" "/video.mp4" [])) = None.
Proof. reflexivity. Qed.

(** *** The interaction gate of direct media sources *)

Lemma userStart_ready (h : Html5Player.t) :
  Html5Player.playError (Html5Player.video h) = None ->
  snd (Html5Player.userStart h) = [UserReady]
  /\ Html5Player.needUserStart (fst (Html5Player.userStart h)) = false
  /\ Html5Player.muted (Html5Player.video (fst (Html5Player.userStart h))) = false.
Proof.
  intros H. unfold Html5Player.userStart, Html5Player.awaitPlay. rewrite H.
  repeat split.
Qed.

Lemma userStart_blocked (h : Html5Player.t) (msg : string) :
  Html5Player.playError (Html5Player.video h) = Some msg ->
  snd (Html5Player.userStart h) = []
  /\ Html5Player.needUserStart (fst (Html5Player.userStart h)) = true.
Proof.
  intros H. unfold Html5Player.userStart, Html5Player.awaitPlay. rewrite H.
  repeat split.
Qed.

(** *** Room creation *)

Lemma val_setRoom (id : string) (r : Store.Room) (db : Store.Db) :
  Store.val id (Store.setRoom id r db) = Some r.
Proof. unfold Store.val, Store.setRoom. cbn. apply lookup_insert_eq. Qed.

Lemma val_setPlayback (id : string) (p : Store.Playback) (db : Store.Db) :
  Store.val id (Store.setPlayback id p db)
  = Some (Store.withPlayback p (default Store.emptyRoom (Store.val id db))).
Proof. unfold Store.val, Store.setPlayback. cbn. apply lookup_insert_eq. Qed.

Lemma val_setRoom_ne (id other : string) (r : Store.Room) (db : Store.Db) :
  other <> id -> Store.val other (Store.setRoom id r db) = Store.val other db.
Proof.
  intros H. unfold Store.val, Store.setRoom. cbn.
  apply lookup_insert_ne. congruence.
Qed.

Lemma val_setPlayback_ne (id other : string) (p : Store.Playback) (db : Store.Db) :
  other <> id -> Store.val other (Store.setPlayback id p db) = Store.val other db.
Proof.
  intros H. unfold Store.val, Store.setPlayback. cbn.
  apply lookup_insert_ne. congruence.
Qed.

(** C8, as stated, fails: the two records are written by two successive
    [set] calls, and the store as it stands after the first, which is what a
    listener on the room is delivered at that point, holds the Room record
    and no PlaybackState. *)
Lemma created_room_lacks_playback :
  exists sd,
    In sd (handleCreateRoom " https://youtu.be/dQw4w9WgXcQ" "room000001"
             Scenario.T (Scenario.T + 1)
             (Session.initial "host000001" "Guest-ab12" "") Store.empty)
    /\ roomWithoutPlayback "room000001" (snd sd).
Proof.
  unfold handleCreateRoom.
  replace (trim " https://youtu.be/dQw4w9WgXcQ")
    with "https://youtu.be/dQw4w9WgXcQ" by (vm_compute; reflexivity).
  cbn [Url.truthy negb].
  eexists. split; [left; reflexivity|].
  cbn [snd]. eexists. split; [apply val_setRoom|].
  split; [discriminate|reflexivity].
Qed.

(** C8, amended: room creation (with a non-blank URL) writes the Room
    record ([videoUrl], [hostId] = the creator, [allowEveryoneControl] =
    false, [createdAt]) and then, by a second write, the initial
    PlaybackState ([isPlaying] = false, position 0); the session enters the
    room only after both writes, so whenever the creating session is in the
    room, the store holds both records.  No other room is touched. *)
Theorem handleCreateRoom_writes_before_entering (createUrl id : string)
    (t1 t2 : Q) (s : Session.t) (db : Store.Db) :
  Url.truthy (trim createUrl) = true ->
  let url := trim createUrl in
  let room := Store.mkRoom (Some url) (Some (Session.myId s)) (Some false)
                (Some t1) None in
  let initial := Store.mkPlayback (Some false) (Some 0%Q) (Some t2)
                   (Some (Session.myId s)) in
  exists db1 db2,
    handleCreateRoom createUrl id t1 t2 s db
    = [(s, db1); (s, db2); (enterCreatedRoom id url s, db2)]
    /\ Store.val id db1 = Some room
    /\ Store.val id db2 = Some (Store.withPlayback initial room)
    /\ Store.writes db2
       = (Store.writes db ++ [Store.SetRoom id room; Store.SetPlayback id initial])%list
    /\ (forall other, other <> id -> Store.val other db2 = Store.val other db)
    /\ Session.roomId (enterCreatedRoom id url s) = id
    /\ Session.videoUrl (enterCreatedRoom id url s) = url
    /\ Session.isHost (enterCreatedRoom id url s) = true
    /\ Session.canControl (enterCreatedRoom id url s) = true
    /\ Session.allowEveryone (enterCreatedRoom id url s) = false
    /\ (Session.roomId s <> id ->
        forall sd, In sd (handleCreateRoom createUrl id t1 t2 s db) ->
                   Session.roomId (fst sd) = id ->
                   Store.val id (snd sd) = Some (Store.withPlayback initial room)).
Proof.
  intros Hurl url room initial.
  exists (Store.setRoom id room db),
         (Store.setPlayback id initial (Store.setRoom id room db)).
  assert (Htrace : handleCreateRoom createUrl id t1 t2 s db
                   = [(s, Store.setRoom id room db);
                      (s, Store.setPlayback id initial (Store.setRoom id room db));
                      (enterCreatedRoom id url s,
                       Store.setPlayback id initial (Store.setRoom id room db))]).
  { unfold handleCreateRoom. rewrite Hurl. reflexivity. }
  assert (Hboth : Store.val id (Store.setPlayback id initial (Store.setRoom id room db))
                  = Some (Store.withPlayback initial room)).
  { rewrite val_setPlayback, val_setRoom. reflexivity. }
  split; [exact Htrace|].
  split; [apply val_setRoom|].
  split; [exact Hboth|].
  split; [cbn; rewrite <- app_assoc; reflexivity|].
  split; [intros other Hne; rewrite val_setPlayback_ne, val_setRoom_ne by assumption;
          reflexivity|].
  repeat (split; [reflexivity|]).
  intros Hfresh sd Hin Hentered. rewrite Htrace in Hin.
  destruct Hin as [<-|[<-|[<-|[]]]]; cbn [fst snd] in *;
    try contradiction; exact Hboth.
Qed.

Lemma handleCreateRoom_writes_before_entering_witness :
  exists db1 db2,
    handleCreateRoom "https://youtu.be/x" "room000001" Scenario.T (Scenario.T + 1)
      (Session.initial "host000001" "Guest-ab12" "") Store.empty
    = [(Session.initial "host000001" "Guest-ab12" "", db1);
       (Session.initial "host000001" "Guest-ab12" "", db2);
       (enterCreatedRoom "room000001" (trim "https://youtu.be/x")
          (Session.initial "host000001" "Guest-ab12" ""), db2)].
Proof.
  destruct (handleCreateRoom_writes_before_entering
              "https://youtu.be/x" "room000001" Scenario.T (Scenario.T + 1)
              (Session.initial "host000001" "Guest-ab12" "") Store.empty)
    as (db1 & db2 & Htrace & _).
  - vm_compute. reflexivity.
  - exists db1, db2. exact Htrace.
Defined.

(** A blank URL creates nothing. *)
Lemma handleCreateRoom_blank (createUrl id : string) (t1 t2 : Q)
    (s : Session.t) (db : Store.Db) :
  Url.truthy (trim createUrl) = false ->
  handleCreateRoom createUrl id t1 t2 s db = [].
Proof. intros H. unfold handleCreateRoom. rewrite H. reflexivity. Qed.

(** *** Toggling open control *)

Lemma val_updateRoom (id : string) (b : bool) (db : Store.Db) :
  Store.val id (Store.updateRoom id b db)
  = Some (Store.withAllow b (default Store.emptyRoom (Store.val id db))).
Proof. unfold Store.val, Store.updateRoom. cbn. apply lookup_insert_eq. Qed.

Lemma val_updateRoom_ne (id other : string) (b : bool) (db : Store.Db) :
  other <> id -> Store.val other (Store.updateRoom id b db) = Store.val other db.
Proof.
  intros H. unfold Store.val, Store.updateRoom. cbn.
  apply lookup_insert_ne. congruence.
Qed.

(** C9: [toggleEveryoneControl] by a participant who is not the host is a
    no-op: the store, and with it the Room record, is unchanged.  When it
    runs (host, in a room) it performs one [update] of the Room record that
    sets [allowEveryoneControl] to the negation of the session's flag and
    leaves [videoUrl], [hostId], [createdAt] (and the playback child) as
    they were; no other room changes and nothing is published. *)
Theorem toggleEveryoneControl_host_only (s : Session.t) (db : Store.Db) :
  (Session.isHost s = false -> toggleEveryoneControl s db = db)
  /\ (Session.isHost s = true -> Url.truthy (Session.roomId s) = true ->
      forall r, Store.val (Session.roomId s) db = Some r ->
      exists r',
        Store.val (Session.roomId s) (toggleEveryoneControl s db) = Some r'
        /\ Store.allowEveryoneControl r' = Some (negb (Session.allowEveryone s))
        /\ Store.videoUrl r' = Store.videoUrl r
        /\ Store.hostId r' = Store.hostId r
        /\ Store.createdAt r' = Store.createdAt r
        /\ Store.playback r' = Store.playback r
        /\ (forall other, other <> Session.roomId s ->
              Store.val other (toggleEveryoneControl s db) = Store.val other db)
        /\ Store.writes (toggleEveryoneControl s db)
           = (Store.writes db
              ++ [Store.UpdateRoom (Session.roomId s)
                    (negb (Session.allowEveryone s))])%list
        /\ Store.publishes (toggleEveryoneControl s db) = Store.publishes db).
Proof.
  unfold toggleEveryoneControl. split.
  - intros H. rewrite H. reflexivity.
  - intros Hhost Hroom r Hr. rewrite Hhost, Hroom. cbn [negb orb].
    exists (Store.withAllow (negb (Session.allowEveryone s)) r).
    rewrite val_updateRoom, Hr. cbn [default].
    repeat split.
    + intros other Hne. apply val_updateRoom_ne, Hne.
    + unfold Store.publishes. cbn [Store.writes Store.updateRoom].
      rewrite filter_app. cbn. apply app_nil_r.
Qed.

Lemma toggleEveryoneControl_host_only_witness :
  toggleEveryoneControl (Scenario.guest Scenario.short false false) Store.empty
  = Store.empty.
Proof.
  apply (proj1 (toggleEveryoneControl_host_only
                  (Scenario.guest Scenario.short false false) Store.empty)).
  reflexivity.
Defined.

(** *** Notifications of the two backends *)




(** *** Suppression *)

(** [seek] raises the flag and queues the callback that clears it; on a
    widget that is not ready it does nothing at all. *)
Lemma seek_raises_flag (sec : Q) (p : Player) :
  (seekable p = true ->
     suppressed (seek sec p) = true
     /\ pendingTimeouts (seek sec p) = S (pendingTimeouts p))
  /\ (seekable p = false -> seek sec p = p).
Proof.
  destruct p as [h|y]; cbn.
  - split; [intros _; split; reflexivity|discriminate].
  - unfold YouTubePlayer.seek. destruct (YouTubePlayer.ready y); cbn.
    + split; [intros _; split; reflexivity|discriminate].
    + split; [discriminate|reflexivity].
Qed.

(** The queued callback clears the flag. *)
Lemma runTimeout_clears (p : Player) :
  pendingTimeouts p <> 0 -> suppressed (runTimeout p) = false.
Proof.
  destruct p as [h|y]; cbn;
    [unfold Html5Player.runTimeout; destruct (Html5Player.timeouts h)
    |unfold YouTubePlayer.runTimeout; destruct (YouTubePlayer.timeouts y)];
    cbn; congruence.
Qed.

(** While the flag is up, no media event and no widget state change
    invokes a callback of [App], so nothing is published for it. *)
Lemma suppressed_is_silent (p : Player) (ev : PlayerEvent) :
  suppressed p = true -> ev <> StartClick -> raise ev p = (p, []).
Proof.
  intros Hs Hev. destruct p as [h|y], ev as [e|d|]; cbn in *;
    try reflexivity; try congruence.
  - unfold Html5Player.handleEvent. rewrite Hs. reflexivity.
  - unfold YouTubePlayer.onStateChange. rewrite Hs, orb_true_r. reflexivity.
Qed.

Lemma suppressed_no_publish (c : Client) (p : Player) (ev : PlayerEvent) (now : Q) :
  playerRef c = Some p -> suppressed p = true -> ev <> StartClick ->
  handle (Deliver ev now) c = c.
Proof.
  intros Hp Hs Hev. cbn [handle]. rewrite Hp.
  rewrite (suppressed_is_silent p ev Hs Hev). cbn.
  unfold withDb, withPlayer, withSess. cbn. rewrite <- Hp.
  destruct c; reflexivity.
Qed.

(** C2, which requires that a seek issued by the reconciler never by itself
    causes a publish, evaluated on the code, on the [<video>] player of
    [Mirror].  The host has control and the gate is open (the URL is
    classified as YouTube).  The reconciler's seek moves the head to the
    expected position, raises the flag and publishes nothing; the zero-delay
    timer clears the flag; the element's [seeked] event, dispatched when the
    seek has completed, finds the flag down, is taken for a local seek, and
    is published.  From the arrival of the remote state on, no user action
    occurs: the publish is the consequence of the correction alone.  When
    [seeked] is delivered before the timer, nothing is published. *)
Theorem reconciler_seek_is_republished :
  Session.canControl (sess Mirror.playing) = true
  /\ (suppressed <$> playerRef Mirror.playing) = Some false
  /\ (getCurrentTime <$> playerRef Mirror.playing) = Some (25 # 10)
  /\ match playerRef Mirror.corrected with
     | Some (Html5 h) =>
         Html5Player.suppressRef h = true
         /\ Html5Player.timeouts h = 1%nat
         /\ Html5Player.getCurrentTime h
            = expectedPosition Scenario.now Scenario.remote
     | _ => False
     end
  /\ Store.publishes (db Mirror.corrected) = Store.publishes (db Mirror.playing)
  /\ Store.publishes (db Mirror.late)
     = (Store.publishes (db Mirror.playing)
        ++ [Store.UpdatePlayback "room000001"
              (Store.mkPlayback (Some true)
                 (Some (expectedPosition Scenario.now Scenario.remote))
                 (Some (Scenario.now + 50)%Q) (Some "host000001"))])%list
  /\ Store.publishes (db Mirror.early) = Store.publishes (db Mirror.playing).
Proof. vm_compute. repeat split. Qed.

(** *** The event loop *)

Lemma sameState_refl (s : Session.t) : Session.sameState s s = true.
Proof.
  unfold Session.sameState.
  rewrite !String.eqb_refl, !Bool.eqb_reflx.
  rewrite (proj2 (Qeq_bool_iff _ _) (Qeq_refl (Session.remoteTime s))).
  rewrite (proj2 (Qeq_bool_iff _ _) (Qeq_refl (Session.lastUpdateMs s))).
  reflexivity.
Qed.

(** Two states React does not tell apart agree on every hook but the two
    numbers, which are equal as numbers. *)
Lemma sameState_fields (a b : Session.t) :
  Session.sameState a b = true ->
  Session.myId b = Session.myId a
  /\ Session.nickname b = Session.nickname a
  /\ Session.roomId b = Session.roomId a
  /\ Session.isHost b = Session.isHost a
  /\ Session.videoUrl b = Session.videoUrl a
  /\ Session.allowEveryone b = Session.allowEveryone a
  /\ Session.canControl b = Session.canControl a
  /\ Session.viewerReady b = Session.viewerReady a
  /\ Session.isPlaying b = Session.isPlaying a.
Proof.
  unfold Session.sameState. intros H.
  repeat (apply andb_true_iff in H as (H & ?)).
  repeat match goal with
    | E : String.eqb _ _ = true |- _ => apply String.eqb_eq in E
    | E : Bool.eqb _ _ = true |- _ => apply Bool.eqb_prop in E
    end.
  repeat split; symmetry; assumption.
Qed.

(** The four ways a step goes: nothing after unmounting; the teardown; a
    handler followed by a render; a handler that changed no state hook. *)
Lemma step_shape (ev : Event) (c : Client) :
  (alive c = false /\ step ev c = c)
  \/ (alive c = true /\ ev = Leave /\ step ev c = teardown c)
  \/ (alive c = true /\ ev <> Leave /\ step ev c = render (handle ev c))
  \/ (alive c = true /\ ev <> Leave /\ step ev c = handle ev c
      /\ Session.sameState (sess c) (sess (handle ev c)) = true).
Proof.
  unfold step. destruct (alive c); [|left; auto]. right.
  assert (Hgen : forall ev',
            ev' <> Leave ->
            (if negb (Session.sameState (sess c) (sess (handle ev' c)))
             then render (handle ev' c) else handle ev' c)
            = render (handle ev' c)
            \/ ((if negb (Session.sameState (sess c) (sess (handle ev' c)))
                 then render (handle ev' c) else handle ev' c)
                = handle ev' c
                /\ Session.sameState (sess c) (sess (handle ev' c)) = true)).
  { intros ev' _.
    destruct (Session.sameState (sess c) (sess (handle ev' c))); cbn; auto. }
  destruct ev;
    try (right; cbn [rerenders];
         match goal with
         | |- context [handle ?e c] =>
             destruct (Hgen e ltac:(discriminate)) as [H|(H & E)];
             [left|right]; repeat split;
             first [discriminate | assumption]
         end).
  - left. auto.
  - right. left. repeat split. discriminate.
Qed.

(** A handler that leaves the session as it is causes no render. *)
Lemma step_quiet (ev : Event) (c : Client) :
  alive c = true -> ev <> Leave -> ev <> Rerender ->
  sess (handle ev c) = sess c ->
  step ev c = handle ev c.
Proof.
  intros Ha Hl Hr Hs. unfold step. rewrite Ha.
  destruct ev; try contradiction; cbn [rerenders];
    rewrite Hs, sameState_refl; reflexivity.
Qed.

Lemma render_player (c : Client) :
  playerRef (render c) = rerenderPlayer <$> playerRef c.
Proof. unfold render. destruct (decide _); reflexivity. Qed.

Lemma render_sess_cases (c : Client) :
  sess (render c) = sess c \/ sess (render c) = setViewerReady false (sess c).
Proof.
  unfold render. destruct (decide _); cbn [sess]; [left; reflexivity|].
  unfold roomEffect. destruct (negb _); auto.
Qed.

(** *** Heartbeat *)

Module HeartbeatFacts.

Import Heartbeat HeartbeatInv.

Lemma dueOf_depsOf (s : Session.t) : dueOf (depsOf s) = heartbeatDue s.
Proof. reflexivity. Qed.

Lemma cleanup_clears (e : t) :
  settled e -> held (cleanup e) = None /\ intervals (cleanup e) = ∅.
Proof.
  unfold cleanup. intros [(_ & Hh & Hi)|(d & _ & Hd)].
  - rewrite Hh. auto.
  - destruct (dueOf d).
    + destruct Hd as (i & Hh & Hi). rewrite Hh, Hi. cbn.
      split; [reflexivity|apply delete_singleton_eq].
    + destruct Hd as (Hh & Hi). rewrite Hh. auto.
Qed.

Lemma body_agrees (s : Session.t) (e : t) :
  held e = None -> intervals e = ∅ -> agrees (depsOf s) (body s e).
Proof.
  intros Hh Hi. unfold agrees, body. rewrite dueOf_depsOf. unfold heartbeatDue.
  destruct (Url.truthy (Session.roomId s)); cbn [negb andb];
    [|split; [reflexivity|cbn; auto]].
  destruct (Session.canControl s && Session.isPlaying s
            && (Url.isYouTubeUrl (Session.videoUrl s) || Session.viewerReady s));
    cbn; split; try reflexivity; auto.
  exists (nextId e). rewrite Hi, insert_empty. auto.
Qed.

Lemma commit_agrees (s : Session.t) (e : t) :
  settled e -> agrees (depsOf s) (commit s e).
Proof.
  intros He. unfold commit. destruct (decide (lastDeps e = Some (depsOf s))) as [Heq|Hne].
  - destruct He as [(Hnone & _)|(d & Hd)]; [congruence|].
    destruct Hd as (Hlast & Hd). assert (d = depsOf s) by congruence. subst d.
    split; assumption.
  - destruct (cleanup_clears e He) as (Hh & Hi). apply body_agrees; assumption.
Qed.

Lemma unmount_clears (e : t) : settled e -> intervals (unmount e) = ∅.
Proof. intros He. apply cleanup_clears, He. Qed.

Lemma agrees_settled (d : Deps) (e : t) : agrees d e -> settled e.
Proof. intros H. right. exists d. exact H. Qed.

Lemma handle_hb (ev : Event) (c : Client) :
  hb (handle ev c) = hb c /\ alive (handle ev c) = alive c.
Proof.
  destruct ev; cbn [handle];
    repeat match goal with
      | |- context [match ?x with _ => _ end] => destruct x
      end; cbn; auto.
Qed.

Lemma render_ok (c : Client) :
  alive c = true -> settled (hb c) -> ok (render c).
Proof.
  intros Ha Hs. unfold ok, render.
  destruct (decide (roomDeps c = Some (Session.roomId (sess c),
                                       Session.nickname (sess c))));
    cbn; rewrite Ha; apply commit_agrees, Hs.
Qed.

Lemma step_ok (ev : Event) (c : Client) : ok c -> ok (step ev c).
Proof.
  intros Hok.
  destruct (step_shape ev c)
    as [(Ha & ->)|[(Ha & _ & ->)|[(Ha & _ & ->)|(Ha & _ & -> & Hsame)]]];
    [exact Hok| | |]; unfold ok in Hok; rewrite Ha in Hok;
    destruct (handle_hb ev c) as (Hhb & Hal).
  - unfold ok, teardown. cbn. eapply unmount_clears, agrees_settled, Hok.
  - apply render_ok; [congruence|]. rewrite Hhb.
    eapply agrees_settled, Hok.
  - unfold ok. rewrite Hal, Ha, Hhb.
    replace (depsOf (sess (handle ev c))) with (depsOf (sess c)); [exact Hok|].
    destruct (sameState_fields _ _ Hsame)
      as (_ & _ & Hr & _ & Hu & _ & Hc & Hv & Hp).
    unfold depsOf. congruence.
Qed.

Lemma boot_ok (me name room : string) : ok (boot me name room).
Proof.
  unfold boot. apply render_ok; [reflexivity|].
  left. cbn. auto.
Qed.

Lemma run_ok (evs : list Event) (c : Client) : ok c -> ok (run evs c).
Proof.
  revert c. induction evs as [|ev evs IH]; intros c Hok; [exact Hok|].
  cbn. apply IH, step_ok, Hok.
Qed.

End HeartbeatFacts.

Lemma heartbeatDue_spec (s : Session.t) :
  heartbeatDue s = true
  <-> Session.roomId s <> ""
      /\ Session.canControl s = true
      /\ Session.isPlaying s = true
      /\ (Url.isYouTubeUrl (Session.videoUrl s) = true
          \/ Session.viewerReady s = true).
Proof.
  unfold heartbeatDue.
  rewrite !andb_true_iff, orb_true_iff.
  assert (Url.truthy (Session.roomId s) = true <-> Session.roomId s <> "")
    by (destruct (Session.roomId s); cbn; split; congruence).
  tauto.
Qed.

(** A render writes the presence node when the room effect runs in a
    room, and nothing else. *)
Lemma render_db (c : Client) :
  db (render c) = db c
  \/ (roomDeps c <> Some (Session.roomId (sess c), Session.nickname (sess c))
      /\ Url.truthy (Session.roomId (sess c)) = true
      /\ db (render c)
         = Store.setPresence (Session.roomId (sess c)) (Session.myId (sess c))
             (Session.nickname (sess c)) (db c)).
Proof.
  unfold render. destruct (decide _) as [|Hne]; cbn [db]; [left; reflexivity|].
  unfold writePresence.
  destruct (Url.truthy (Session.roomId (sess c))); [right|left]; auto.
Qed.

Lemma render_publishes (c : Client) :
  Store.publishes (db (render c)) = Store.publishes (db c).
Proof.
  destruct (render_db c) as [->|(_ & _ & ->)]; [reflexivity|].
  unfold Store.publishes, Store.setPresence. cbn [Store.writes].
  rewrite filter_app. cbn. apply app_nil_r.
Qed.

Lemma step_Interval (i : nat) (now : Q) (c : Client) :
  alive c = true ->
  step (Interval i now) c = handle (Interval i now) c.
Proof. intros Ha. apply step_quiet; [exact Ha|discriminate|discriminate|reflexivity]. Qed.

Lemma step_Interval_db (i : nat) (now : Q) (c : Client) :
  alive c = true ->
  db (step (Interval i now) c)
  = Heartbeat.fire i (sess c) now (playerRef c) (db c) (hb c).
Proof. intros Ha. rewrite step_Interval by exact Ha. reflexivity. Qed.

(** C5, which requires the heartbeat to run only while local playback is
    active, evaluated on the code.  The effect is armed by the session's
    [isPlaying] flag, which mirrors the last playback state received, not by
    the local controller.  On the host of [Stalled] the flag is true while
    the widget (rebuilt by the render that the received state caused) is
    unstarted; an interval of period 3000 ms is live, and its firing
    publishes a paused state at position 0.  In the earlier variant of the
    file the effect also ignores the interaction gate: for a participant
    with control in a direct media room who has not passed the gate its
    condition holds, where that of [App.jsx] does not. *)
Theorem heartbeat_publishes_while_stalled :
  (isPlaying <$> playerRef Stalled.stalled) = Some false
  /\ Session.isPlaying (sess Stalled.stalled) = true
  /\ Heartbeat.intervals (hb Stalled.stalled) = {[0%nat := 3000%Z]}
  /\ Store.publishes (db Stalled.beat)
     = (Store.publishes (db Stalled.stalled)
        ++ [Store.UpdatePlayback "room000001"
              (Store.mkPlayback (Some false) (Some 0%Q)
                 (Some (Scenario.now + 3000)%Q) (Some "host000001"))])%list
  /\ heartbeatDue_part000 (Scenario.guest Scenario.mp4 false true) = true
  /\ heartbeatDue (Scenario.guest Scenario.mp4 false true) = false.
Proof. vm_compute. repeat split. Qed.

(** The arming condition as the code has it.  In every state a client
    reaches, while [App] is mounted there is a
    live heartbeat interval if and only if the session is in a room,
    [canControl] and the session's [isPlaying] flag are true, and the source
    is a YouTube URL or [viewerReady] is true; that interval is the only
    one and its period is 3000 ms; as soon as the condition fails, and once
    [App] has unmounted, no interval is live.  A firing of a live interval
    publishes the mounted controller's current state; a firing of an
    interval that is not live, and any firing after unmounting, publishes
    nothing. *)
Theorem heartbeat_live_iff_due (evs : list Event) (me name room : string) :
  let c := run evs (boot me name room) in
  (alive c = true ->
     ((exists i, Heartbeat.held (hb c) = Some i
                 /\ Heartbeat.intervals (hb c) = {[i := 3000%Z]})
      <-> Session.roomId (sess c) <> ""
          /\ Session.canControl (sess c) = true
          /\ Session.isPlaying (sess c) = true
          /\ (Url.isYouTubeUrl (Session.videoUrl (sess c)) = true
              \/ Session.viewerReady (sess c) = true))
     /\ (heartbeatDue (sess c) = false -> Heartbeat.intervals (hb c) = ∅)
     /\ (forall i now p,
           is_Some (Heartbeat.intervals (hb c) !! i) ->
           playerRef c = Some p ->
           Store.writes (db (step (Interval i now) c))
           = (Store.writes (db c)
              ++ [Store.UpdatePlayback (Session.roomId (sess c))
                    (Store.mkPlayback (Some (isPlaying p))
                       (Some (getCurrentTime p)) (Some now)
                       (Some (Session.myId (sess c))))])%list))
  /\ (alive c = false -> Heartbeat.intervals (hb c) = ∅)
  /\ (forall i now,
        Heartbeat.intervals (hb c) !! i = None ->
        db (step (Interval i now) c) = db c)
  /\ (forall i now,
        alive c = false -> step (Interval i now) c = c).
Proof.
  intros c.
  assert (Hok : HeartbeatInv.ok c) by apply HeartbeatFacts.run_ok, HeartbeatFacts.boot_ok.
  unfold HeartbeatInv.ok in Hok.
  split; [|split; [|split]].
  - intros Ha. rewrite Ha in Hok. destruct Hok as (_ & Hd).
    rewrite HeartbeatFacts.dueOf_depsOf in Hd.
    rewrite <- heartbeatDue_spec.
    destruct (heartbeatDue (sess c)) eqn:Hdue.
    + split; [tauto|]. split; [discriminate|].
      intros i now p Hlive Hp. rewrite step_Interval_db by assumption.
      unfold Heartbeat.fire. destruct Hlive as [z ->].
      apply heartbeatDue_spec in Hdue. destruct Hdue as (Hroom & Hcan & _).
      unfold broadcastPlayback. rewrite Hcan, Hp.
      destruct (Session.roomId (sess c)); [congruence|]. reflexivity.
    + destruct Hd as (Hh & Hi). split; [|split; [intros _; exact Hi|]].
      * split; [|discriminate]. intros (i & Hheld & _). congruence.
      * intros i now p [z Hz]. rewrite Hi, lookup_empty in Hz. discriminate.
  - intros Ha. rewrite Ha in Hok. exact Hok.
  - intros i now Hnone. destruct (alive c) eqn:Ha;
      [|unfold step; rewrite Ha; reflexivity].
    rewrite step_Interval_db by exact Ha.
    unfold Heartbeat.fire. rewrite Hnone. reflexivity.
  - intros i now Ha. unfold step. rewrite Ha. reflexivity.
Qed.

(** At a concrete run: the host of [Echo], once another participant's
    playing state has arrived, holds one heartbeat interval. *)
Lemma heartbeat_live_iff_due_witness :
  exists i,
    Heartbeat.held
      (hb (run Echo.arrival Echo.start))
    = Some i
    /\ Heartbeat.intervals
         (hb (run Echo.arrival Echo.start))
       = {[i := 3000%Z]}.
Proof.
  pose proof (heartbeat_live_iff_due Echo.arrival
                "host000001" "Guest-ab12" "") as H.
  cbv zeta in H. destruct H as (Hlive & _).
  assert (Ha : alive (run Echo.arrival
                        Echo.start) = true)
    by (vm_compute; reflexivity).
  destruct (Hlive Ha) as (Hiff & _).
  apply (proj2 Hiff).
  split; [vm_compute; discriminate|].
  split; [vm_compute; reflexivity|].
  split; [vm_compute; reflexivity|].
  left. vm_compute. reflexivity.
Defined.

(** *** Direct media rooms never pass the gate *)

Module NativeRoomFacts.

Import NativeRoom.

Lemma notifyAll_local (ns : list Notification) (now : Q)
    (playerRef : option Player) (s : Session.t) (db : Store.Db) :
  forallb isLocalEvent ns = true ->
  fst (notifyAll ns now playerRef (s, db)) = s.
Proof.
  unfold notifyAll. revert db. induction ns as [|n ns IH]; intros db H;
    [reflexivity|].
  cbn in H. apply andb_true_iff in H as (Hn & Hns).
  cbn [fold_left]. destruct n; try discriminate; cbn [notify]; apply IH, Hns.
Qed.

Lemma handleEvent_local (e : Html5Player.DomEvent) (h : Html5Player.t) :
  forallb isLocalEvent (Html5Player.handleEvent e h) = true.
Proof.
  unfold Html5Player.handleEvent.
  destruct (Html5Player.suppressRef h), e; reflexivity.
Qed.

Lemma render_inv (c : Client) : inv c -> inv (render c).
Proof.
  intros ((Hurl & Hready) & Hcl & Hp).
  assert (Hp' : match rerenderPlayer <$> playerRef c with
                | None => True
                | Some (Html5 h) => Html5Player.needUserStart h = false
                | Some (YouTube _) => False
                end)
    by (destruct (playerRef c) as [[h|y]|]; cbn; assumption).
  unfold render, inv, gated, roomEffect.
  destruct (decide _); cbn [sess listening playerRef].
  - auto.
  - split; [|split; [|exact Hp']].
    + destruct (negb (Url.truthy (Session.roomId (sess c)))); cbn; auto.
    + intros closure. destruct (Url.truthy (Session.roomId (sess c)));
        [intros [= <-]; auto|discriminate].
Qed.

Ltac side := first [reflexivity | cbn; congruence | cbn; assumption].

Lemma handle_inv (ev : Event) (c : Client) :
  keepsNative ev = true -> inv c -> inv (handle ev c).
Proof.
  intros Hev Hinv. pose proof Hinv as ((Hurl & Hready) & Hcl & Hp).
  assert (Hsame : forall c', sess c' = sess c -> listening c' = listening c ->
                             playerRef c' = playerRef c -> inv c').
  { intros c' Hs Hl Hpl. unfold inv. rewrite Hs, Hl, Hpl. exact Hinv. }
  assert (Hplayer : forall c' h, sess c' = sess c -> listening c' = listening c ->
                                 playerRef c' = Some (Html5 h) ->
                                 Html5Player.needUserStart h = false -> inv c').
  { intros c' h Hs Hl Hpl Hh. unfold inv. rewrite Hs, Hl, Hpl.
    split; [split; assumption|]. split; assumption. }
  assert (Hsess : forall c' s, sess c' = s -> listening c' = listening c ->
                               playerRef c' = playerRef c -> gated s -> inv c').
  { intros c' s Hs Hl Hpl Hg. unfold inv. rewrite Hs, Hl, Hpl.
    split; [exact Hg|]. split; assumption. }
  destruct ev; cbn [handle].
  - (* RoomValue *)
    destruct (listening c) eqn:Hl; [|exact Hinv].
    destruct d as [d|]; [|apply Hsame; side].
    eapply Hsess; try side. split; assumption.
  - (* RoomGet *)
    destruct (listening c) eqn:Hl; [|exact Hinv].
    destruct d as [d|]; [|apply Hsame; side].
    cbn in Hev. apply negb_true_iff in Hev.
    eapply Hsess; try side. split; assumption.
  - (* PlaybackValue *)
    destruct (listening c) as [cl|] eqn:Hl; [|exact Hinv].
    destruct (Hcl cl eq_refl) as (Hcu & Hcr).
    unfold onPlaybackValue. destruct p as [pb|]; [|apply Hsame; side].
    rewrite syncToPlayer_closed by assumption.
    eapply Hsess; try side. split; assumption.
  - (* Timeout *)
    destruct (playerRef c) as [[h|y]|] eqn:Hpl;
      [|contradiction|apply Hsame; [side|side|side]].
    eapply Hplayer; try side.
    unfold Html5Player.runTimeout. destruct (Html5Player.timeouts h); assumption.
  - (* Interval *) apply Hsame; side.
  - (* Deliver *)
    destruct (playerRef c) as [[h|y]|] eqn:Hpl; [|contradiction|exact Hinv].
    destruct ev as [e|d|]; cbn [raise].
    + rewrite (surjective_pairing (notifyAll _ _ _ _)).
      eapply Hplayer; try side.
      cbn. apply notifyAll_local, handleEvent_local.
    + eapply Hplayer; side.
    + rewrite Hp. eapply Hplayer; side.
  - (* WidgetReady *)
    destruct (playerRef c) as [[h|y]|]; try exact Hinv. contradiction.
  - (* WidgetReports *)
    destruct (playerRef c) as [[h|y]|]; try exact Hinv. contradiction.
  - (* ElementBecomes *)
    destruct (playerRef c) as [[h|y]|]; try exact Hinv.
    eapply Hplayer; side.
  - (* MediaError *)
    destruct (playerRef c) as [[h|y]|]; try exact Hinv.
    eapply Hplayer; side.
  - (* ClickPlay *) apply Hsame; side.
  - (* ClickPause *) apply Hsame; side.
  - (* ClickSeek *)
    unfold handleSeekDelta.
    destruct (negb (Session.canControl (sess c))); [apply Hsame; side|].
    destruct (playerRef c) as [[h|y]|] eqn:Hpl;
      [|contradiction|apply Hsame; [side|side|side]].
    eapply Hplayer; side.
  - (* ClickSync *)
    unfold handleSyncNow. rewrite syncToPlayer_closed by assumption.
    destruct (negb (Url.truthy (Session.roomId (sess c))));
      apply Hsame; side.
  - (* ClickToggle *) apply Hsame; side.
  - (* SetNickname *)
    eapply Hsess; try side. split; assumption.
  - (* Mount *)
    destruct (Url.truthy (Session.roomId (sess c))); [|exact Hinv].
    unfold freshPlayer, Url.selectPlayer. rewrite Hurl.
    eapply Hplayer; side.
  - (* Create *)
    destruct (Url.truthy (Session.roomId (sess c))); [exact Hinv|].
    cbn in Hev. apply negb_true_iff in Hev.
    unfold handleCreateRoom.
    destruct (negb (Url.truthy (trim createUrl))); cbn [List.last];
      [apply Hsame; side|].
    eapply Hsess; try side. split; [exact Hev|reflexivity].
  - (* Leave *) exact Hinv.
  - (* Rerender *) exact Hinv.
Qed.

Lemma step_inv (ev : Event) (c : Client) :
  keepsNative ev = true -> inv c -> inv (step ev c).
Proof.
  intros Hev Hinv.
  destruct (step_shape ev c)
    as [(_ & ->)|[(_ & _ & ->)|[(_ & _ & ->)|(_ & _ & -> & _)]]].
  - exact Hinv.
  - destruct Hinv as (Hg & _ & _). split; [exact Hg|]. cbn.
    split; [discriminate|exact I].
  - apply render_inv, handle_inv; assumption.
  - apply handle_inv; assumption.
Qed.

Lemma boot_inv (me name room : string) : inv (boot me name room).
Proof.
  unfold boot. apply render_inv.
  split; [split; reflexivity|]. split; [discriminate|exact I].
Qed.

Lemma run_inv (evs : list Event) (c : Client) :
  forallb keepsNative evs = true -> inv c -> inv (run evs c).
Proof.
  revert c. induction evs as [|ev evs IH]; intros c Hevs Hinv; [exact Hinv|].
  cbn in Hevs. apply andb_true_iff in Hevs as (Hev & Hevs).
  cbn. apply IH; [exact Hevs|]. apply step_inv; assumption.
Qed.

(** However a direct media room is used, [viewerReady] stays false, the
    start overlay is never rendered, and neither an incoming playback state
    nor a manual sync makes any call on the player. *)
Lemma never_ready (evs : list Event) (me name room : string) :
  forallb keepsNative evs = true ->
  let c := run evs (boot me name room) in
  Session.viewerReady (sess c) = false
  /\ (forall h, playerRef c = Some (Html5 h) -> Html5Player.needUserStart h = false)
  /\ (forall now p, playerRef (step (PlaybackValue now p) c) = playerRef c)
  /\ (forall now fetched, playerRef (step (ClickSync now fetched) c) = playerRef c).
Proof.
  intros Hevs c.
  assert (Hinv : inv c) by (apply run_inv; [exact Hevs|apply boot_inv]).
  pose proof Hinv as ((Hurl & Hready) & Hcl & Hp).
  assert (Hkeep : forall p, playerRef c = p -> rerenderPlayer <$> p = p).
  { intros p <-. destruct (playerRef c) as [[h|y]|]; [reflexivity| |reflexivity].
    contradiction. }
  assert (Hstep : forall ev, ev <> Leave ->
            playerRef (handle ev c) = playerRef c ->
            playerRef (step ev c) = playerRef c).
  { intros ev Hev Hh.
    destruct (step_shape ev c)
      as [(_ & ->)|[(_ & -> & _)|[(_ & _ & ->)|(_ & _ & -> & _)]]];
      [reflexivity|contradiction| |exact Hh].
    rewrite render_player, Hh. apply Hkeep. reflexivity. }
  split; [exact Hready|]. split; [|split].
  - intros h Hh. rewrite Hh in Hp. exact Hp.
  - intros now p. apply Hstep; [discriminate|]. cbn [handle].
    destruct (listening c) as [cl|] eqn:Hl; [|reflexivity].
    destruct (Hcl cl eq_refl) as (Hcu & Hcr).
    unfold onPlaybackValue. destruct p as [pb|]; [|reflexivity].
    rewrite syncToPlayer_closed by assumption. reflexivity.
  - intros now fetched. apply Hstep; [discriminate|]. cbn [handle].
    unfold handleSyncNow.
    rewrite syncToPlayer_closed by assumption.
    destruct (negb (Url.truthy (Session.roomId (sess c)))); reflexivity.
Qed.

End NativeRoomFacts.

(** C7, which requires reconciliation to wait for the start gesture on the
    native player and to resume after it, evaluated on the code.  In a room
    whose source is direct media, however it is used: [viewerReady] is
    false; every incoming playback state is stored and leaves the player as
    it is, and so does the Sync button; and the gesture is never offered,
    since the overlay is rendered only after a refused [play()] and [play()]
    is called only behind the gate: the player shows no overlay and a click
    where it would be reaches no handler.  So reconciliation never resumes.
    Besides, the gate looks at the URL, not at the player: on a [<video>]
    player whose URL is classified as YouTube the reconciliation runs while
    [viewerReady] is false. *)
Theorem native_sync_never_resumes (evs : list Event) (me name room : string) :
  forallb NativeRoom.keepsNative evs = true ->
  let c := run evs (boot me name room) in
  Session.viewerReady (sess c) = false
  /\ (forall now p,
        playerRef (step (PlaybackValue now p) c) = playerRef c
        /\ (forall pb, p = Some pb -> alive c = true -> listening c <> None ->
              Session.isPlaying (sess (step (PlaybackValue now p) c))
              = truthyB (Store.isPlaying pb)
              /\ Session.remoteTime (sess (step (PlaybackValue now p) c))
                 = orZero (Store.currentTime pb)
              /\ Session.lastUpdateMs (sess (step (PlaybackValue now p) c))
                 = orZero (Store.updatedAt pb)
              /\ Session.viewerReady (sess (step (PlaybackValue now p) c))
                 = false))
  /\ (forall now fetched,
        playerRef (step (ClickSync now fetched) c) = playerRef c)
  /\ (forall h, playerRef c = Some (Html5 h) ->
        Html5Player.needUserStart h = false
        /\ raise StartClick (Html5 h) = (Html5 h, []))
  /\ (forall now, step (Deliver StartClick now) c = c)
  /\ (forall (s : Session.t) (now : Q) (pb : Store.Playback)
             (h : Html5Player.t),
        Url.isYouTubeUrl (Session.videoUrl s) = true ->
        Session.viewerReady s = false ->
        syncToPlayer s now (Some pb) (Some (Html5 h))
        = (Some (fst (reconcile now pb (Html5 h))),
           snd (reconcile now pb (Html5 h)))).
Proof.
  intros Hevs c.
  destruct (NativeRoomFacts.never_ready evs me name room Hevs)
    as (Hready & Hover & Hplay & Hsync). fold c in Hready, Hover, Hplay, Hsync.
  assert (Hinv : NativeRoom.inv c)
    by (apply NativeRoomFacts.run_inv;
        [exact Hevs|apply NativeRoomFacts.boot_inv]).
  destruct Hinv as ((Hurl & _) & Hcl & Hp).
  split; [exact Hready|]. split; [|split; [exact Hsync|split; [|split]]].
  - intros now p. split; [apply Hplay|].
    intros pb -> Ha Hl.
    assert (Hh : Session.isPlaying (sess (handle (PlaybackValue now (Some pb)) c))
                 = truthyB (Store.isPlaying pb)
                 /\ Session.remoteTime (sess (handle (PlaybackValue now (Some pb)) c))
                    = orZero (Store.currentTime pb)
                 /\ Session.lastUpdateMs (sess (handle (PlaybackValue now (Some pb)) c))
                    = orZero (Store.updatedAt pb)
                 /\ Session.viewerReady (sess (handle (PlaybackValue now (Some pb)) c))
                    = false).
    { cbn [handle]. destruct (listening c) as [cl|]; [|contradiction].
      unfold onPlaybackValue.
      destruct (syncToPlayer cl now (Some pb) (playerRef c)).
      cbn. auto. }
    destruct (step_shape (PlaybackValue now (Some pb)) c)
      as [(Hd & _)|[(_ & Hne & _)|[(_ & _ & ->)|(_ & _ & -> & _)]]];
      [congruence|discriminate| |exact Hh].
    destruct Hh as (H1 & H2 & H3 & H4).
    destruct (render_sess_cases (handle (PlaybackValue now (Some pb)) c))
      as [->| ->]; cbn; auto.
  - intros h Hh. specialize (Hover h Hh). split; [exact Hover|].
    cbn [raise]. rewrite Hover. reflexivity.
  - intros now.
    assert (Hh : handle (Deliver StartClick now) c = c).
    { cbn [handle]. destruct (playerRef c) as [[h|y]|] eqn:E;
        [|contradiction|reflexivity].
      cbn [raise]. rewrite (Hover h eq_refl). cbn.
      unfold withDb, withPlayer, withSess. cbn. rewrite <- E.
      destruct c; reflexivity. }
    destruct (alive c) eqn:Ha; [|unfold step; rewrite Ha; reflexivity].
    rewrite step_quiet; [exact Hh|exact Ha|discriminate|discriminate|].
    rewrite Hh. reflexivity.
  - intros s now pb h Hyt _. apply syncToPlayer_open. rewrite Hyt. reflexivity.
Qed.

(** The theorem on the tab of [Native], the creator of a room on an MP4
    file, whose listeners hold the URL: the state of a participant who is
    at second 102 leaves the element, which stands at 0, untouched.  And
    the last clause at work on the creator of [Mirror], who has not passed
    the gate: the same state moves the head of the [<video>] element. *)
Lemma native_sync_never_resumes_witness :
  forallb NativeRoom.keepsNative Native.visit = true
  /\ Session.canControl (sess Native.watching) = true
  /\ playerRef (step (PlaybackValue Scenario.now (Some Scenario.remote))
                  Native.watching)
     = Some (Html5 (Html5Player.mount Scenario.idle))
  /\ Session.isPlaying
       (sess (step (PlaybackValue Scenario.now (Some Scenario.remote))
                Native.watching))
     = true
  /\ Session.viewerReady (sess Mirror.playing) = false
  /\ (getCurrentTime <$> playerRef Mirror.corrected)
     = Some (expectedPosition Scenario.now Scenario.remote).
Proof.
  split; [reflexivity|]. split; [vm_compute; reflexivity|].
  split; [|split; [|split; vm_compute; reflexivity]].
  - unfold Native.watching, Echo.start.
    destruct (native_sync_never_resumes Native.visit "host000001"
                "Guest-ab12" "" eq_refl) as (_ & Hstored & _).
    destruct (Hstored Scenario.now (Some Scenario.remote)) as (Hplayer & _).
    rewrite Hplayer. vm_compute. reflexivity.
  - unfold Native.watching, Echo.start.
    destruct (native_sync_never_resumes Native.visit "host000001"
                "Guest-ab12" "" eq_refl) as (_ & Hstored & _).
    destruct (Hstored Scenario.now (Some Scenario.remote)) as (_ & Hsess).
    destruct (Hsess Scenario.remote eq_refl) as (Hplaying & _).
    + vm_compute. reflexivity.
    + vm_compute. discriminate.
    + rewrite Hplaying. reflexivity.
Defined.

(* ================================================================== *)
(** ** Further properties of the code                                  *)
(* ================================================================== *)

(** *** [makeId] *)

Lemma digit36_isBase36 (n : nat) :
  (n < 36)%nat -> isBase36 (digit36 n) = true /\ Url.isWordChar (digit36 n) = true.
Proof.
  intros Hn.
  assert (Hall : forallb (fun k => isBase36 (digit36 k) && Url.isWordChar (digit36 k))
                   (seq 0 36) = true) by (vm_compute; reflexivity).
  rewrite forallb_forall in Hall.
  specialize (Hall n). rewrite in_seq in Hall.
  apply andb_true_iff, Hall. lia.
Qed.

(** X1: an identifier made by [makeId] has one character per random byte,
    every character is a base-36 digit ([0-9a-z], hence also in the class
    [[\w-]]), and it is non-empty exactly when at least one byte was drawn. *)
Theorem makeId_shape (bytes : list byte) :
  String.length (makeId bytes) = List.length bytes
  /\ allBase36 (makeId bytes) = true
  /\ allWord (makeId bytes) = true
  /\ (Url.truthy (makeId bytes) = true <-> bytes <> []).
Proof.
  induction bytes as [|b bytes (Hlen & Hdig & Hword & _)].
  - cbn. repeat split; try reflexivity; try discriminate. congruence.
  - assert (Hb : (Byte.to_nat b mod 36 < 36)%nat)
      by (apply Nat.mod_upper_bound; discriminate).
    destruct (digit36_isBase36 _ Hb) as (H36 & Hw).
    cbn [makeId fold_right String.length allBase36 allWord Url.truthy].
    fold (makeId bytes). rewrite H36, Hw, Hdig, Hword, Hlen.
    repeat split; try reflexivity; discriminate.
Qed.

Example makeId_ex :
  makeId [Byte.x00; Byte.x23; Byte.x24; Byte.xff] = "0z03".
Proof. reflexivity. Qed.

(** *** [trim] *)

Lemma trimStart_startsClean (s : string) : startsClean (trimStart s) = true.
Proof.
  induction s as [|c rest IH]; [reflexivity|].
  cbn [trimStart]. destruct (isSpace c) eqn:E; [exact IH|].
  cbn. rewrite E. reflexivity.
Qed.

Lemma trimEnd_endsClean (s : string) : endsClean (trimEnd s) = true.
Proof.
  induction s as [|c rest IH]; [reflexivity|].
  cbn [trimEnd]. destruct (trimEnd rest) as [|c' rest'] eqn:E.
  - cbn. destruct (isSpace c) eqn:Ec; cbn; [reflexivity|].
    rewrite Ec. reflexivity.
  - cbn [Url.truthy negb]. rewrite andb_false_r. exact IH.
Qed.

Lemma trimEnd_startsClean (s : string) :
  startsClean s = true -> startsClean (trimEnd s) = true.
Proof.
  destruct s as [|c rest]; [reflexivity|].
  cbn. intros H. apply negb_true_iff in H. rewrite H. cbn. rewrite H. reflexivity.
Qed.

Lemma trimStart_id (s : string) : startsClean s = true -> trimStart s = s.
Proof.
  destruct s as [|c rest]; [reflexivity|].
  cbn. intros H. apply negb_true_iff in H. rewrite H. reflexivity.
Qed.

Lemma trimEnd_id (s : string) : endsClean s = true -> trimEnd s = s.
Proof.
  induction s as [|c rest IH]; [reflexivity|].
  cbn [endsClean trimEnd]. destruct rest as [|c' rest'].
  - intros H. apply negb_true_iff in H. cbn. rewrite H. reflexivity.
  - intros H. rewrite (IH H). cbn [Url.truthy negb]. rewrite andb_false_r.
    reflexivity.
Qed.

Lemma trim_facts (s : string) :
  startsClean (trim s) = true /\ endsClean (trim s) = true
  /\ trim (trim s) = trim s.
Proof.
  assert (Hs : startsClean (trim s) = true)
    by (apply trimEnd_startsClean, trimStart_startsClean).
  assert (He : endsClean (trim s) = true) by apply trimEnd_endsClean.
  repeat split; try assumption.
  unfold trim at 1. rewrite (trimStart_id _ Hs). apply trimEnd_id, He.
Qed.

Lemma trimStart_empty (s : string) :
  trimStart s = "" <-> allSpace s = true.
Proof.
  induction s as [|c rest IH]; [split; reflexivity|].
  cbn [trimStart allSpace]. destruct (isSpace c); cbn; [exact IH|].
  split; discriminate.
Qed.

Lemma trim_empty (s : string) : trim s = "" <-> allSpace s = true.
Proof.
  rewrite <- trimStart_empty. split.
  - unfold trim. destruct (trimStart s) as [|c rest] eqn:E; [reflexivity|].
    pose proof (trimStart_startsClean s) as Hc. rewrite E in Hc.
    cbn in Hc. apply negb_true_iff in Hc.
    cbn [trimEnd]. rewrite Hc. discriminate.
  - intros H. unfold trim. rewrite H. reflexivity.
Qed.

(** X2: [trim] leaves a text that neither begins nor ends with white space;
    trimming again changes nothing; and the result is empty exactly when
    the text consists of white space only. *)
Theorem trim_clean (s : string) :
  startsClean (trim s) = true
  /\ endsClean (trim s) = true
  /\ trim (trim s) = trim s
  /\ (trim s = "" <-> allSpace s = true).
Proof.
  destruct (trim_facts s) as (Hs & He & Hi).
  repeat split; try assumption; apply trim_empty.
Qed.

(** *** Chat *)

Lemma truthy_spec (s : string) : Url.truthy s = true <-> s <> "".
Proof. destruct s; cbn; split; congruence. Qed.

(** [s.slice(0, n)] is the substring of length [n] at offset 0. *)
Lemma slice0_substring (n : nat) (s : string) :
  slice0 n s = String.substring 0 n s.
Proof.
  revert s. induction n as [|n IH]; intros [|c rest]; cbn;
    try reflexivity.
  f_equal. apply IH.
Qed.

(** X3: [sendChat] pushes nothing, and leaves the text field as it is,
    exactly when the text is blank or the session is in no room.  Otherwise
    it pushes one message to the chat of the session's room: its author is
    [myId], its text is the trimmed input (not empty, no white space at
    either end), its name is the nickname when that is not empty and
    otherwise [Guest-] followed by the first four characters of [myId] (all
    of [myId] when it has fewer), so never empty, its stamp is [Date.now()];
    and the text field is cleared. *)
Theorem sendChat_sends_trimmed (s : Session.t) (chatInput : string) (now : Q) :
  match fst (sendChat s chatInput now) with
  | None =>
      (allSpace chatInput = true \/ Session.roomId s = "")
      /\ snd (sendChat s chatInput now) = chatInput
  | Some (room, m) =>
      allSpace chatInput = false
      /\ room = Session.roomId s /\ room <> ""
      /\ Chat.uid m = Some (Session.myId s)
      /\ Chat.text m = Some (trim chatInput)
      /\ startsClean (trim chatInput) = true
      /\ endsClean (trim chatInput) = true
      /\ (exists n, Chat.name m = Some n /\ n <> ""
                    /\ (Session.nickname s <> "" -> n = Session.nickname s))
      /\ (Session.nickname s = "" ->
          Chat.name m
          = Some ("Guest-" ++ String.substring 0 4 (Session.myId s)))
      /\ Chat.ts m = Some now
      /\ snd (sendChat s chatInput now) = ""
  end.
Proof.
  unfold sendChat.
  destruct (Url.truthy (trim chatInput)) eqn:Ht; cbn [negb orb].
  - destruct (Url.truthy (Session.roomId s)) eqn:Hr; cbn [negb fst snd].
    + destruct (trim_facts chatInput) as (Hs & He & _).
      apply truthy_spec in Ht, Hr.
      split; [|repeat split; try assumption].
      * destruct (allSpace chatInput) eqn:E; [|reflexivity].
        apply trim_empty in E. contradiction.
      * destruct (Url.truthy (Session.nickname s)) eqn:Hn.
        -- apply truthy_spec in Hn. eexists. repeat split; auto.
        -- eexists. split; [reflexivity|]. split; [discriminate|].
           intros Hne. apply truthy_spec in Hne. congruence.
      * intros Hnick. cbn [Chat.name]. rewrite Hnick. cbn [Url.truthy].
        rewrite slice0_substring. reflexivity.
    + split; [|reflexivity]. right.
      destruct (Session.roomId s); [reflexivity|discriminate].
  - cbn. split; [|reflexivity]. left. apply trim_empty.
    destruct (trim chatInput); [reflexivity|discriminate].
Qed.

Example sendChat_ex :
  fst (sendChat (Scenario.guest Scenario.short false false) "  hi there " 5)
  = Some ("room000001",
          Chat.mkMessage (Some "guest00001") (Some "Guest-ab12")
            (Some "hi there") (Some 5%Q)).
Proof. reflexivity. Qed.

Lemma after_lt (a b : Chat.Entry) :
  Chat.after a b = true <-> (Chat.tsOf b < Chat.tsOf a)%Q.
Proof. apply Qgtb_lt. Qed.

Lemma after_le (a b : Chat.Entry) :
  Chat.after a b = false <-> notLater a b.
Proof. apply Qgtb_le. Qed.

Lemma insert_perm (x : Chat.Entry) (l : list Chat.Entry) :
  Permutation (x :: l) (Chat.insert x l).
Proof.
  induction l as [|y rest IH]; [reflexivity|].
  cbn [Chat.insert]. destruct (Chat.after x y); [|reflexivity].
  rewrite perm_swap. apply perm_skip, IH.
Qed.

Lemma insert_sorted (x : Chat.Entry) (l : list Chat.Entry) :
  StronglySorted notLater l -> StronglySorted notLater (Chat.insert x l).
Proof.
  induction 1 as [|y rest Hsorted IH Hall].
  - repeat constructor.
  - cbn [Chat.insert]. destruct (Chat.after x y) eqn:E.
    + constructor; [exact IH|].
      apply (Permutation_Forall (insert_perm x rest)).
      constructor; [|exact Hall].
      apply after_lt in E. apply Qlt_le_weak, E.
    + apply after_le in E. constructor; [constructor; assumption|].
      constructor; [exact E|].
      eapply Forall_impl; [exact Hall|].
      intros z Hz. unfold notLater in *. eapply Qle_trans; eassumption.
Qed.

Lemma insert_stamped (k : Q) (x : Chat.Entry) (l : list Chat.Entry) :
  stamped k (Chat.insert x l) = stamped k (x :: l).
Proof.
  induction l as [|y rest IH]; [reflexivity|].
  cbn [Chat.insert]. destruct (Chat.after x y) eqn:E; [|reflexivity].
  apply after_lt in E. unfold stamped in *. cbn [List.filter] in *.
  rewrite IH.
  destruct (Qeq_bool (Chat.tsOf x) k) eqn:Ex;
    destruct (Qeq_bool (Chat.tsOf y) k) eqn:Ey; try reflexivity.
  apply Qeq_bool_iff in Ex, Ey. exfalso.
  rewrite Ex, Ey in E. exact (Qlt_irrefl _ E).
Qed.

Lemma sort_facts (l : list Chat.Entry) :
  Permutation l (Chat.sort l)
  /\ StronglySorted notLater (Chat.sort l)
  /\ (forall k, stamped k (Chat.sort l) = stamped k l).
Proof.
  induction l as [|x rest (Hperm & Hsorted & Hstable)].
  - repeat split; constructor.
  - cbn [Chat.sort fold_right]. fold (Chat.sort rest). repeat split.
    + rewrite <- insert_perm. apply perm_skip, Hperm.
    + apply insert_sorted, Hsorted.
    + intros k. rewrite insert_stamped. unfold stamped in *.
      cbn [List.filter]. rewrite Hstable. reflexivity.
Qed.

(** X4: the chat listener hands [setMessages] every child of the snapshot
    exactly once, each with its key as [id], in ascending order of [ts] (a
    missing [ts] counts as 0), messages with equal stamps keeping the order
    of the snapshot; a null snapshot gives the empty list. *)
Theorem onChatValue_sorted (val : option (list (string * Chat.Message))) :
  let entries := map (fun km => Chat.mkEntry (fst km) (snd km)) (default [] val) in
  Permutation entries (Chat.onChatValue val)
  /\ StronglySorted notLater (Chat.onChatValue val)
  /\ (forall k, stamped k (Chat.onChatValue val) = stamped k entries)
  /\ List.length (Chat.onChatValue val) = List.length (default [] val)
  /\ Chat.onChatValue None = [].
Proof.
  intros entries. unfold Chat.onChatValue. fold entries.
  destruct (sort_facts entries) as (Hperm & Hsorted & Hstable).
  repeat split; try assumption.
  rewrite <- (Permutation_length Hperm). unfold entries. apply length_map.
Qed.

Example onChatValue_ex :
  map Chat.id
    (Chat.onChatValue
       (Some [("k1", Chat.mkMessage None None (Some "b") (Some 7%Q));
              ("k2", Chat.mkMessage None None (Some "a") None);
              ("k3", Chat.mkMessage None None (Some "c") (Some 7%Q));
              ("k4", Chat.mkMessage None None (Some "d") (Some 3%Q))]))
  = ["k2"; "k4"; "k1"; "k3"].
Proof. reflexivity. Qed.

(** *** The time display *)

Lemma max0_nonneg (x : Q) : (0 <= max0 x)%Q.
Proof.
  unfold max0. destruct (Qle_bool 0 x) eqn:E.
  - apply Qle_bool_iff, E.
  - apply Qle_refl.
Qed.

Lemma max0_id (x : Q) : (0 <= x)%Q -> max0 x = x.
Proof.
  intros H. unfold max0. apply Qle_bool_iff in H. rewrite H. reflexivity.
Qed.

Lemma shownPosition_nonneg (s : Session.t) (now : Q) :
  (0 <= Session.remoteTime s)%Q -> (0 <= shownPosition s now)%Q.
Proof.
  intros H. unfold shownPosition.
  replace 0%Q with (0 + 0)%Q by reflexivity.
  apply Qplus_le_compat; [exact H|].
  destruct (Session.isPlaying s); [apply max0_nonneg|apply Qle_refl].
Qed.

Lemma Qfloor_div60 (t : Q) : Qfloor (t / 60) = (Qfloor t / 60)%Z.
Proof.
  destruct t as [n d]. cbn. rewrite Z.mul_1_r, Pos2Z.inj_mul.
  symmetry. apply Z.div_div; lia.
Qed.

Lemma Qtrunc_div60 (t : Q) :
  (0 <= t)%Q -> Qtrunc (t / 60) = (Qfloor t / 60)%Z.
Proof.
  intros H. rewrite <- Qfloor_div60. destruct t as [n d].
  unfold Qle in H. cbn in H. unfold Qtrunc. cbn.
  apply Z.quot_div_nonneg; lia.
Qed.

Lemma Qfloor_rem60 (t : Q) :
  (0 <= t)%Q -> Qfloor (rem60 t) = (Qfloor t mod 60)%Z.
Proof.
  intros H. unfold rem60. rewrite (Qtrunc_div60 t H).
  destruct t as [n d]. cbn.
  set (m := (n / Zpos d / 60)%Z).
  rewrite Z.mul_1_r, Pos.mul_1_r.
  replace (n + - (60 * m) * Zpos d)%Z with (n + (- (60 * m)) * Zpos d)%Z by lia.
  rewrite Z.div_add by lia. subst m.
  rewrite (Z.mod_eq (n / Zpos d) 60) by lia. lia.
Qed.

Lemma two_digits (sec : Z) :
  (0 <= sec < 60)%Z -> String.length (padStart2 (toString sec)) = 2%nat.
Proof.
  intros H.
  assert (Hall : forallb (fun k => Nat.eqb (String.length
                   (padStart2 (toString (Z.of_nat k)))) 2) (seq 0 60) = true)
    by (vm_compute; reflexivity).
  rewrite forallb_forall in Hall.
  specialize (Hall (Z.to_nat sec)).
  rewrite Z2Nat.id in Hall by lia.
  apply Nat.eqb_eq, Hall, in_seq. lia.
Qed.

(** X5: when the received position is not negative, [playerUiTime] shows
    the whole seconds of the position [shownPosition] as minutes and
    seconds: the text is the minutes, a colon, and a seconds field of
    exactly two characters, with 0 <= seconds < 60 and
    60 * minutes + seconds = floor of the position. *)
Theorem playerUiTime_clock (s : Session.t) (now : Q) :
  (0 <= Session.remoteTime s)%Q ->
  exists m sec : Z,
    playerUiTime s now = toString m ++ ":" ++ padStart2 (toString sec)
    /\ (0 <= m)%Z /\ (0 <= sec < 60)%Z
    /\ (60 * m + sec)%Z = Qfloor (shownPosition s now)
    /\ String.length (padStart2 (toString sec)) = 2%nat.
Proof.
  intros H. pose proof (shownPosition_nonneg s now H) as Ht.
  exists (Qfloor (shownPosition s now) / 60)%Z,
         (Qfloor (shownPosition s now) mod 60)%Z.
  assert (H0 : (0 <= Qfloor (shownPosition s now))%Z).
  { change 0%Z with (Qfloor 0). apply Qfloor_resp_le, Ht. }
  assert (Hs : (0 <= Qfloor (shownPosition s now) mod 60 < 60)%Z)
    by (apply Z.mod_pos_bound; lia).
  split; [|split; [|split; [|split]]].
  - unfold playerUiTime. fold (shownPosition s now).
    cbv zeta. rewrite Qfloor_div60, (Qfloor_rem60 _ Ht). reflexivity.
  - apply Z.div_pos; lia.
  - exact Hs.
  - rewrite (Z.mod_eq _ 60) by lia. lia.
  - apply two_digits, Hs.
Qed.

Lemma playerUiTime_clock_witness :
  (0 <= Session.remoteTime (Scenario.guest Scenario.short true true))%Q
  /\ exists m sec : Z,
       playerUiTime (Scenario.guest Scenario.short true true) Scenario.now
       = toString m ++ ":" ++ padStart2 (toString sec)
       /\ (0 <= m)%Z /\ (0 <= sec < 60)%Z
       /\ (60 * m + sec)%Z
          = Qfloor (shownPosition (Scenario.guest Scenario.short true true)
                      Scenario.now)
       /\ String.length (padStart2 (toString sec)) = 2%nat.
Proof.
  split; [vm_compute; discriminate|].
  apply (playerUiTime_clock (Scenario.guest Scenario.short true true)
           Scenario.now).
  vm_compute; discriminate.
Defined.

Example playerUiTime_ex :
  playerUiTime
    (Session.mk "me" "" "r" false "" false false false true 125 1000) 4500
  = "2:08".
Proof. vm_compute. reflexivity. Qed.

(** *** Extrapolation of the published position *)

Lemma expectedPosition_paused (now : Q) (p : Store.Playback) :
  truthyB (Store.isPlaying p) = false ->
  (expectedPosition now p == orZero (Store.currentTime p))%Q.
Proof. intros H. unfold expectedPosition. rewrite H. ring. Qed.

Lemma expectedPosition_playing (now : Q) (p : Store.Playback) :
  truthyB (Store.isPlaying p) = true ->
  (expectedPosition now p
   == orZero (Store.currentTime p)
      + (now - orZero (Store.updatedAt p)) / 1000)%Q.
Proof. intros H. unfold expectedPosition. rewrite H. reflexivity. Qed.

(** X6: the position [syncToPlayer] expects.  For a paused state it is the
    published position whatever the clock says.  For a playing state it
    advances by one second per 1000 ms of the local clock, equals the
    published position when read at the publication stamp, and, since the
    elapsed time is not clamped, lies before the published position when
    the stamp is ahead of the local clock. *)
Theorem expectedPosition_extrapolates (p : Store.Playback) (now1 now2 : Q) :
  if truthyB (Store.isPlaying p)
  then (expectedPosition now2 p - expectedPosition now1 p
        == (now2 - now1) / 1000)%Q
       /\ (expectedPosition (orZero (Store.updatedAt p)) p
           == orZero (Store.currentTime p))%Q
       /\ ((now1 < now2)%Q ->
           (expectedPosition now1 p < expectedPosition now2 p)%Q)
       /\ ((now1 < orZero (Store.updatedAt p))%Q ->
           (expectedPosition now1 p < orZero (Store.currentTime p))%Q)
  else (expectedPosition now1 p == orZero (Store.currentTime p))%Q.
Proof.
  destruct (truthyB (Store.isPlaying p)) eqn:E;
    [|apply expectedPosition_paused, E].
  pose proof (expectedPosition_playing now1 p E) as H1.
  pose proof (expectedPosition_playing now2 p E) as H2.
  pose proof (expectedPosition_playing (orZero (Store.updatedAt p)) p E) as H0.
  set (u := orZero (Store.updatedAt p)) in *.
  set (t := orZero (Store.currentTime p)) in *.
  assert (Hk : (0 < / 1000)%Q) by reflexivity.
  split; [|split; [|split]].
  - rewrite H1, H2. field.
  - rewrite H0. field.
  - intros Hlt. rewrite H1, H2. apply Qplus_lt_r.
    unfold Qdiv. apply Qmult_lt_compat_r; [exact Hk|].
    apply Qplus_lt_l, Hlt.
  - intros Hlt. rewrite H1.
    rewrite <- (Qplus_0_r t) at 2. apply Qplus_lt_r.
    unfold Qdiv. rewrite <- (Qmult_0_l (/ 1000)).
    apply Qmult_lt_compat_r; [exact Hk|].
    rewrite <- (Qplus_opp_r u). apply Qplus_lt_l, Hlt.
Qed.

(** *** A second pass of the reconciler *)

Lemma no_drift (e : Q) : Qgtb (Qabs (e - e)%Q) DRIFT_THRESHOLD = false.
Proof.
  apply Qgtb_le. setoid_replace (e - e)%Q with 0%Q using relation Qeq by ring.
  discriminate.
Qed.

Lemma html5_play_time (h : Html5Player.t) :
  Html5Player.getCurrentTime (Html5Player.play h) = Html5Player.getCurrentTime h.
Proof.
  unfold Html5Player.play, Html5Player.awaitPlay, Html5Player.getCurrentTime.
  destruct (Html5Player.playError (Html5Player.video h)); reflexivity.
Qed.

(** After a pass on the HTML5 player the head is within the threshold of
    the expected position. *)
Lemma reconcile_html5_time (now : Q) (p : Store.Playback) (h : Html5Player.t) :
  Qgtb (Qabs (expectedPosition now p
              - getCurrentTime (fst (reconcile now p (Html5 h))))%Q)
    DRIFT_THRESHOLD = false.
Proof.
  unfold reconcile.
  destruct (Qgtb (Qabs (expectedPosition now p - getCurrentTime (Html5 h))%Q)
              DRIFT_THRESHOLD) eqn:Hd; cbn zeta;
    destruct (truthyB (Store.isPlaying p));
    match goal with |- context [isPlaying ?x] => destruct (isPlaying x) end;
    cbn [andb negb fst getCurrentTime PlayerController play pause seek
         Html5Controller];
    rewrite ?html5_play_time;
    first [exact Hd | apply no_drift].
Qed.

(** After a pass on an HTML5 player that accepts [play()] and has not
    ended, the element plays exactly when the state says so. *)
Lemma reconcile_html5_state (now : Q) (p : Store.Playback) (h : Html5Player.t) :
  Html5Player.playError (Html5Player.video h) = None ->
  Html5Player.ended (Html5Player.video h) = false ->
  isPlaying (fst (reconcile now p (Html5 h))) = truthyB (Store.isPlaying p).
Proof.
  intros Hok Hend. unfold reconcile.
  destruct h as [[ct pa en mu pe] sr nus le tos]. cbn in Hok, Hend. subst.
  destruct (Qgtb _ DRIFT_THRESHOLD); cbn zeta;
    destruct (truthyB (Store.isPlaying p)); destruct pa; reflexivity.
Qed.

(** X7: on the HTML5 player the reconciler settles.  A second pass with the
    same state at the same instant never seeks, since the first left the
    head within the threshold; and when the element accepts [play()] and
    has not ended, the second pass makes no call at all and leaves the
    player as the first left it. *)
Theorem reconcile_html5_settles (now : Q) (p : Store.Playback)
    (h : Html5Player.t) (c1 : Player) (calls : list Call) :
  reconcile now p (Html5 h) = (c1, calls) ->
  (forall t, ~ In (CallSeek t) (snd (reconcile now p c1)))
  /\ (Html5Player.playError (Html5Player.video h) = None ->
      Html5Player.ended (Html5Player.video h) = false ->
      reconcile now p c1 = (c1, [])).
Proof.
  intros Hr. pose proof (reconcile_html5_time now p h) as Ht.
  rewrite Hr in Ht. cbn [fst] in Ht. split.
  - intros t. rewrite reconcile_calls, Ht.
    destruct (truthyB (Store.isPlaying p) && _),
             (negb (truthyB (Store.isPlaying p)) && _);
      cbn; intros Hin; in_cases.
  - intros Hok Hend.
    assert (Hplay : isPlaying c1 = truthyB (Store.isPlaying p)).
    { apply (f_equal fst) in Hr. cbn [fst] in Hr. rewrite <- Hr.
      apply reconcile_html5_state; assumption. }
    unfold reconcile. rewrite Ht. cbn zeta. rewrite Hplay.
    destruct (truthyB (Store.isPlaying p)); reflexivity.
Qed.

Lemma reconcile_html5_settles_witness :
  let h := Html5Player.mount (Html5Player.mkVideo 99 true false false None) in
  let c1 := fst (reconcile Scenario.now Scenario.remote (Html5 h)) in
  List.length (snd (reconcile Scenario.now Scenario.remote (Html5 h))) = 2%nat
  /\ (forall t, ~ In (CallSeek t) (snd (reconcile Scenario.now Scenario.remote c1)))
  /\ reconcile Scenario.now Scenario.remote c1 = (c1, []).
Proof.
  intros h c1. split; [reflexivity|].
  destruct (reconcile_html5_settles Scenario.now Scenario.remote h c1
              (snd (reconcile Scenario.now Scenario.remote (Html5 h)))
              eq_refl) as (Hseek & Hall).
  split; [exact Hseek|].
  apply Hall; reflexivity.
Defined.

(** *** Publishing the controller's state *)

Lemma broadcastPlayback_writes (s : Session.t) (now : Q) (c : Player)
    (db : Store.Db) :
  mayPublish s = true ->
  Store.writes (broadcastPlayback s now (Some c) db)
  = (Store.writes db ++ [published s now c])%list.
Proof.
  unfold mayPublish, broadcastPlayback. intros H.
  apply andb_true_iff in H as (Hc & Hr). rewrite Hc, Hr. reflexivity.
Qed.

(** X8: the Play and Pause buttons make no call on the player.  Both run
    the same code: with control, in a room, they publish the state the
    controller reports at that moment, so pressing Play over a paused
    player publishes [isPlaying = false]; and in every case the mounted
    player is left as it was. *)
Theorem play_button_publishes_current_state (s : Session.t) (now : Q)
    (c : Player) (db : Store.Db) :
  mayPublish s = true ->
  handlePlay s now (Some c) db = handlePause s now (Some c) db
  /\ Store.writes (handlePlay s now (Some c) db)
     = (Store.writes db ++ [published s now c])%list
  /\ (forall cl : Client,
        playerRef (step (ClickPlay now) cl) = playerRef cl
        /\ playerRef (step (ClickPause now) cl) = playerRef cl).
Proof.
  intros H. split; [reflexivity|]. split.
  - unfold handlePlay.
    pose proof H as H'. apply andb_true_iff in H' as (Hc & _). rewrite Hc.
    apply broadcastPlayback_writes, H.
  - intros cl. destruct (alive cl) eqn:Ha;
      [|unfold step; rewrite Ha; split; reflexivity].
    rewrite !step_quiet
      by first [exact Ha | discriminate | reflexivity].
    split; reflexivity.
Qed.

Lemma play_button_publishes_current_state_witness :
  let s := Scenario.guest Scenario.short true true in
  let paused :=
    YouTube (YouTubePlayer.mk (YouTubePlayer.mkWidget 40 2 []) true false 0) in
  mayPublish s = true
  /\ Store.writes (handlePlay s Scenario.now (Some paused) Store.empty)
     = [Store.UpdatePlayback "room000001"
          (Store.mkPlayback (Some false) (Some 40%Q) (Some Scenario.now)
             (Some "guest00001"))].
Proof.
  intros s paused. split; [reflexivity|].
  exact (proj1 (proj2 (play_button_publishes_current_state s Scenario.now
                         paused Store.empty eq_refl))).
Defined.

(** X9: [handleSeekDelta] with control, in a room, on a player that takes
    seeks: the target is [max(0, current + d)], never negative; the seek
    raises the suppression flag and queues its reset; one playback state is
    published, read from the controller after the seek.  On the HTML5
    player that is the target; on the widget, which has only been sent
    [seekTo(target, true)], it is still the position before the seek. *)
Theorem handleSeekDelta_clamps (s : Session.t) (d now : Q) (c : Player)
    (db : Store.Db) :
  mayPublish s = true -> seekable c = true ->
  let target := max0 (getCurrentTime c + d)%Q in
  exists c',
    handleSeekDelta s d now (Some c) db
    = (Some c', broadcastPlayback s now (Some c') db)
    /\ c' = seek target c
    /\ (0 <= target)%Q
    /\ suppressed c' = true
    /\ pendingTimeouts c' = S (pendingTimeouts c)
    /\ Store.writes (broadcastPlayback s now (Some c') db)
       = (Store.writes db ++ [published s now c'])%list
    /\ match c with
       | Html5 _ => getCurrentTime c' = target
       | YouTube _ =>
           getCurrentTime c' = getCurrentTime c
           /\ lastSent c' = Some (YouTubePlayer.seekTo target true)
       end.
Proof.
  intros H Hs target. exists (seek target c).
  pose proof H as H'. apply andb_true_iff in H' as (Hc & _).
  destruct (proj1 (seek_raises_flag target c) Hs) as (Hflag & Hpending).
  split; [unfold handleSeekDelta; rewrite Hc; reflexivity|].
  split; [reflexivity|]. split; [apply max0_nonneg|].
  split; [exact Hflag|]. split; [exact Hpending|].
  split; [apply broadcastPlayback_writes, H|].
  destruct c as [h|y]; [reflexivity|].
  cbn in Hs. subst target.
  cbn [seek getCurrentTime PlayerController YouTubeController lastSent].
  unfold YouTubePlayer.seek, YouTubePlayer.getCurrentTime. rewrite Hs.
  cbn [YouTubePlayer.player YouTubePlayer.send YouTubePlayer.sent
       YouTubePlayer.ready YouTubePlayer.widgetTime].
  rewrite List.map_app. cbn [map]. rewrite List.last_last.
  split; reflexivity.
Qed.

Lemma handleSeekDelta_clamps_witness :
  let s := Scenario.guest Scenario.mp4 true true in
  mayPublish s = true /\ seekable (Scenario.element 4) = true
  /\ exists c',
       handleSeekDelta s (-10) Scenario.now (Some (Scenario.element 4))
         Store.empty
       = (Some c', broadcastPlayback s Scenario.now (Some c') Store.empty)
       /\ getCurrentTime c' = 0%Q.
Proof.
  intros s. split; [reflexivity|]. split; [reflexivity|].
  destruct (handleSeekDelta_clamps s (-10) Scenario.now (Scenario.element 4)
              Store.empty eq_refl eq_refl)
    as (c' & Heq & Hc' & _ & _ & _ & _ & Htime).
  exists c'. split; [exact Heq|].
  rewrite Hc'. reflexivity.
Defined.

(** *** The widget before it is ready *)

(** X10: until [onReady] has fired the YouTube handle is inert: [play],
    [pause] and [seek] do nothing, the getters answer 0 and not playing,
    and no state change of the widget is reported to [App].  So a pass of
    the reconciler leaves the player as it was, and a participant who may
    publish publishes a paused state at position 0, whatever the widget
    itself reports. *)
Theorem widget_not_ready_is_inert (y : YouTubePlayer.t) (s : Session.t)
    (now t : Q) (p : Store.Playback) (data : Z) (db : Store.Db) :
  YouTubePlayer.ready y = false ->
  play (YouTube y) = YouTube y
  /\ pause (YouTube y) = YouTube y
  /\ seek t (YouTube y) = YouTube y
  /\ getCurrentTime (YouTube y) = 0%Q
  /\ isPlaying (YouTube y) = false
  /\ raise (StateChange data) (YouTube y) = (YouTube y, [])
  /\ fst (reconcile now p (YouTube y)) = YouTube y
  /\ (mayPublish s = true ->
      Store.writes (broadcastPlayback s now (Some (YouTube y)) db)
      = (Store.writes db
         ++ [Store.UpdatePlayback (Session.roomId s)
               (Store.mkPlayback (Some false) (Some 0%Q) (Some now)
                  (Some (Session.myId s)))])%list).
Proof.
  intros Hr.
  assert (Hplay : play (YouTube y) = YouTube y)
    by (cbn; unfold YouTubePlayer.play; rewrite Hr; reflexivity).
  assert (Hpause : pause (YouTube y) = YouTube y)
    by (cbn; unfold YouTubePlayer.pause; rewrite Hr; reflexivity).
  assert (Hseek : forall x, seek x (YouTube y) = YouTube y)
    by (intros x; cbn; unfold YouTubePlayer.seek; rewrite Hr; reflexivity).
  assert (Htime : getCurrentTime (YouTube y) = 0%Q)
    by (cbn; unfold YouTubePlayer.getCurrentTime; rewrite Hr; reflexivity).
  assert (Hstate : isPlaying (YouTube y) = false)
    by (cbn; unfold YouTubePlayer.isPlaying; rewrite Hr; reflexivity).
  repeat match goal with |- _ /\ _ => split end; auto.
  - cbn. unfold YouTubePlayer.onStateChange. rewrite Hr. reflexivity.
  - unfold reconcile.
    destruct (Qgtb _ DRIFT_THRESHOLD); cbn zeta; rewrite ?Hseek, Hstate;
      destruct (truthyB (Store.isPlaying p)); cbn [andb negb fst];
      rewrite ?Hplay; reflexivity.
  - intros Hp. rewrite (broadcastPlayback_writes _ _ _ _ Hp).
    unfold published. rewrite Htime, Hstate. reflexivity.
Qed.

Lemma widget_not_ready_is_inert_witness :
  let y := YouTubePlayer.mount (YouTubePlayer.mkWidget 30 1 []) in
  let s := Scenario.guest Scenario.short true true in
  YouTubePlayer.ready y = false
  /\ fst (reconcile Scenario.now Scenario.remote (YouTube y)) = YouTube y
  /\ Store.writes (broadcastPlayback s Scenario.now (Some (YouTube y))
                     Store.empty)
     = [Store.UpdatePlayback "room000001"
          (Store.mkPlayback (Some false) (Some 0%Q) (Some Scenario.now)
             (Some "guest00001"))].
Proof.
  intros y s. split; [reflexivity|].
  destruct (widget_not_ready_is_inert y s Scenario.now 0 Scenario.remote 1
              Store.empty eq_refl)
    as (_ & _ & _ & _ & _ & _ & Hrec & Hpub).
  split; [exact Hrec|]. exact (Hpub eq_refl).
Defined.

(** *** Autoplay and the start overlay *)

(** X11: the two ways the HTML5 player starts the element.  [play()], the
    one the reconciler calls, always leaves the element muted; the overlay's
    [userStart] always leaves it unmuted.  Either way the overlay is shown
    afterwards exactly when the browser refused, with the browser's message
    as [lastError]; the head, the suppression flag and the queued resets
    are untouched; and [userStart] calls [onUserReady] exactly when it
    succeeds.  A media error hides the overlay, after
    which a click on it reaches no handler. *)
Theorem html5_start_outcomes (h : Html5Player.t) (code : option string) :
  let v := Html5Player.video h in
  let started := Html5Player.play h in
  let clicked := fst (Html5Player.userStart h) in
  Html5Player.muted (Html5Player.video started) = true
  /\ Html5Player.muted (Html5Player.video clicked) = false
  /\ (Html5Player.needUserStart started = true
      <-> Html5Player.playError v <> None)
  /\ Html5Player.needUserStart clicked = Html5Player.needUserStart started
  /\ Html5Player.lastError started = Html5Player.playError v
  /\ Html5Player.lastError clicked = Html5Player.playError v
  /\ (snd (Html5Player.userStart h) = [UserReady]
      <-> Html5Player.playError v = None)
  /\ (snd (Html5Player.userStart h) = []
      <-> Html5Player.playError v <> None)
  /\ (Html5Player.getCurrentTime started = Html5Player.getCurrentTime h
      /\ Html5Player.suppressRef started = Html5Player.suppressRef h
      /\ Html5Player.timeouts started = Html5Player.timeouts h)
  /\ raise StartClick (Html5 (Html5Player.onError code h))
     = (Html5 (Html5Player.onError code h), []).
Proof.
  destruct h as [[ct pa en mu pe] sr nus le tos].
  unfold Html5Player.play, Html5Player.userStart, Html5Player.awaitPlay.
  cbn. destruct pe as [msg|]; cbn;
    repeat match goal with |- _ /\ _ => split end;
    try reflexivity; try (split; congruence); try (split; discriminate).
Qed.

(** *** Overlapping seeks *)

Lemma runTimeout_pending (p : Player) :
  pendingTimeouts (runTimeout p) = Nat.pred (pendingTimeouts p).
Proof.
  destruct p as [h|y]; cbn;
    [unfold Html5Player.runTimeout;
     destruct (Html5Player.timeouts h) eqn:E
    |unfold YouTubePlayer.runTimeout;
     destruct (YouTubePlayer.timeouts y) eqn:E];
    cbn; rewrite ?E; reflexivity.
Qed.

Lemma runTimeout_seekable (p : Player) : seekable (runTimeout p) = seekable p.
Proof.
  destruct p as [h|y]; cbn; [reflexivity|].
  unfold YouTubePlayer.runTimeout. destruct (YouTubePlayer.timeouts y);
    reflexivity.
Qed.

Lemma seek_seekable (t : Q) (p : Player) : seekable (seek t p) = seekable p.
Proof.
  destruct p as [h|y]; cbn; [reflexivity|].
  unfold YouTubePlayer.seek. destruct (YouTubePlayer.ready y) eqn:E;
    cbn; congruence.
Qed.

(** X12: the suppression flag is one boolean shared by all seeks, and each
    queued reset clears it.  After two seeks in a row the flag is up with
    two resets queued; the first reset lowers it although the reset of the
    second seek is still queued; and if a third seek follows, the reset
    left over from the second lowers the flag that the third has just
    raised, while the third's own reset is still queued. *)
Theorem reset_of_earlier_seek_ends_window (p : Player) (t1 t2 t3 : Q) :
  seekable p = true ->
  let twice := seek t2 (seek t1 p) in
  let once_reset := runTimeout twice in
  let third := seek t3 once_reset in
  suppressed twice = true
  /\ pendingTimeouts twice = S (S (pendingTimeouts p))
  /\ suppressed once_reset = false
  /\ pendingTimeouts once_reset = S (pendingTimeouts p)
  /\ suppressed third = true
  /\ suppressed (runTimeout third) = false
  /\ pendingTimeouts (runTimeout third) = S (pendingTimeouts p).
Proof.
  intros Hs twice once_reset third.
  assert (Hs1 : seekable (seek t1 p) = true) by (rewrite seek_seekable; exact Hs).
  destruct (proj1 (seek_raises_flag t1 p) Hs) as (_ & Hp1).
  destruct (proj1 (seek_raises_flag t2 (seek t1 p)) Hs1) as (Hf2 & Hp2).
  fold twice in Hf2, Hp2. rewrite Hp1 in Hp2.
  assert (Hpr : pendingTimeouts once_reset = S (pendingTimeouts p))
    by (unfold once_reset; rewrite runTimeout_pending, Hp2; reflexivity).
  assert (Hsr : seekable once_reset = true)
    by (unfold once_reset, twice;
        rewrite runTimeout_seekable, !seek_seekable; exact Hs).
  destruct (proj1 (seek_raises_flag t3 once_reset) Hsr) as (Hf3 & Hp3).
  fold third in Hf3, Hp3. rewrite Hpr in Hp3.
  repeat match goal with |- _ /\ _ => split end.
  - exact Hf2.
  - exact Hp2.
  - apply runTimeout_clears. rewrite Hp2. discriminate.
  - exact Hpr.
  - exact Hf3.
  - apply runTimeout_clears. rewrite Hp3. discriminate.
  - rewrite runTimeout_pending, Hp3. reflexivity.
Qed.

Lemma reset_of_earlier_seek_ends_window_witness :
  seekable (Scenario.element 10) = true
  /\ suppressed (seek 30 (runTimeout (seek 20 (seek 15 (Scenario.element 10)))))
     = true
  /\ suppressed
       (runTimeout
          (seek 30 (runTimeout (seek 20 (seek 15 (Scenario.element 10))))))
     = false
  /\ pendingTimeouts
       (runTimeout
          (seek 30 (runTimeout (seek 20 (seek 15 (Scenario.element 10))))))
     = 1%nat.
Proof.
  split; [reflexivity|].
  destruct (reset_of_earlier_seek_ends_window (Scenario.element 10) 15 20 30
              eq_refl) as (_ & _ & _ & _ & H5 & H6 & H7).
  split; [exact H5|]. split; [exact H6|exact H7].
Defined.

(** *** Authority on the event loop *)

Module AuthorityFacts.

Import Authority.

Lemma adds_refl (me : string) (q po : bool) (d : Store.Db) : adds me q po d d.
Proof.
  split; [reflexivity|]. exists []. rewrite app_nil_r. auto.
Qed.

Lemma adds_trans (me : string) (q po : bool) (a b c : Store.Db) :
  adds me q po a b -> adds me q po b c -> adds me q po a c.
Proof.
  intros (Hq1 & l1 & Hw1 & Ha1 & Hp1) (Hq2 & l2 & Hw2 & Ha2 & Hp2). split.
  - intros Hq. rewrite (Hq2 Hq). exact (Hq1 Hq).
  - exists (l1 ++ l2)%list. split; [|split].
    + rewrite Hw2, Hw1, app_assoc. reflexivity.
    + apply Forall_app. split; assumption.
    + intros Hpo. rewrite forallb_app, (Hp1 Hpo), (Hp2 Hpo). reflexivity.
Qed.

Lemma adds_weaken (me : string) (q po q' po' : bool) (a b : Store.Db) :
  adds me q po a b -> (q' = true -> q = true) -> (po' = true -> po = true) ->
  adds me q' po' a b.
Proof.
  intros (Hq & l & Hw & Ha & Hp) Hq' Hpo'. split; [auto|].
  exists l. auto.
Qed.

Lemma broadcastPlayback_adds (s : Session.t) (now : Q)
    (playerRef : option Player) (d : Store.Db) :
  adds (Session.myId s) (negb (Session.canControl s)) true
    d (broadcastPlayback s now playerRef d).
Proof.
  unfold broadcastPlayback.
  destruct (Session.canControl s); cbn [negb orb]; [|apply adds_refl].
  destruct (Url.truthy (Session.roomId s)); cbn [negb]; [|apply adds_refl].
  destruct playerRef as [c|]; [|apply adds_refl].
  split; [discriminate|]. eexists. split; [reflexivity|].
  split; [|reflexivity]. repeat constructor.
Qed.

Lemma handlePlay_adds (s : Session.t) (now : Q)
    (playerRef : option Player) (d : Store.Db) :
  adds (Session.myId s) (negb (Session.canControl s)) true
    d (handlePlay s now playerRef d).
Proof.
  unfold handlePlay. destruct (negb (Session.canControl s)) eqn:E.
  - apply adds_refl.
  - rewrite <- E. apply broadcastPlayback_adds.
Qed.

Lemma notify_adds (n : Notification) (now : Q) (playerRef : option Player)
    (s : Session.t) (d : Store.Db) :
  same s (fst (notify n now playerRef (s, d)))
  /\ adds (Session.myId s) (negb (Session.canControl s)) true
       d (snd (notify n now playerRef (s, d))).
Proof.
  destruct n; cbn [notify fst snd]; (split; [repeat split|]).
  - apply handlePlay_adds.
  - apply handlePlay_adds.
  - apply broadcastPlayback_adds.
  - apply adds_refl.
Qed.

Lemma notifyAll_adds (ns : list Notification) (now : Q)
    (playerRef : option Player) (s : Session.t) (d : Store.Db) :
  same s (fst (notifyAll ns now playerRef (s, d)))
  /\ adds (Session.myId s) (negb (Session.canControl s)) true
       d (snd (notifyAll ns now playerRef (s, d))).
Proof.
  unfold notifyAll. revert s d. induction ns as [|n ns IH]; intros s d.
  - split; [repeat split|apply adds_refl].
  - cbn [fold_left].
    destruct (notify_adds n now playerRef s d) as ((Hm & Hr & Hh & Hc) & Ha).
    destruct (notify n now playerRef (s, d)) as [s1 d1]. cbn [fst snd] in *.
    destruct (IH s1 d1) as ((Hm' & Hr' & Hh' & Hc') & Ha').
    split; [repeat split; congruence|].
    rewrite Hm, Hc in Ha'. eapply adds_trans; eassumption.
Qed.

Lemma render_sess (c : Client) : same (sess c) (sess (render c)).
Proof.
  unfold render. destruct (decide _); cbn [sess]; [repeat split|].
  unfold roomEffect. destruct (negb _); repeat split.
Qed.

(** No handler changes who the participant is, and each keeps host and
    control tied together. *)
Lemma handle_sess (ev : Event) (c : Client) :
  Session.myId (sess (handle ev c)) = Session.myId (sess c)
  /\ (hostControls (sess c) -> hostControls (sess (handle ev c))).
Proof.
  unfold hostControls.
  destruct ev; cbn [handle];
    try (split; [reflexivity|intros H; exact H]).
  - destruct (listening c); [|auto]. destruct d as [d|]; cbn; [|auto].
    split; [reflexivity|]. intros _ ->. reflexivity.
  - destruct (listening c); [|auto]. destruct d as [d|]; cbn; [|auto].
    split; [reflexivity|]. intros _ ->. reflexivity.
  - destruct (listening c) as [cl|]; [|auto].
    unfold onPlaybackValue. destruct p as [pb|]; cbn; auto.
    destruct (syncToPlayer cl now (Some pb) (playerRef c)). cbn. auto.
  - destruct (playerRef c) as [p|]; [|auto].
    destruct (raise ev p) as [p' ns].
    destruct (notifyAll_adds ns now (Some p') (sess c) (db c))
      as ((Hm & _ & Hh & Hc) & _).
    destruct (notifyAll ns now (Some p') (sess c, db c)) as [s' d'].
    cbn in *. rewrite Hm, Hh, Hc. auto.
  - destruct (playerRef c) as [[h|y]|]; auto.
  - destruct (playerRef c) as [[h|y]|]; auto.
  - destruct (playerRef c) as [[h|y]|]; auto.
  - destruct (playerRef c) as [[h|y]|]; auto.
  - destruct (handleSeekDelta (sess c) d now (playerRef c) (db c)). cbn. auto.
  - destruct (Url.truthy (Session.roomId (sess c))); auto.
  - destruct (Url.truthy (Session.roomId (sess c))); [auto|].
    unfold handleCreateRoom. destruct (negb (Url.truthy (trim createUrl)));
      cbn; auto.
Qed.

(** What a handler does to the store: in a room it does nothing without
    control and writes no Room record unless host; whatever it writes
    carries the participant's own identifier. *)
Lemma handle_adds (ev : Event) (c : Client) :
  hostControls (sess c) ->
  adds (Session.myId (sess c))
    (Url.truthy (Session.roomId (sess c)) && negb (Session.canControl (sess c)))
    (Url.truthy (Session.roomId (sess c)) && negb (Session.isHost (sess c)))
    (db c) (db (handle ev c)).
Proof.
  intros Hhc.
  assert (Hweak : forall d',
    adds (Session.myId (sess c)) (negb (Session.canControl (sess c))) true
      (db c) d' ->
    adds (Session.myId (sess c))
      (Url.truthy (Session.roomId (sess c)) && negb (Session.canControl (sess c)))
      (Url.truthy (Session.roomId (sess c)) && negb (Session.isHost (sess c)))
      (db c) d').
  { intros d' H. eapply adds_weaken; [exact H| |reflexivity].
    intros Hq. apply andb_true_iff in Hq. tauto. }
  destruct ev; cbn [handle].
  - destruct (listening c); apply adds_refl.
  - destruct (listening c); apply adds_refl.
  - destruct (listening c) as [cl|]; [|apply adds_refl].
    destruct (onPlaybackValue cl now p (sess c) (playerRef c)) as [s' [pl l]].
    apply adds_refl.
  - apply adds_refl.
  - cbn. apply Hweak. unfold Heartbeat.fire.
    destruct (Heartbeat.intervals (hb c) !! i);
      [apply broadcastPlayback_adds|apply adds_refl].
  - destruct (playerRef c) as [p|]; [|apply adds_refl].
    destruct (raise ev p) as [p' ns].
    pose proof (notifyAll_adds ns now (Some p') (sess c) (db c)) as (_ & Ha).
    destruct (notifyAll ns now (Some p') (sess c, db c)) as [s' d'].
    cbn in *. apply Hweak, Ha.
  - destruct (playerRef c) as [[h|y]|]; apply adds_refl.
  - destruct (playerRef c) as [[h|y]|]; apply adds_refl.
  - destruct (playerRef c) as [[h|y]|]; apply adds_refl.
  - destruct (playerRef c) as [[h|y]|]; apply adds_refl.
  - cbn. apply Hweak, handlePlay_adds.
  - cbn. apply Hweak, handlePlay_adds.
  - unfold handleSeekDelta.
    destruct (negb (Session.canControl (sess c))) eqn:E; [apply adds_refl|].
    destruct (playerRef c) as [p|]; [|apply adds_refl].
    cbn. apply Hweak. rewrite <- E at 1. rewrite E.
    pose proof (broadcastPlayback_adds (sess c) now
                  (Some (seek (max0 (getCurrentTime p + d)%Q) p)) (db c)) as Ha.
    rewrite E in Ha. exact Ha.
  - apply adds_refl.
  - cbn. unfold toggleEveryoneControl, hostControls in *.
    destruct (Session.isHost (sess c)) eqn:Eh; cbn [negb orb];
      [|apply adds_refl].
    destruct (Url.truthy (Session.roomId (sess c))); cbn [negb andb];
      [|apply adds_refl].
    rewrite (Hhc eq_refl). cbn [negb]. split; [discriminate|].
    eexists. split; [reflexivity|]. split; [|discriminate].
    repeat constructor.
  - apply adds_refl.
  - destruct (Url.truthy (Session.roomId (sess c))); apply adds_refl.
  - destruct (Url.truthy (Session.roomId (sess c))); [apply adds_refl|].
    cbn [andb]. unfold handleCreateRoom.
    destruct (negb (Url.truthy (trim createUrl))); cbn; [apply adds_refl|].
    split; [discriminate|].
    exists [Store.SetRoom id
              (Store.mkRoom (Some (trim createUrl))
                 (Some (Session.myId (sess c))) (Some false) (Some t1) None);
            Store.SetPlayback id
              (Store.mkPlayback (Some false) (Some 0%Q) (Some t2)
                 (Some (Session.myId (sess c))))].
    split; [cbn [Store.writes Store.setPlayback Store.setRoom];
            rewrite <- app_assoc; reflexivity|].
    split; [|discriminate]. repeat constructor.
  - apply adds_refl.
  - apply adds_refl.
Qed.

Lemma notifyAll_name (ns : list Notification) (now : Q)
    (playerRef : option Player) (s : Session.t) (d : Store.Db) :
  Session.nickname (fst (notifyAll ns now playerRef (s, d)))
  = Session.nickname s.
Proof.
  unfold notifyAll. revert s d. induction ns as [|n ns IH]; intros s d;
    [reflexivity|].
  cbn [fold_left]. destruct n; cbn [notify]; rewrite IH; reflexivity.
Qed.

(** What no handler touches: the bookkeeping of the room effect. *)
Lemma handle_effects (ev : Event) (c : Client) :
  roomDeps (handle ev c) = roomDeps c
  /\ listening (handle ev c) = listening c
  /\ alive (handle ev c) = alive c.
Proof.
  destruct ev; cbn [handle];
    repeat match goal with
      | |- context [match ?x with _ => _ end] => destruct x eqn:?
      end; cbn; auto.
Qed.

(** In a room no handler changes the room identifier, and none but that
    of the name field the nickname. *)
Lemma handle_room (ev : Event) (c : Client) :
  Url.truthy (Session.roomId (sess c)) = true ->
  Session.roomId (sess (handle ev c)) = Session.roomId (sess c)
  /\ (Subscription.keepsName ev = true ->
      Session.nickname (sess (handle ev c)) = Session.nickname (sess c)).
Proof.
  intros Hroom.
  destruct ev; cbn [handle Subscription.keepsName];
    try (split; [reflexivity|intros _; reflexivity]).
  - destruct (listening c); [|auto]. destruct d; auto.
  - destruct (listening c); [|auto]. destruct d; auto.
  - destruct (listening c) as [cl|]; [|auto].
    unfold onPlaybackValue. destruct p as [pb|];
      [destruct (syncToPlayer cl now (Some pb) (playerRef c))|]; auto.
  - destruct (playerRef c) as [p|]; [|auto].
    destruct (raise ev p) as [p' ns].
    destruct (notifyAll_adds ns now (Some p') (sess c) (db c))
      as ((_ & Hr & _ & _) & _).
    pose proof (notifyAll_name ns now (Some p') (sess c) (db c)) as Hn.
    destruct (notifyAll ns now (Some p') (sess c, db c)) as [s' d'].
    cbn in *. auto.
  - destruct (playerRef c) as [[h|y]|]; auto.
  - destruct (playerRef c) as [[h|y]|]; auto.
  - destruct (playerRef c) as [[h|y]|]; auto.
  - destruct (playerRef c) as [[h|y]|]; auto.
  - destruct (handleSeekDelta (sess c) d now (playerRef c) (db c)). auto.
  - split; [reflexivity|discriminate].
  - rewrite Hroom. auto.
  - rewrite Hroom. auto.
Qed.

Lemma sameRecords_refl (d : Store.Db) : sameRecords d d.
Proof. intros id. reflexivity. Qed.

Lemma setPresence_records (id uid name : string) (d : Store.Db) :
  sameRecords d (Store.setPresence id uid name d).
Proof.
  intros other. unfold Store.val, Store.setPresence. cbn [Store.rooms].
  destruct (decide (other = id)) as [->|Hne].
  - rewrite lookup_insert_eq. reflexivity.
  - rewrite lookup_insert_ne by congruence. reflexivity.
Qed.

Lemma render_greets (c : Client) :
  greets (Session.myId (sess c)) (db c) (db (render c)).
Proof.
  destruct (render_db c) as [->|(_ & _ & ->)].
  - split; [apply sameRecords_refl|]. exists []. rewrite app_nil_r. auto.
  - split; [apply setPresence_records|].
    eexists. split; [reflexivity|]. split; [|reflexivity].
    repeat constructor.
Qed.

(** After a render the room effect has run for the session's room and
    nickname. *)
Lemma render_subscribed (c : Client) :
  roomDeps (render c)
  = Some (Session.roomId (sess (render c)), Session.nickname (sess (render c))).
Proof.
  unfold render. destruct (decide _) as [E|]; cbn [roomDeps sess];
    [exact E|].
  unfold roomEffect. destruct (negb _); reflexivity.
Qed.

Lemma step_subscribed (ev : Event) (c : Client) :
  subscribed c -> subscribed (step ev c).
Proof.
  intros Hs.
  destruct (step_shape ev c)
    as [(_ & ->)|[(_ & _ & ->)|[(_ & _ & ->)|(Ha & _ & -> & Hsame)]]].
  - exact Hs.
  - intros Hal. discriminate Hal.
  - intros _. apply render_subscribed.
  - intros _. destruct (handle_effects ev c) as (-> & _ & _).
    destruct (sameState_fields _ _ Hsame) as (_ & -> & -> & _).
    apply Hs, Ha.
Qed.

(** What a step does to the store: the writes of the handler, then at most
    the presence write of the render. *)
Lemma step_adds (ev : Event) (c : Client) :
  hostControls (sess c) ->
  exists mid,
    adds (Session.myId (sess c))
      (Url.truthy (Session.roomId (sess c)) && negb (Session.canControl (sess c)))
      (Url.truthy (Session.roomId (sess c)) && negb (Session.isHost (sess c)))
      (db c) mid
    /\ greets (Session.myId (sess c)) mid (db (step ev c))
    /\ (subscribed c -> Url.truthy (Session.roomId (sess c)) = true ->
        Subscription.keepsName ev = true -> db (step ev c) = mid).
Proof.
  intros Hhc.
  assert (Hnone : forall d, greets (Session.myId (sess c)) d d).
  { intros d. split; [apply sameRecords_refl|].
    exists []. rewrite app_nil_r. auto. }
  destruct (step_shape ev c)
    as [(_ & ->)|[(_ & _ & ->)|[(Ha & _ & ->)|(_ & _ & -> & _)]]].
  - exists (db c). split; [apply adds_refl|]. split; [apply Hnone|reflexivity].
  - exists (db c). split; [apply adds_refl|]. split; [apply Hnone|reflexivity].
  - exists (db (handle ev c)). split; [apply handle_adds, Hhc|].
    destruct (handle_sess ev c) as (Hm & _).
    split; [rewrite <- Hm; apply render_greets|].
    intros Hs Hroom Hname.
    destruct (handle_effects ev c) as (Hd & _ & _).
    destruct (handle_room ev c Hroom) as (Hr & Hn). specialize (Hn Hname).
    destruct (render_db (handle ev c)) as [->|(Hne & _)]; [reflexivity|].
    exfalso. apply Hne. rewrite Hd, Hr, Hn. apply Hs, Ha.
  - exists (db (handle ev c)). split; [apply handle_adds, Hhc|].
    split; [apply Hnone|reflexivity].
Qed.

Lemma step_sess (ev : Event) (c : Client) :
  Session.myId (sess (step ev c)) = Session.myId (sess c)
  /\ (hostControls (sess c) -> hostControls (sess (step ev c))).
Proof.
  destruct (handle_sess ev c) as (Hm & Hh).
  destruct (step_shape ev c)
    as [(_ & ->)|[(_ & _ & ->)|[(_ & _ & ->)|(_ & _ & -> & _)]]]; auto.
  destruct (render_sess (handle ev c)) as (Hm' & _ & Hh' & Hc').
  split; [congruence|]. unfold hostControls in *.
  rewrite Hh', Hc'. exact Hh.
Qed.

Lemma step_authority (me : string) (ev : Event) (c : Client) :
  inv me c -> inv me (step ev c).
Proof.
  intros (Hme & Hhc & Hw & Hs).
  destruct (step_sess ev c) as (Hm & Hh).
  destruct (step_adds ev c Hhc)
    as (mid & (_ & l1 & Heq1 & Ha1 & _) & (_ & l2 & Heq2 & Ha2 & _) & _).
  split; [congruence|]. split; [auto|]. split; [|apply step_subscribed, Hs].
  rewrite Heq2, Heq1, !Forall_app. rewrite <- Hme in *. auto.
Qed.

Lemma boot_authority (me name room : string) : inv me (boot me name room).
Proof.
  unfold boot.
  match goal with |- inv _ (render ?c0) =>
    destruct (render_sess c0) as (Hm & _ & Hh & Hc);
    destruct (render_greets c0) as (_ & l & Heq & Ha & _);
    split; [exact Hm|]; split;
      [unfold hostControls; rewrite Hh; discriminate|];
    split; [rewrite Heq; exact Ha|intros _; apply render_subscribed]
  end.
Qed.

Lemma run_authority (me : string) (evs : list Event) (c : Client) :
  inv me c -> inv me (run evs c).
Proof.
  revert c. induction evs as [|ev evs IH]; intros c Hinv; [exact Hinv|].
  cbn. apply IH, step_authority, Hinv.
Qed.



End AuthorityFacts.

(** X13: whatever happens to a client, every write it has made carries its
    own identifier: the [hostId] of a Room record it has set and the [by]
    of a playback state it has set or published are its [myId], which no
    event changes. *)
Theorem writes_carry_own_id (evs : list Event) (me name room : string) :
  let c := run evs (boot me name room) in
  Session.myId (sess c) = me
  /\ Forall (writtenBy me) (Store.writes (db c)).
Proof.
  intros c.
  destruct (AuthorityFacts.run_authority me evs _ (AuthorityFacts.boot_authority me name room))
    as (Hme & _ & Hw & _).
  split; assumption.
Qed.



(** *** The listeners of a tab opened on a room link *)

Module SubscriptionFacts.

Import Subscription.

Lemma render_settled (c : Client) :
  roomDeps c = Some (Session.roomId (sess c), Session.nickname (sess c)) ->
  sess (render c) = sess c
  /\ roomDeps (render c) = roomDeps c
  /\ listening (render c) = listening c.
Proof.
  intros H. unfold render. destruct (decide _); [|contradiction].
  repeat split.
Qed.

Lemma boot_atBoot (me name room : string) :
  room <> "" -> atBoot me name room (boot me name room).
Proof.
  intros Hroom. unfold boot, render, roomEffect.
  destruct (decide _) as [E|_]; [discriminate E|]. cbn.
  destruct room; [contradiction|]. cbn. repeat split. right. reflexivity.
Qed.

Lemma step_atBoot (me name room : string) (ev : Event) (c : Client) :
  room <> "" -> keepsName ev = true ->
  atBoot me name room c -> atBoot me name room (step ev c).
Proof.
  intros Hroom Hev (Hr & Hn & Hd & Hl).
  assert (Htruthy : Url.truthy (Session.roomId (sess c)) = true)
    by (rewrite Hr; destruct room; [contradiction|reflexivity]).
  destruct (AuthorityFacts.handle_effects ev c) as (Hd' & Hl' & _).
  destruct (AuthorityFacts.handle_room ev c Htruthy) as (Hr' & Hn').
  specialize (Hn' Hev).
  assert (Hhandle : atBoot me name room (handle ev c)).
  { unfold atBoot. rewrite Hr', Hn', Hd', Hl'. auto. }
  destruct (step_shape ev c)
    as [(_ & ->)|[(_ & _ & ->)|[(_ & _ & ->)|(_ & _ & -> & _)]]].
  - unfold atBoot. auto.
  - unfold atBoot, teardown. cbn. auto.
  - destruct Hhandle as (Hr2 & Hn2 & Hd2 & Hl2).
    destruct (render_settled (handle ev c)) as (Hs & Hd3 & Hl3);
      [rewrite Hd2, Hr2, Hn2; reflexivity|].
    unfold atBoot. rewrite Hs, Hd3, Hl3. auto.
  - exact Hhandle.
Qed.

Lemma run_atBoot (me name room : string) (evs : list Event) (c : Client) :
  room <> "" -> forallb keepsName evs = true ->
  atBoot me name room c -> atBoot me name room (run evs c).
Proof.
  intros Hroom. revert c. induction evs as [|ev evs IH]; intros c Hevs Hc;
    [exact Hc|].
  cbn in Hevs. apply andb_true_iff in Hevs as (Hev & Hevs).
  cbn. apply IH; [exact Hevs|]. apply step_atBoot; assumption.
Qed.

End SubscriptionFacts.

(** C1, which requires every received playback state to be reconciled,
    evaluated on the code.  The playback listener is created by the room
    effect and calls the [syncToPlayer] of the render in which that effect
    ran.  For a tab opened on a room link this is the first render, whose
    [videoUrl] is still empty: whatever the session has learnt since (the
    URL of the room, a YouTube one included), whichever player is mounted
    and however far it has drifted, the listener stores the state and makes
    no call on the player; after the event the player is as it was or, when
    the stored state made [App] render, as that render rebuilt it.  This
    lasts until the room effect runs again, which only a change of the
    nickname brings about. *)
Theorem joiner_listener_never_reconciles (evs : list Event)
    (me name room : string) :
  room <> "" ->
  forallb Subscription.keepsName evs = true ->
  let c := run evs (boot me name room) in
  forall (now : Q) (p : option Store.Playback),
    playerRef (handle (PlaybackValue now p) c) = playerRef c
    /\ (forall closure, listening c = Some closure ->
          snd (onPlaybackValue closure now p (sess c) (playerRef c))
          = (playerRef c, []))
    /\ (forall pb, p = Some pb -> listening c <> None ->
          Session.isPlaying (sess (handle (PlaybackValue now p) c))
          = truthyB (Store.isPlaying pb)
          /\ Session.remoteTime (sess (handle (PlaybackValue now p) c))
             = orZero (Store.currentTime pb)
          /\ Session.lastUpdateMs (sess (handle (PlaybackValue now p) c))
             = orZero (Store.updatedAt pb))
    /\ (playerRef (step (PlaybackValue now p) c) = playerRef c
        \/ playerRef (step (PlaybackValue now p) c)
           = rerenderPlayer <$> playerRef c).
Proof.
  intros Hroom Hevs c now p.
  destruct (SubscriptionFacts.run_atBoot me name room evs _ Hroom Hevs
              (SubscriptionFacts.boot_atBoot me name room Hroom))
    as (_ & _ & _ & Hl). fold c in Hl.
  assert (Hclosed : forall closure, listening c = Some closure ->
            syncToPlayer closure now p (playerRef c) = (playerRef c, [])).
  { intros closure Hc. destruct Hl as [Hl|Hl]; [congruence|].
    rewrite Hl in Hc. injection Hc as <-.
    apply syncToPlayer_closed; reflexivity. }
  assert (Hplayer : playerRef (handle (PlaybackValue now p) c) = playerRef c).
  { cbn [handle]. destruct (listening c) as [closure|]; [|reflexivity].
    unfold onPlaybackValue. destruct p as [pb|]; [|reflexivity].
    rewrite (Hclosed closure eq_refl). reflexivity. }
  split; [exact Hplayer|split; [|split]]; cycle 2.
  - destruct (step_shape (PlaybackValue now p) c)
      as [(_ & ->)|[(_ & Hne & _)|[(_ & _ & ->)|(_ & _ & -> & _)]]];
      [left; reflexivity|discriminate| |left; exact Hplayer].
    right. rewrite render_player, Hplayer. reflexivity.
  - intros closure Hc. unfold onPlaybackValue.
    destruct p as [pb|]; [|reflexivity].
    cbn [snd]. apply Hclosed, Hc.
  - intros pb -> Hsome. cbn [handle].
    destruct (listening c) as [closure|]; [|contradiction].
    unfold onPlaybackValue. rewrite (Hclosed closure eq_refl).
    repeat split.
Qed.

(** The theorem at the participant of [Joiner]: the session holds the
    YouTube URL of the room, the widget is ready and plays at second 99, the
    state received would have it at second 102; the listener makes no call,
    where the [syncToPlayer] of the current render (which the Sync button
    runs) would seek. *)
Lemma joiner_listener_never_reconciles_witness :
  "room000001" <> ""
  /\ forallb Subscription.keepsName Joiner.entering = true
  /\ Url.isYouTubeUrl (Session.videoUrl (sess Joiner.watching)) = true
  /\ (Session.videoUrl <$> listening Joiner.watching) = Some ""
  /\ playerRef Joiner.watching = Some (Scenario.widget 99)
  /\ snd (syncToPlayer (sess Joiner.watching) Scenario.now
            (Some Scenario.remote) (playerRef Joiner.watching))
     = [CallSeek (expectedPosition Scenario.now Scenario.remote)]
  /\ playerRef (handle (PlaybackValue Scenario.now (Some Scenario.remote))
                  Joiner.watching)
     = playerRef Joiner.watching
  /\ playerRef (step (PlaybackValue Scenario.now (Some Scenario.remote))
                  Joiner.watching)
     = Some (YouTube (YouTubePlayer.mk YouTubePlayer.fresh true false 0)).
Proof.
  split; [discriminate|]. split; [reflexivity|].
  split; [vm_compute; reflexivity|]. split; [vm_compute; reflexivity|].
  split; [vm_compute; reflexivity|]. split; [vm_compute; reflexivity|].
  split; [|vm_compute; reflexivity].
  apply (joiner_listener_never_reconciles Joiner.entering "guest00001"
           "Guest-ab12" "room000001"); [discriminate|reflexivity].
Defined.

(** *** Direct media rooms have no heartbeat *)

(** X15: in a room whose source is direct media the heartbeat is never
    armed.  Arming needs [viewerReady] for such a source, and the gate never
    opens there; so in every reachable state the arming condition is false,
    no interval timer is live, and the firing of any timer identifier
    leaves the store unchanged. *)
Theorem native_room_has_no_heartbeat (evs : list Event)
    (me name room : string) :
  forallb NativeRoom.keepsNative evs = true ->
  let c := run evs (boot me name room) in
  heartbeatDue (sess c) = false
  /\ Heartbeat.intervals (hb c) = ∅
  /\ (forall i now, db (step (Interval i now) c) = db c).
Proof.
  intros Hevs c.
  destruct (NativeRoomFacts.run_inv evs _ Hevs (NativeRoomFacts.boot_inv me name room))
    as ((Hurl & Hready) & _ & _). fold c in Hurl, Hready.
  pose proof (HeartbeatFacts.run_ok evs _ (HeartbeatFacts.boot_ok me name room))
    as Hok. fold c in Hok.
  assert (Hdue : heartbeatDue (sess c) = false).
  { unfold heartbeatDue. rewrite Hurl, Hready.
    rewrite andb_false_r, andb_false_r. reflexivity. }
  assert (Hnone : Heartbeat.intervals (hb c) = ∅).
  { unfold HeartbeatInv.ok in Hok. destruct (alive c); [|exact Hok].
    destruct Hok as (_ & Hd). rewrite HeartbeatFacts.dueOf_depsOf, Hdue in Hd.
    apply Hd. }
  split; [exact Hdue|]. split; [exact Hnone|].
  intros i now. destruct (alive c) eqn:Ha;
    [|unfold step; rewrite Ha; reflexivity].
  rewrite step_Interval_db by exact Ha. unfold Heartbeat.fire.
  rewrite Hnone, lookup_empty. reflexivity.
Qed.

Lemma native_room_has_no_heartbeat_witness :
  let evs :=
    [Create Scenario.mp4 "room000001" Echo.created (Echo.created + 1);
     Mount None (Html5Player.mkVideo 0 true false false None)
       (YouTubePlayer.mkWidget 0 (-1) []);
     PlaybackValue Scenario.now (Some Scenario.remote)] in
  let c := run evs (boot "host000001" "Ann" "") in
  forallb NativeRoom.keepsNative evs = true
  /\ Session.canControl (sess c) = true
  /\ Session.isPlaying (sess c) = true
  /\ Heartbeat.intervals (hb c) = ∅.
Proof.
  intros evs c. split; [reflexivity|].
  split; [vm_compute; reflexivity|]. split; [vm_compute; reflexivity|].
  apply (native_room_has_no_heartbeat evs "host000001" "Ann" "").
  reflexivity.
Defined.

(** *** The room link *)

Lemma get_set_eq (name value : string) (ps : list (string * string)) :
  Url.searchParams_get name (searchParams_set name value ps) = Some value.
Proof.
  induction ps as [|[k v] rest IH]; cbn.
  - rewrite String.eqb_refl. reflexivity.
  - destruct (String.eqb k name) eqn:E; cbn.
    + rewrite String.eqb_refl. reflexivity.
    + rewrite E. exact IH.
Qed.

Lemma get_filter_ne (name other : string) (ps : list (string * string)) :
  other <> name ->
  Url.searchParams_get other
    (List.filter (fun kv => negb (String.eqb (fst kv) name)) ps)
  = Url.searchParams_get other ps.
Proof.
  intros Hne. induction ps as [|[k v] rest IH]; [reflexivity|].
  cbn. destruct (String.eqb k name) eqn:E; cbn.
  - apply String.eqb_eq in E. subst k.
    destruct (String.eqb name other) eqn:E'; [|exact IH].
    apply String.eqb_eq in E'. congruence.
  - destruct (String.eqb k other); [reflexivity|exact IH].
Qed.

Lemma get_set_ne (name other value : string) (ps : list (string * string)) :
  other <> name ->
  Url.searchParams_get other (searchParams_set name value ps)
  = Url.searchParams_get other ps.
Proof.
  intros Hne. induction ps as [|[k v] rest IH]; cbn.
  - destruct (String.eqb name other) eqn:E; [|reflexivity].
    apply String.eqb_eq in E. congruence.
  - destruct (String.eqb k name) eqn:E; cbn.
    + apply String.eqb_eq in E. subst k.
      destruct (String.eqb name other) eqn:E'.
      * apply String.eqb_eq in E'. congruence.
      * apply get_filter_ne, Hne.
    + destruct (String.eqb k other); [reflexivity|exact IH].
Qed.

Lemma filter_names (name : string) (ps : list (string * string)) :
  Forall (fun kv => fst kv <> name)
    (List.filter (fun kv => negb (String.eqb (fst kv) name)) ps).
Proof.
  induction ps as [|[k v] rest IH]; cbn; [constructor|].
  destruct (String.eqb k name) eqn:E; cbn; [exact IH|].
  constructor; [|exact IH]. cbn. intros ->.
  rewrite String.eqb_refl in E. discriminate.
Qed.

Lemma filter_none (name : string) (ps : list (string * string)) :
  Forall (fun kv => fst kv <> name) ps ->
  List.filter (fun kv => negb (String.eqb (fst kv) name)) ps = ps.
Proof.
  induction 1 as [|[k v] rest Hk _ IH]; [reflexivity|].
  cbn in *. destruct (String.eqb k name) eqn:E.
  - apply String.eqb_eq in E. contradiction.
  - cbn. rewrite IH. reflexivity.
Qed.

Lemma set_set (name value : string) (ps : list (string * string)) :
  searchParams_set name value (searchParams_set name value ps)
  = searchParams_set name value ps.
Proof.
  induction ps as [|[k v] rest IH]; cbn.
  - rewrite String.eqb_refl. reflexivity.
  - destruct (String.eqb k name) eqn:E; cbn.
    + rewrite String.eqb_refl, (filter_none _ _ (filter_names name rest)).
      reflexivity.
    + rewrite E, IH. reflexivity.
Qed.

(** X16: the room link leads back to the room.  For a session in a room
    the link is the current address with the parameter [room] set to the
    room's identifier: host, path and every other parameter are kept; a tab
    opened on it starts with that identifier as its [roomId], whatever
    [room] parameters the address had before; its own link is the same
    link; and outside a room there is no link. *)
Theorem roomLink_leads_to_room (roomId : string) (here : Url.URL)
    (me name : string) :
  roomId <> "" ->
  exists link,
    roomLink roomId here = Some link
    /\ Url.hostname link = Url.hostname here
    /\ Url.pathname link = Url.pathname here
    /\ (forall k, k <> "room" ->
          Url.searchParams_get k (Url.searchParams link)
          = Url.searchParams_get k (Url.searchParams here))
    /\ initialRoomId link = roomId
    /\ Session.roomId (sess (boot me name (initialRoomId link))) = roomId
    /\ roomLink roomId link = Some link
    /\ roomLink "" here = None.
Proof.
  intros Hne. unfold roomLink.
  destruct roomId as [|a r]; [contradiction|]. cbn [Url.truthy negb].
  eexists. split; [reflexivity|]. cbn [Url.hostname Url.pathname Url.searchParams].
  assert (Hinit : forall ps,
            initialRoomId (Url.mkURL (Url.hostname here) (Url.pathname here)
                             (searchParams_set "room" (String a r) ps))
            = String a r)
    by (intros ps; unfold initialRoomId; cbn [Url.searchParams];
        rewrite get_set_eq; reflexivity).
  repeat match goal with |- _ /\ _ => split end; try reflexivity.
  - intros k Hk. apply get_set_ne, Hk.
  - apply Hinit.
  - rewrite Hinit. unfold boot, render. destruct (decide _); reflexivity.
  - rewrite set_set. reflexivity.
Qed.

Lemma roomLink_leads_to_room_witness :
  let here :=
    Url.mkURL "watch.example" "/"
      [("lang", "en"); ("room", "old0000001"); ("room", "old0000002")] in
  "room000001" <> ""
  /\ exists link,
       roomLink "room000001" here = Some link
       /\ Url.searchParams link = [("lang", "en"); ("room", "room000001")]
       /\ initialRoomId link = "room000001".
Proof.
  intros here. split; [discriminate|].
  destruct (roomLink_leads_to_room "room000001" here "me" "Ann")
    as (link & Hlink & _ & _ & _ & Hinit & _); [discriminate|].
  exists link. split; [exact Hlink|]. split; [|exact Hinit].
  injection Hlink as <-. reflexivity.
Defined.

(** *** Identity across reloads *)

Lemma makeId_truthy (bytes : list byte) :
  bytes <> [] -> Url.truthy (makeId bytes) = true.
Proof. destruct bytes; [contradiction|reflexivity]. Qed.

Lemma getOr_truthy (key fallback : string) (ls : Identity.Storage) :
  Url.truthy fallback = true -> Url.truthy (Identity.getOr key fallback ls) = true.
Proof.
  intros H. unfold Identity.getOr. destruct (ls !! key) as [v|]; [|exact H].
  destruct (Url.truthy v) eqn:E; assumption.
Qed.

Lemma getOr_stored (key v fallback : string) (ls : Identity.Storage) :
  ls !! key = Some v -> Url.truthy v = true -> Identity.getOr key fallback ls = v.
Proof. intros H Hv. unfold Identity.getOr. rewrite H, Hv. reflexivity. Qed.

(** X17: the identity survives a reload.  After the first render the
    participant's identifier and name are both non-empty and both are in
    [localStorage]; a later first render from that storage, whatever the
    random source gives then, returns the same identifier and the same
    name and leaves the storage as it is. *)
Theorem identity_survives_reload (ls : Identity.Storage)
    (nameBytes idBytes nameBytes' idBytes' : list byte) :
  idBytes <> [] ->
  let '(id, nick, ls1) := Identity.firstRender ls nameBytes idBytes in
  id <> "" /\ nick <> ""
  /\ ls1 !! "wt_uid" = Some id /\ ls1 !! "wt_name" = Some nick
  /\ Identity.firstRender ls1 nameBytes' idBytes' = (id, nick, ls1).
Proof.
  intros Hbytes. unfold Identity.firstRender.
  set (nick := Identity.initialNickname ls nameBytes).
  assert (Hnick : Url.truthy nick = true)
    by (apply getOr_truthy; reflexivity).
  assert (Hid : exists id ls1,
            Identity.initialMyId ls idBytes = (id, ls1)
            /\ Url.truthy id = true /\ ls1 !! "wt_uid" = Some id).
  { unfold Identity.initialMyId.
    destruct (ls !! "wt_uid") as [id|] eqn:E.
    - destruct (Url.truthy id) eqn:Et.
      + exists id, ls. auto.
      + eexists _, _. split; [reflexivity|].
        split; [apply makeId_truthy, Hbytes|apply lookup_insert_eq].
    - eexists _, _. split; [reflexivity|].
      split; [apply makeId_truthy, Hbytes|apply lookup_insert_eq]. }
  destruct Hid as (id & ls1 & -> & Hidt & Hstored).
  unfold Identity.nicknameEffect, Identity.Storage in *.
  assert (Huid : (<["wt_name" := nick]> ls1) !! "wt_uid" = Some id)
    by (rewrite lookup_insert_ne by discriminate; exact Hstored).
  assert (Hname : (<["wt_name" := nick]> ls1) !! "wt_name" = Some nick)
    by apply lookup_insert_eq.
  split; [apply truthy_spec, Hidt|]. split; [apply truthy_spec, Hnick|].
  split; [exact Huid|]. split; [exact Hname|].
  unfold Identity.initialNickname.
  rewrite (getOr_stored _ _ _ _ Hname Hnick).
  unfold Identity.initialMyId, Identity.Storage in *.
  rewrite Huid, Hidt, insert_insert_eq. reflexivity.
Qed.

Lemma identity_survives_reload_witness :
  let bytes := [x4a; x0f; xff; x23; x00; x24; x99; x10; x7b; x3e]%byte in
  bytes <> []
  /\ let '(id, nick, ls1) := Identity.firstRender ∅ [x01; x02; x03; x04]%byte bytes in
     id <> "" /\ nick <> ""
     /\ ls1 !! "wt_uid" = Some id /\ ls1 !! "wt_name" = Some nick
     /\ Identity.firstRender ls1 [] [] = (id, nick, ls1).
Proof.
  intros bytes. split; [discriminate|].
  apply (identity_survives_reload ∅ [x01; x02; x03; x04]%byte bytes [] []).
  discriminate.
Defined.

(** *** A message from the text field to the chat list *)

Lemma sendChat_facts (s : Session.t) (chatInput : string) (now : Q) :
  match fst (sendChat s chatInput now) with
  | None => True
  | Some (room, m) =>
      Chat.uid m = Some (Session.myId s)
      /\ Chat.text m = Some (trim chatInput)
      /\ exists n, Chat.name m = Some n /\ n <> ""
  end.
Proof.
  unfold sendChat.
  destruct (negb (Url.truthy (trim chatInput))
            || negb (Url.truthy (Session.roomId s))); cbn [fst]; [exact I|].
  cbn. split; [reflexivity|]. split; [reflexivity|].
  destruct (Url.truthy (Session.nickname s)) eqn:Hn.
  - apply truthy_spec in Hn. eauto.
  - eexists. split; [reflexivity|discriminate].
Qed.

(** X18: a message sent with [sendChat], once the chat listener delivers a
    snapshot that holds it under key [k], is rendered by [ChatList] under
    that key as the participant's own, with the name [sendChat] gave it
    (never the fallback of a missing name) and the trimmed text; the list
    has one row per child of the snapshot and no placeholder; and a
    message whose [uid] is not [myId] is never rendered as own. *)
Theorem sent_message_is_shown_as_own (s : Session.t) (chatInput : string)
    (now : Q) (room k : string) (m : Chat.Message)
    (others : list (string * Chat.Message)) :
  fst (sendChat s chatInput now) = Some (room, m) ->
  let shown :=
    ChatList.render (Chat.onChatValue (Some (others ++ [(k, m)])%list))
      (Session.myId s) in
  fst shown = false
  /\ List.length (snd shown) = S (List.length others)
  /\ (exists n, Chat.name m = Some n /\ n <> ""
                /\ In (ChatList.mkRow k true n (Some (trim chatInput)))
                     (snd shown))
  /\ (forall e, Chat.uid (Chat.msg e) <> Some (Session.myId s) ->
                ChatList.own (ChatList.row (Session.myId s) e) = false).
Proof.
  intros Hsent shown.
  pose proof (sendChat_facts s chatInput now) as Hf. rewrite Hsent in Hf.
  destruct Hf as (Huid & Htext & n & Hname & Hn).
  destruct (sort_facts
              (map (fun km => Chat.mkEntry (fst km) (snd km))
                 (others ++ [(k, m)])%list)) as (Hperm & _ & _).
  assert (Hval : Chat.onChatValue (Some (others ++ [(k, m)])%list)
                 = Chat.sort (map (fun km => Chat.mkEntry (fst km) (snd km))
                                (others ++ [(k, m)])%list))
    by reflexivity.
  assert (Hlen : List.length (Chat.onChatValue (Some (others ++ [(k, m)])%list))
                 = S (List.length others)).
  { rewrite Hval, <- (Permutation_length Hperm), length_map, length_app.
    cbn. lia. }
  split; [|split; [|split]].
  - unfold shown, ChatList.render. cbn [fst]. rewrite Hlen. reflexivity.
  - unfold shown, ChatList.render. cbn [snd]. rewrite length_map. exact Hlen.
  - exists n. split; [exact Hname|]. split; [exact Hn|].
    unfold shown, ChatList.render. cbn [snd].
    replace (ChatList.mkRow k true n (Some (trim chatInput)))
      with (ChatList.row (Session.myId s) (Chat.mkEntry k m)).
    + apply in_map. rewrite Hval.
      apply (Permutation_in _ Hperm). apply in_map_iff.
      exists (k, m). split; [reflexivity|]. apply in_or_app. right. left.
      reflexivity.
    + unfold ChatList.row. cbn. rewrite Huid, Htext, Hname, String.eqb_refl.
      destruct n; [contradiction|reflexivity].
  - intros e He. unfold ChatList.row. cbn.
    destruct (Chat.uid (Chat.msg e)) as [u|]; [|reflexivity].
    apply String.eqb_neq. congruence.
Qed.

Lemma sent_message_is_shown_as_own_witness :
  let s := Scenario.guest Scenario.short false false in
  let m := Chat.mkMessage (Some "guest00001") (Some "Guest-ab12")
             (Some "hi there") (Some 5%Q) in
  fst (sendChat s "  hi there " 5) = Some ("room000001", m)
  /\ In (ChatList.mkRow "k9" true "Guest-ab12" (Some "hi there"))
       (snd (ChatList.render (Chat.onChatValue (Some [("k9", m)]))
               "guest00001")).
Proof.
  intros s m. split; [reflexivity|].
  destruct (sent_message_is_shown_as_own s "  hi there " 5 "room000001" "k9"
              m [] eq_refl) as (_ & _ & (n & Hn & _ & Hin) & _).
  injection Hn as <-.
  replace (trim "  hi there ") with "hi there" in Hin
    by (vm_compute; reflexivity).
  exact Hin.
Defined.

(** *** The video URL is fixed once *)

Lemma notifyAll_url (ns : list Notification) (now : Q)
    (playerRef : option Player) (s : Session.t) (d : Store.Db) :
  Session.videoUrl (fst (notifyAll ns now playerRef (s, d)))
  = Session.videoUrl s.
Proof.
  unfold notifyAll. revert s d. induction ns as [|n ns IH]; intros s d;
    [reflexivity|].
  cbn [fold_left]. destruct n; cbn [notify]; rewrite IH; reflexivity.
Qed.

Lemma handle_url (ev : Event) (c : Client) :
  fixesUrl ev = false ->
  Session.videoUrl (sess (handle ev c)) = Session.videoUrl (sess c).
Proof.
  destruct ev; cbn [fixesUrl handle]; try discriminate; intros _;
    try reflexivity.
  - destruct (listening c); [|reflexivity]. destruct d; reflexivity.
  - destruct (listening c) as [cl|]; [|reflexivity].
    unfold onPlaybackValue. destruct p as [pb|]; [|reflexivity].
    destruct (syncToPlayer cl now (Some pb) (playerRef c)). reflexivity.
  - destruct (playerRef c) as [p|]; [|reflexivity].
    destruct (raise ev p) as [p' ns].
    pose proof (notifyAll_url ns now (Some p') (sess c) (db c)) as H.
    destruct (notifyAll ns now (Some p') (sess c, db c)) as [s' d'].
    exact H.
  - destruct (playerRef c) as [[h|y]|]; reflexivity.
  - destruct (playerRef c) as [[h|y]|]; reflexivity.
  - destruct (playerRef c) as [[h|y]|]; reflexivity.
  - destruct (playerRef c) as [[h|y]|]; reflexivity.
  - destruct (handleSeekDelta (sess c) d now (playerRef c) (db c)).
    reflexivity.
  - destruct (Url.truthy (Session.roomId (sess c))); reflexivity.
Qed.

Lemma step_url (ev : Event) (c : Client) :
  fixesUrl ev = false ->
  Session.videoUrl (sess (step ev c)) = Session.videoUrl (sess c).
Proof.
  intros Hev.
  destruct (step_shape ev c)
    as [(_ & ->)|[(_ & _ & ->)|[(_ & _ & ->)|(_ & _ & -> & _)]]];
    try reflexivity; [|apply handle_url, Hev].
  rewrite <- (handle_url ev c Hev).
  destruct (render_sess_cases (handle ev c)) as [->| ->]; reflexivity.
Qed.

(** X19: the session's video URL is fixed by the answer to the initial
    [get] of the room (or by creating the room) and by nothing else.  The
    live listener on the Room record updates host and control only: over
    any run of events without those two, snapshots of the Room record
    included, whatever URL they carry, the session keeps its URL. *)
Theorem live_listener_never_follows_url (evs : list Event) (c : Client) :
  forallb (fun ev => negb (fixesUrl ev)) evs = true ->
  Session.videoUrl (sess (run evs c)) = Session.videoUrl (sess c).
Proof.
  revert c. induction evs as [|ev evs IH]; intros c H; [reflexivity|].
  cbn in H. apply andb_true_iff in H as (Hev & Hevs).
  cbn [run fold_left]. fold (run evs (step ev c)).
  rewrite (IH _ Hevs). apply step_url. apply negb_true_iff, Hev.
Qed.

Lemma live_listener_never_follows_url_witness :
  let moved :=
    Store.mkRoom (Some Scenario.mp4) (Some "host000001") (Some false)
      (Some Echo.created) None in
  let evs := [RoomValue (Some moved); ClickSync Scenario.now None] in
  forallb (fun ev => negb (fixesUrl ev)) evs = true
  /\ Session.videoUrl (sess (run evs Echo.joined)) = Scenario.short.
Proof.
  intros moved evs. split; [reflexivity|].
  rewrite (live_listener_never_follows_url evs Echo.joined eq_refl).
  vm_compute. reflexivity.
Defined.

(** *** The [/embed/] pattern *)

Lemma prefix_app_char (lit s : string) (c : ascii) :
  String.prefix (lit ++ String c "") s = true ->
  String.prefix lit s = true
  /\ exists tail, Url.skip (String.length lit) s = String c tail.
Proof.
  revert s. induction lit as [|a lit IH]; intros s.
  - change ("" ++ String c "") with (String c "").
    destruct s as [|b tail]; cbn; [discriminate|].
    destruct (ascii_dec c b) as [->|]; [|discriminate].
    intros _. split; [reflexivity|]. exists tail. reflexivity.
  - change (String a lit ++ String c "") with (String a (lit ++ String c "")).
    destruct s as [|b rest]; cbn [String.prefix]; [discriminate|].
    destruct (ascii_dec a b); [|discriminate].
    intros H. destruct (IH rest H) as (Hp & tail & Ht).
    split; [exact Hp|]. exists tail. exact Ht.
Qed.

Lemma matchEmbed_none (path : string) (c : ascii) :
  Url.matchEmbed path = None -> Url.isWordChar c = true ->
  Url.includes ("/embed/" ++ String c "") path = false.
Proof.
  intros Hnone Hc. induction path as [|a rest IH]; [reflexivity|].
  cbn [Url.matchEmbed] in Hnone. cbn [Url.includes].
  assert (Hrest : Url.matchEmbed rest = None).
  { destruct (String.prefix "/embed/" (String a rest));
      [destruct (Url.truthy _); [discriminate|]|]; exact Hnone. }
  rewrite (IH Hrest), orb_false_r.
  destruct (String.prefix ("/embed/" ++ String c "") (String a rest)) eqn:Hp;
    [|reflexivity].
  apply prefix_app_char in Hp as (Hlit & tail & Htail).
  rewrite Hlit in Hnone.
  change (String.length "/embed/") with 7%nat in Htail.
  rewrite Htail in Hnone. cbn [Url.takeWord] in Hnone.
  rewrite Hc in Hnone. discriminate.
Qed.

(** X20: what [path.match(/\/embed\/([\w-]+)/)] finds.  When it yields an
    identifier, that is a non-empty run of class characters standing
    behind the literal [/embed/] somewhere in the path; it yields none
    only when the path nowhere has [/embed/] followed by a class
    character. *)
Theorem matchEmbed_finds_embed (path : string) :
  match Url.matchEmbed path with
  | Some id =>
      Url.truthy id = true /\ allWord id = true
      /\ Url.includes ("/embed/" ++ id) path = true
  | None =>
      forall c, Url.isWordChar c = true ->
                Url.includes ("/embed/" ++ String c "") path = false
  end.
Proof.
  destruct (Url.matchEmbed path) as [id|] eqn:E.
  - apply matchEmbed_sound, E.
  - intros c Hc. apply matchEmbed_none; assumption.
Qed.

(** *** The displayed time and the reconciler *)

(** X21: the time display and the reconciler read the same received
    state.  Once the playback listener has stored a state, the position the
    display shows at a later instant is the position [syncToPlayer] expects
    at that instant, as long as the state's stamp is not ahead of the local
    clock.  When the stamp is ahead and the state is playing, the display,
    which clamps the elapsed time at 0, shows the published position, and
    the reconciler, which does not, expects an earlier one. *)
Theorem display_agrees_with_reconciler (closure s : Session.t) (now later : Q)
    (pb : Store.Playback) (playerRef : option Player) :
  let s' := fst (onPlaybackValue closure now (Some pb) s playerRef) in
  ((orZero (Store.updatedAt pb) <= later)%Q ->
   shownPosition s' later = expectedPosition later pb)
  /\ ((later < orZero (Store.updatedAt pb))%Q ->
      truthyB (Store.isPlaying pb) = true ->
      (shownPosition s' later == orZero (Store.currentTime pb))%Q
      /\ (expectedPosition later pb < shownPosition s' later)%Q).
Proof.
  cbn zeta. unfold onPlaybackValue, shownPosition, expectedPosition.
  cbn [fst Session.remoteTime Session.isPlaying Session.lastUpdateMs].
  set (u := orZero (Store.updatedAt pb)).
  set (t := orZero (Store.currentTime pb)).
  assert (Hk : (0 < / 1000)%Q) by reflexivity.
  split.
  - intros Hle. destruct (truthyB (Store.isPlaying pb)); [|reflexivity].
    rewrite max0_id; [reflexivity|].
    unfold Qdiv. apply Qmult_le_0_compat; [|apply Qlt_le_weak, Hk].
    rewrite <- (Qplus_opp_r u). apply Qplus_le_l, Hle.
  - intros Hlt ->.
    assert (Hneg : ((later - u) / 1000 < 0)%Q).
    { unfold Qdiv. rewrite <- (Qmult_0_l (/ 1000)).
      apply Qmult_lt_compat_r; [exact Hk|].
      rewrite <- (Qplus_opp_r u). apply Qplus_lt_l, Hlt. }
    assert (Hmax : max0 ((later - u) / 1000) = 0%Q).
    { unfold max0. destruct (Qle_bool 0 ((later - u) / 1000)) eqn:E;
        [|reflexivity].
      apply Qle_bool_iff in E. exfalso.
      exact (Qlt_irrefl _ (Qle_lt_trans _ _ _ E Hneg)). }
    rewrite Hmax. split; [ring|].
    apply Qplus_lt_r, Hneg.
Qed.

Lemma display_agrees_with_reconciler_witness :
  let s := Scenario.guest Scenario.short true false in
  let s' := fst (onPlaybackValue s Scenario.now (Some Scenario.remote) s None) in
  (orZero (Store.updatedAt Scenario.remote) <= Scenario.now + 3000)%Q
  /\ shownPosition s' (Scenario.now + 3000)
     = expectedPosition (Scenario.now + 3000) Scenario.remote
  /\ playerUiTime s' (Scenario.now + 3000) = "1:45".
Proof.
  intros s s'. split; [vm_compute; discriminate|]. split.
  - apply (display_agrees_with_reconciler s s Scenario.now
             (Scenario.now + 3000) Scenario.remote None).
    vm_compute; discriminate.
  - vm_compute. reflexivity.
Defined.
